(** * limesurveyrc2api: the survey operations, the question document builder
      and the identifier generator

    A shallow embedding of [limesurveyrc2api/_utils.py] and
    [limesurveyrc2api/_survey.py].

    - Python [str] values are sequences of Unicode code points ([list Z]);
      [bytes] values are sequences of octets ([list Z], each in [0, 256)).
    - The values exchanged with the JSON-RPC transport are the inductive
      [pyvalue].
    - An operation is a tree of effects ([prog]): the single transport call
      [self.api.query], the draw of [random.randint], reading a file, a
      warning and a [print].  [run] interprets such a tree in a [world] and
      returns the outcome together with the log of transport calls.
    - Builtins of the language runtime whose definition lies outside the
      repository ([str.upper], [int] on text, [json.loads], ...) are the
      fields of the record [Python]. *)

From Stdlib Require Import ZArith List String Ascii Bool Lia DecimalString.
From Equations Require Import Equations.
Import ListNotations.

Set Warnings "-register-all".
Local Open Scope Z_scope.
Local Open Scope list_scope.

(** ** Text and bytes *)

Definition codepoint := Z.
Definition str := list codepoint.
Definition bytes := list Z.

(** A source literal, which is ASCII throughout the repository. *)
Definition u (s : string) : str :=
  map (fun a => Z.of_N (N_of_ascii a)) (list_ascii_of_string s).

Fixpoint str_eqb (a b : str) : bool :=
  match a, b with
  | [], [] => true
  | x :: a', y :: b' => (x =? y) && str_eqb a' b'
  | _, _ => false
  end.

Definition len {A} (l : list A) : Z := Z.of_nat (List.length l).

Fixpoint startswith (prefix s : str) : bool :=
  match prefix, s with
  | [], _ => true
  | x :: p', y :: s' => (x =? y) && startswith p' s'
  | _ :: _, [] => false
  end.

(** [needle in haystack] on text. *)
Fixpoint contains (needle haystack : str) : bool :=
  startswith needle haystack ||
  match haystack with
  | [] => false
  | _ :: rest => contains needle rest
  end.

(** ** Values, types and exceptions *)

Inductive pyvalue : Type :=
| PNone
| PBool (b : bool)
| PInt (n : Z)
| PFloat (bits : Z)            (* the IEEE-754 binary64 pattern *)
| PStr (s : str)
| PList (items : list pyvalue)
| PDict (items : list (str * pyvalue)).

Inductive pytype := NoneType | bool_t | int_t | float_t | str_t | list_t | dict_t.

Definition type (v : pyvalue) : pytype :=
  match v with
  | PNone => NoneType
  | PBool _ => bool_t
  | PInt _ => int_t
  | PFloat _ => float_t
  | PStr _ => str_t
  | PList _ => list_t
  | PDict _ => dict_t
  end.

Definition pytype_is (a b : pytype) : bool :=
  match a, b with
  | NoneType, NoneType | bool_t, bool_t | int_t, int_t | float_t, float_t
  | str_t, str_t | list_t, list_t | dict_t, dict_t => true
  | _, _ => false
  end.

(** Truth value testing. *)
Definition truthy (v : pyvalue) : bool :=
  match v with
  | PNone => false
  | PBool b => b
  | PInt n => negb (n =? 0)
  | PFloat bits => negb (bits mod 2 ^ 63 =? 0)   (* 0.0 and -0.0 are false *)
  | PStr s => negb (len s =? 0)
  | PList l => negb (len l =? 0)
  | PDict d => negb (len d =? 0)
  end.

(** [a or b] *)
Definition py_or (a b : pyvalue) : pyvalue := if truthy a then a else b.

(** [status == message] for a text [message]. *)
Definition eq_str (v : pyvalue) (message : str) : bool :=
  match v with
  | PStr s => str_eqb s message
  | _ => false
  end.

Inductive exn : Type :=
| LimeSurveyError (method : str) (status : pyvalue)
| AssertionError
| ValueError (message : str)
| OverflowError
| TypeError
| AttributeError
| UnicodeEncodeError
| UnicodeDecodeError
| binascii_Error
| JSONDecodeError
| OSError.

Inductive result (A : Type) : Type :=
| Ok (a : A)
| Err (e : exn).
Arguments Ok {A} a.
Arguments Err {A} e.

(** ** Mappings in insertion order *)

Definition odict := list (str * pyvalue).

Fixpoint dict_get {V} (d : list (str * V)) (key : str) : option V :=
  match d with
  | [] => None
  | (k, v) :: rest => if str_eqb k key then Some v else dict_get rest key
  end.

Definition dict_in {V} (key : str) (d : list (str * V)) : bool :=
  match dict_get d key with Some _ => true | None => false end.

(** [d[key] = v]: an existing key keeps its position, a new one is appended. *)
Fixpoint dict_set {V} (d : list (str * V)) (key : str) (v : V) : list (str * V) :=
  match d with
  | [] => [(key, v)]
  | (k, x) :: rest =>
      if str_eqb k key then (k, v) :: rest else (k, x) :: dict_set rest key v
  end.

(** [d.update(other)] *)
Definition dict_update {V} (d other : list (str * V)) : list (str * V) :=
  fold_left (fun acc kv => dict_set acc (fst kv) (snd kv)) other d.

(** [dict.fromkeys(keys)] *)
Definition dict_fromkeys (keys : list str) : odict :=
  fold_left (fun acc k => dict_set acc k PNone) keys [].

Definition keys {V} (d : list (str * V)) : list str := map fst d.

(** ** Effects *)

Inductive prog (A : Type) : Type :=
| Ret (a : A)
| Raise (e : exn)
| Query (method : str) (params : odict) (k : pyvalue -> prog A)
| RandInt (lo hi : Z) (k : Z -> prog A)
| ReadFile (path : pyvalue) (k : bytes -> prog A)
| Warn (message : str) (k : prog A)
| Print (t : pytype) (k : prog A).
Arguments Ret {A} a.
Arguments Raise {A} e.
Arguments Query {A} method params k.
Arguments RandInt {A} lo hi k.
Arguments ReadFile {A} path k.
Arguments Warn {A} message k.
Arguments Print {A} t k.

Fixpoint bind {A B} (p : prog A) (f : A -> prog B) : prog B :=
  match p with
  | Ret a => f a
  | Raise e => Raise e
  | Query m ps k => Query m ps (fun r => bind (k r) f)
  | RandInt lo hi k => RandInt lo hi (fun n => bind (k n) f)
  | ReadFile path k => ReadFile path (fun b => bind (k b) f)
  | Warn msg k => Warn msg (bind k f)
  | Print t k => Print t (bind k f)
  end.

Definition lift {A} (r : result A) : prog A :=
  match r with
  | Ok a => Ret a
  | Err e => Raise e
  end.

Declare Scope prog_scope.
Delimit Scope prog_scope with prog.
Notation "x <- p ;; q" := (bind p (fun x => q))
  (at level 61, p at next level, right associativity) : prog_scope.
Notation "p ;;; q" := (bind p (fun _ => q))
  (at level 61, right associativity) : prog_scope.

(** [assert c] *)
Definition assert (c : bool) : prog unit :=
  if c then Ret tt else Raise AssertionError.

(** The environment an operation runs in. *)
Record world : Type := {
  transport : str -> odict -> pyvalue;      (* the reply of the remote end *)
  randint : Z -> Z -> Z;                    (* the draw of random.randint *)
  read_file : pyvalue -> result bytes       (* open(path, 'rb').read() *)
}.

Definition call : Type := (str * odict)%type.

Fixpoint run {A} (w : world) (p : prog A) : result A * list call :=
  match p with
  | Ret a => (Ok a, [])
  | Raise e => (Err e, [])
  | Query m ps k =>
      let (r, log) := run w (k (transport w m ps)) in (r, (m, ps) :: log)
  | RandInt lo hi k =>
      if hi <? lo then (Err (ValueError (u "empty range for randrange()")), [])
      else run w (k (randint w lo hi))
  | ReadFile path k =>
      match read_file w path with
      | Ok b => run w (k b)
      | Err e => (Err e, [])
      end
  | Warn _ k => run w k
  | Print _ k => run w k
  end.

Definition outcome {A} (w : world) (p : prog A) : result A := fst (run w p).
Definition calls {A} (w : world) (p : prog A) : list call := snd (run w p).

(** The reply a program received, when it made exactly one transport call. *)
Definition reply {A} (w : world) (p : prog A) : option pyvalue :=
  match calls w p with
  | [(m, ps)] => Some (transport w m ps)
  | _ => None
  end.

(** [random.randint(lo, hi)] returns an integer N with lo <= N <= hi. *)
Definition randint_spec (w : world) : Prop :=
  forall lo hi, lo <= hi -> lo <= randint w lo hi <= hi.

(** ** _utils.py *)

Module Utils.

Definition ALPHABET : str := u "abcdefghijklmnopqrstuvwxyz0123456789".

(** [__init__] stores [len(ALPHABET)] and the requested length; the first
    is the same for every instance. *)
Definition _alphabet_length : Z := len ALPHABET.

Record IDGenerator : Type := { _id_length : Z }.

(** [ALPHABET[r]]; the loop below only indexes with a remainder of the
    division by [_alphabet_length]. *)
Definition ALPHABET_at (r : Z) : codepoint := nth (Z.to_nat r) ALPHABET 0.

(** The check that the digit of the remainder [k] is a character of the
    alphabet, and the letter [a] only for the remainder 0. *)
Definition digit_ok (k : nat) : bool :=
  existsb (Z.eqb (ALPHABET_at (Z.of_nat k))) ALPHABET
  && ((k =? 0)%nat || negb (ALPHABET_at (Z.of_nat k) =? ALPHABET_at 0)).

(** The number of binary digits of a positive integer: the measure under
    which the loop of [_encode_int] terminates. *)
Definition bitlen (n : Z) : nat :=
  match n with
  | Zpos p => Pos.size_nat p
  | _ => O
  end.

Lemma bitlen_pos n : 0 < n -> (1 <= bitlen n)%nat.
Proof. destruct n as [|p|p]; try lia. destruct p; simpl; lia. Qed.

Lemma bitlen_spec n :
  0 < n -> 2 ^ (Z.of_nat (bitlen n) - 1) <= n < 2 ^ Z.of_nat (bitlen n).
Proof.
  destruct n as [|p|p]; try lia. intros _. simpl.
  induction p as [p IH|p IH|]; simpl Pos.size_nat; [| |simpl; lia];
    pose proof (bitlen_pos (Zpos p) eq_refl) as Hp; simpl in Hp;
    rewrite Nat2Z.inj_succ;
    replace (Z.succ (Z.of_nat (Pos.size_nat p)) - 1)
      with (Z.succ (Z.of_nat (Pos.size_nat p) - 1)) by lia;
    rewrite !Z.pow_succ_r by lia; lia.
Qed.

Lemma bitlen_div_lt n : 0 < n -> (bitlen (n / 36) < bitlen n)%nat.
Proof.
  intros Hn.
  assert (H0 : 0 <= n / 36) by (apply Z.div_pos; lia).
  pose proof (bitlen_pos n Hn) as Hb.
  destruct (Z.eq_dec (n / 36) 0) as [E|E].
  - rewrite E. simpl. lia.
  - pose proof (bitlen_spec n Hn) as [A B].
    pose proof (bitlen_spec (n / 36) ltac:(lia)) as [C D].
    assert (n / 36 < 2 ^ (Z.of_nat (bitlen n) - 1)).
    { apply Z.div_lt_upper_bound; try lia.
      replace (Z.of_nat (bitlen n))
        with (Z.succ (Z.of_nat (bitlen n) - 1)) in B by lia.
      rewrite Z.pow_succ_r in B by lia. lia. }
    apply Nat2Z.inj_lt.
    destruct (Z_lt_dec (Z.of_nat (bitlen (n / 36))) (Z.of_nat (bitlen n)));
      auto.
    exfalso.
    assert (2 ^ (Z.of_nat (bitlen n) - 1)
            <= 2 ^ (Z.of_nat (bitlen (n / 36)) - 1))
      by (apply Z.pow_le_mono_r; lia).
    lia.
Qed.

(** The [while n > 0] loop of [_encode_int], on its two variables. *)
Equations? encode_loop (n : Z) (encoded : str) : str by wf (bitlen n) lt :=
  encode_loop n encoded with Z_lt_dec 0 n => {
    | left _ => encode_loop (n / _alphabet_length)
                            (ALPHABET_at (n mod _alphabet_length) :: encoded);
    | right _ => encoded }.
Proof. change _alphabet_length with 36. now apply bitlen_div_lt. Qed.

Definition _encode_int (n : Z) : str := encode_loop n [].

(** For a length of at least 1, where both powers are integers; with a
    smaller length the first exponent is negative and Python's [**] leaves
    the integers. *)
Definition generate_id (self : IDGenerator) : prog str :=
  let start := _alphabet_length ^ (_id_length self - 1) in
  let end_ := _alphabet_length ^ _id_length self - 1 in
  (n <- RandInt start end_ (fun n => Ret n) ;; Ret (_encode_int n))%prog.

End Utils.

(** ** Library functions used by _survey.py

    [base64.encodestring], [base64.decodestring], [base64.b64encode] and the
    UTF-8 codec belong to the Python standard library.  They are modelled
    here as the library documents them: RFC 4648 base64 with the line
    discipline of [base64.encodebytes], the lenient decoder of
    [binascii.a2b_base64], and the strict UTF-8 codec. *)

Module Codec.

Definition table_b2a_base64 : bytes :=
  u "ABCDEFGHIJKLMNOPQRSTUVWXYZabcdefghijklmnopqrstuvwxyz0123456789+/".

Definition BASE64_PAD : Z := 61.   (* '=' *)

Definition b2a (sextet : Z) : Z := nth (Z.to_nat sextet) table_b2a_base64 0.

Fixpoint index_of (c : Z) (table : bytes) : option Z :=
  match table with
  | [] => None
  | x :: rest =>
      if x =? c then Some 0
      else match index_of c rest with
           | Some i => Some (i + 1)
           | None => None
           end
  end.

(** The inverse table: the sextet of an alphabet character. *)
Definition a2b (c : Z) : option Z := index_of c table_b2a_base64.

(** Three octets make four characters; a short final group is padded. *)
Fixpoint b2a_groups (data : bytes) : bytes :=
  match data with
  | [] => []
  | [a] => [b2a (a / 4); b2a (a mod 4 * 16); BASE64_PAD; BASE64_PAD]
  | [a; b] =>
      [b2a (a / 4); b2a (a mod 4 * 16 + b / 16); b2a (b mod 16 * 4);
       BASE64_PAD]
  | a :: b :: c :: rest =>
      b2a (a / 4) :: b2a (a mod 4 * 16 + b / 16)
        :: b2a (b mod 16 * 4 + c / 64) :: b2a (c mod 64) :: b2a_groups rest
  end.

(** [base64.b64encode(s)] *)
Definition b64encode (s : bytes) : bytes := b2a_groups s.

(** [binascii.b2a_base64(chunk)]: the encoded chunk and a newline. *)
Definition b2a_base64 (chunk : bytes) : bytes := b2a_groups chunk ++ [10].

Definition MAXBINSIZE : nat := 57.

Lemma skipn_MAXBINSIZE_lt (x : Z) (xs : bytes) :
  (List.length (skipn MAXBINSIZE (x :: xs)) < List.length (x :: xs))%nat.
Proof. rewrite length_skipn. unfold MAXBINSIZE. simpl. lia. Qed.

(** [base64.encodestring(s)], the old name of [base64.encodebytes(s)]: the
    input is cut in pieces of [MAXBINSIZE] octets and every piece becomes one
    line. *)
Equations? encodestring (s : bytes) : bytes by wf (List.length s) lt :=
  encodestring [] := [];
  encodestring (x :: xs) :=
    b2a_base64 (firstn MAXBINSIZE (x :: xs))
      ++ encodestring (skipn MAXBINSIZE (x :: xs)).
Proof. apply (skipn_MAXBINSIZE_lt x xs). Qed.

(** The loop of [binascii.a2b_base64]: characters outside the alphabet are
    skipped, [quad_pos] counts the sextets of the current group, [leftchar]
    holds the bits not yet written, [pads] counts padding characters. *)
Fixpoint a2b_loop (ascii : bytes) (quad_pos leftchar pads : Z) (out : bytes)
  : result bytes :=
  match ascii with
  | [] => if quad_pos =? 0 then Ok (rev out) else Err binascii_Error
  | this_ch :: rest =>
      if this_ch =? BASE64_PAD then
        if 2 <=? quad_pos then
          if 4 <=? quad_pos + (pads + 1) then Ok (rev out)
          else a2b_loop rest quad_pos leftchar (pads + 1) out
        else a2b_loop rest quad_pos leftchar pads out
      else
        match a2b this_ch with
        | None => a2b_loop rest quad_pos leftchar pads out
        | Some v =>
            if quad_pos =? 0 then a2b_loop rest 1 v 0 out
            else if quad_pos =? 1 then
              a2b_loop rest 2 (v mod 16) 0 ((leftchar * 4 + v / 16) :: out)
            else if quad_pos =? 2 then
              a2b_loop rest 3 (v mod 4) 0 ((leftchar * 16 + v / 4) :: out)
            else a2b_loop rest 0 0 0 ((leftchar * 64 + v) :: out)
        end
  end.

(** [base64.decodestring(s)], the old name of [base64.decodebytes(s)]. *)
Definition decodestring (s : bytes) : result bytes := a2b_loop s 0 0 0 [].

(** The UTF-8 form of one code point; surrogates have none. *)
Definition utf8_of_codepoint (c : codepoint) : option bytes :=
  if c <? 0 then None
  else if c <? 128 then Some [c]
  else if c <? 2048 then Some [192 + c / 64; 128 + c mod 64]
  else if c <? 65536 then
    if (55296 <=? c) && (c <=? 57343) then None
    else Some [224 + c / 4096; 128 + c / 64 mod 64; 128 + c mod 64]
  else if c <? 1114112 then
    Some [240 + c / 262144; 128 + c / 4096 mod 64; 128 + c / 64 mod 64;
          128 + c mod 64]
  else None.

(** [s.encode('utf-8')] *)
Fixpoint encode_utf8 (s : str) : result bytes :=
  match s with
  | [] => Ok []
  | c :: rest =>
      match utf8_of_codepoint c, encode_utf8 rest with
      | Some b, Ok bs => Ok (b ++ bs)
      | None, _ => Err UnicodeEncodeError
      | _, Err e => Err e
      end
  end.

Definition continuation (b : Z) : bool := (128 <=? b) && (b <? 192).

Definition cons_ok (c : codepoint) (r : result str) : result str :=
  match r with
  | Ok s => Ok (c :: s)
  | Err e => Err e
  end.

(** [b.decode('utf-8')]: strict, so overlong forms, surrogates, code points
    above U+10FFFF, stray and missing continuation octets are errors. *)
Fixpoint decode_utf8 (b : bytes) : result str :=
  match b with
  | [] => Ok []
  | b0 :: r0 =>
      if (0 <=? b0) && (b0 <? 128) then cons_ok b0 (decode_utf8 r0)
      else if (192 <=? b0) && (b0 <? 224) then
        match r0 with
        | b1 :: r1 =>
            let c := (b0 - 192) * 64 + (b1 - 128) in
            if continuation b1 && (128 <=? c) then cons_ok c (decode_utf8 r1)
            else Err UnicodeDecodeError
        | _ => Err UnicodeDecodeError
        end
      else if (224 <=? b0) && (b0 <? 240) then
        match r0 with
        | b1 :: b2 :: r2 =>
            let c := (b0 - 224) * 4096 + (b1 - 128) * 64 + (b2 - 128) in
            if continuation b1 && continuation b2 && (2048 <=? c)
               && negb ((55296 <=? c) && (c <=? 57343))
            then cons_ok c (decode_utf8 r2)
            else Err UnicodeDecodeError
        | _ => Err UnicodeDecodeError
        end
      else if (240 <=? b0) && (b0 <? 248) then
        match r0 with
        | b1 :: b2 :: b3 :: r3 =>
            let c := (b0 - 240) * 262144 + (b1 - 128) * 4096
                     + (b2 - 128) * 64 + (b3 - 128) in
            if continuation b1 && continuation b2 && continuation b3
               && (65536 <=? c) && (c <? 1114112)
            then cons_ok c (decode_utf8 r3)
            else Err UnicodeDecodeError
        | _ => Err UnicodeDecodeError
        end
      else Err UnicodeDecodeError
  end.

(** [b.decode('ascii')] *)
Fixpoint decode_ascii (b : bytes) : result str :=
  match b with
  | [] => Ok []
  | x :: rest =>
      if (0 <=? x) && (x <? 128) then cons_ok x (decode_ascii rest)
      else Err UnicodeDecodeError
  end.

(** Ranges of octets, and the checks used to state the round trips. *)
Definition octet (x : Z) : Prop := 0 <= x < 256.
Definition ascii_octet (x : Z) : Prop := 0 <= x < 128.

(** The check that the two tables are inverse at the sextet [k], whose
    character is not the padding. *)
Definition sextet_ok (k : nat) : bool :=
  match a2b (b2a (Z.of_nat k)) with
  | Some v => (v =? Z.of_nat k) && negb (b2a (Z.of_nat k) =? BASE64_PAD)
  | None => false
  end.

(** Whether the octets fill whole groups, so that no padding is written. *)
Fixpoint whole_groups (data : bytes) : bool :=
  match data with
  | [] => true
  | _ :: _ :: _ :: rest => whole_groups rest
  | _ => false
  end.

(** The code points that have a UTF-8 form: all but the surrogates. *)
Definition scalar_value (c : codepoint) : bool :=
  (0 <=? c) && (c <? 1114112) && negb ((55296 <=? c) && (c <=? 57343)).

End Codec.

(** ** Builtins of the runtime

    The functions of the language and of its library that the operations
    call and whose definition is not part of the repository. *)

Record Python : Type := {
  str_upper : str -> str;                   (* s.upper(), text beyond ASCII *)
  int_of_str : str -> result Z;             (* int(s) on text *)
  int_of_float : Z -> result Z;             (* int(x) on a float *)
  repr : pyvalue -> str;                    (* str(v) on floats and containers *)
  json_loads : bytes -> result pyvalue;     (* json.loads(b) *)
  splitext : str -> str * str               (* posixpath.splitext(p) *)
}.

Section Builtins.

Context (py : Python).

(** [int(v)] *)
Definition py_int (v : pyvalue) : result Z :=
  match v with
  | PInt n => Ok n
  | PBool b => Ok (if b then 1 else 0)
  | PStr s => int_of_str py s
  | PFloat bits => int_of_float py bits
  | PNone | PList _ | PDict _ => Err TypeError
  end.

Definition is_ascii (s : str) : bool :=
  forallb (fun c => (0 <=? c) && (c <? 128)) s.

(** [s.upper()]: on ASCII text the letters a to z move to A to Z and nothing
    else changes. *)
Definition upper (s : str) : str :=
  if is_ascii s
  then map (fun c => if (97 <=? c) && (c <=? 122) then c - 32 else c) s
  else str_upper py s.

(** [str(n)] on an integer. *)
Definition str_of_int (n : Z) : str :=
  u (DecimalString.NilZero.string_of_int (Z.to_int n)).

(** ['%s' % v] *)
Definition format_s (v : pyvalue) : str :=
  match v with
  | PStr s => s
  | PNone => u "None"
  | PBool true => u "True"
  | PBool false => u "False"
  | PInt n => str_of_int n
  | PFloat _ | PList _ | PDict _ => repr py v
  end.

End Builtins.

(** ** _survey.py *)

Module Survey.

Import Codec.

Definition id_generator : Utils.IDGenerator := {| Utils._id_length := 19 |}.

(** The three pieces of [question_template] around its two placeholders. *)
Definition question_template_head : str :=
  u "<?xml version=" ++ [34] ++ u "1.0" ++ [34] ++ u " encoding=" ++ [34]
    ++ u "UTF-8" ++ [34] ++ u "?>" ++ [10]
    ++ u "<document>" ++ [10]
    ++ u " <LimeSurveyDocType>Question</LimeSurveyDocType>" ++ [10]
    ++ u " <DBVersion>355</DBVersion>" ++ [10]
    ++ u " <languages>" ++ [10]
    ++ u "  <language>en</language>" ++ [10]
    ++ u " </languages>" ++ [10]
    ++ u " <questions>" ++ [10]
    ++ u "  ".

Definition question_template_middle : str := [10] ++ u "  ".

Definition question_template_tail : str :=
  [10] ++ u " </questions>" ++ [10] ++ u "</document>" ++ [10].

(** [question_template % {'fieldnames': fieldnames, 'rows': rows}] *)
Definition question_template (fieldnames rows : str) : str :=
  question_template_head ++ fieldnames ++ question_template_middle ++ rows
    ++ question_template_tail.

Definition question_fieldnames : list str :=
  [u "qid"; u "parent_qid"; u "sid"; u "gid"; u "type"; u "title";
   u "question"; u "preg"; u "help"; u "other"; u "mandatory";
   u "question_order"; u "language"; u "scale_id"; u "same_default";
   u "relevance"; u "modulename"].

Inductive QUESTION_TYPE : Type :=
| LIST_5_POINT_CHOICE | LIST_DROPDOWN | LIST_WITH_COMMENT | LIST_RADIO
| ARRAY | ARRAY_10_POINT_CHOICE | ARRAY_5_POINT_CHOICE
| ARRAY_INCREASE_SAME_DECREASE | ARRAY_NUMBERS | ARRAY_TEXTS
| ARRAY_YES_NO_UNCERTAIN | ARRAY_COLUMN | ARRAY_DUAL_SCALE
| MASK_DATE_TIME | MASK_EQUATION | MASK_FILE_UPLOAD | MASK_GENDER
| MASK_LANGUAGE_SWITCH | MASK_MULTIPLE_NUMERICAL_INPUT | MASK_NUMERICAL_INPUT
| MASK_RANKING | MASK_TEXT_DISPLAY | MASK_YES_NO
| TEXT_HUGE_FREE_TEXT | TEXT_LONG_FREE_TEXT | TEXT_MULTIPLE_SHORT_TEXT
| TEXT_SHORT_FREE_TEXT
| MULTIPLE_CHOICE | MULTIPLE_CHOICE_WITH_COMMENT.

(** [member.value] *)
Definition value (m : QUESTION_TYPE) : str :=
  match m with
  | LIST_5_POINT_CHOICE => u "5"
  | LIST_DROPDOWN => u "!"
  | LIST_WITH_COMMENT => u "O"
  | LIST_RADIO => u "L"
  | ARRAY => u "F"
  | ARRAY_10_POINT_CHOICE => u "B"
  | ARRAY_5_POINT_CHOICE => u "A"
  | ARRAY_INCREASE_SAME_DECREASE => u "E"
  | ARRAY_NUMBERS => u ":"
  | ARRAY_TEXTS => u ";"
  | ARRAY_YES_NO_UNCERTAIN => u "C"
  | ARRAY_COLUMN => u "H"
  | ARRAY_DUAL_SCALE => u "1"
  | MASK_DATE_TIME => u "D"
  | MASK_EQUATION => u "*"
  | MASK_FILE_UPLOAD => u "|"
  | MASK_GENDER => u "G"
  | MASK_LANGUAGE_SWITCH => u "I"
  | MASK_MULTIPLE_NUMERICAL_INPUT => u "K"
  | MASK_NUMERICAL_INPUT => u "N"
  | MASK_RANKING => u "R"
  | MASK_TEXT_DISPLAY => u "X"
  | MASK_YES_NO => u "Y"
  | TEXT_HUGE_FREE_TEXT => u "U"
  | TEXT_LONG_FREE_TEXT => u "T"
  | TEXT_MULTIPLE_SHORT_TEXT => u "Q"
  | TEXT_SHORT_FREE_TEXT => u "S"
  | MULTIPLE_CHOICE => u "M"
  | MULTIPLE_CHOICE_WITH_COMMENT => u "P"
  end.

(** [QUESTION_TYPE.__members__]: member names to members, in definition
    order. *)
Definition __members__ : list (str * QUESTION_TYPE) :=
  [(u "LIST_5_POINT_CHOICE", LIST_5_POINT_CHOICE);
   (u "LIST_DROPDOWN", LIST_DROPDOWN);
   (u "LIST_WITH_COMMENT", LIST_WITH_COMMENT);
   (u "LIST_RADIO", LIST_RADIO);
   (u "ARRAY", ARRAY);
   (u "ARRAY_10_POINT_CHOICE", ARRAY_10_POINT_CHOICE);
   (u "ARRAY_5_POINT_CHOICE", ARRAY_5_POINT_CHOICE);
   (u "ARRAY_INCREASE_SAME_DECREASE", ARRAY_INCREASE_SAME_DECREASE);
   (u "ARRAY_NUMBERS", ARRAY_NUMBERS);
   (u "ARRAY_TEXTS", ARRAY_TEXTS);
   (u "ARRAY_YES_NO_UNCERTAIN", ARRAY_YES_NO_UNCERTAIN);
   (u "ARRAY_COLUMN", ARRAY_COLUMN);
   (u "ARRAY_DUAL_SCALE", ARRAY_DUAL_SCALE);
   (u "MASK_DATE_TIME", MASK_DATE_TIME);
   (u "MASK_EQUATION", MASK_EQUATION);
   (u "MASK_FILE_UPLOAD", MASK_FILE_UPLOAD);
   (u "MASK_GENDER", MASK_GENDER);
   (u "MASK_LANGUAGE_SWITCH", MASK_LANGUAGE_SWITCH);
   (u "MASK_MULTIPLE_NUMERICAL_INPUT", MASK_MULTIPLE_NUMERICAL_INPUT);
   (u "MASK_NUMERICAL_INPUT", MASK_NUMERICAL_INPUT);
   (u "MASK_RANKING", MASK_RANKING);
   (u "MASK_TEXT_DISPLAY", MASK_TEXT_DISPLAY);
   (u "MASK_YES_NO", MASK_YES_NO);
   (u "TEXT_HUGE_FREE_TEXT", TEXT_HUGE_FREE_TEXT);
   (u "TEXT_LONG_FREE_TEXT", TEXT_LONG_FREE_TEXT);
   (u "TEXT_MULTIPLE_SHORT_TEXT", TEXT_MULTIPLE_SHORT_TEXT);
   (u "TEXT_SHORT_FREE_TEXT", TEXT_SHORT_FREE_TEXT);
   (u "MULTIPLE_CHOICE", MULTIPLE_CHOICE);
   (u "MULTIPLE_CHOICE_WITH_COMMENT", MULTIPLE_CHOICE_WITH_COMMENT)].

(** [getattr(QUESTION_TYPE, name)] for a member name. *)
Definition getattr_QUESTION_TYPE (name : str) : result QUESTION_TYPE :=
  match dict_get __members__ name with
  | Some m => Ok m
  | None => Err AttributeError
  end.

Section Operations.

Context (py : Python).

(** *** The question document *)

Definition render_lsq_fieldnames (fieldnames : list str) : str :=
  let l := [u "<fields>"] in
  let l :=
    fold_left
      (fun l fieldname =>
         l ++ [u "<fieldname>" ++ fieldname ++ u "</fieldname>"])
      fieldnames l in
  let l := l ++ [u "</fields>"] in
  List.concat l.

Definition render_lsq_rows (fieldvalues : odict) : str :=
  let l := [u "<rows><row>"] in
  let l :=
    fold_left
      (fun l item =>
         let '(fieldname, value) := item in
         match value with
         | PNone => l ++ [u "<" ++ fieldname ++ u "/>"]
         | _ =>
             l ++ [u "<" ++ fieldname ++ u "><![CDATA[" ++ format_s py value
                     ++ u "]]></" ++ fieldname ++ u ">"]
         end)
      fieldvalues l in
  let l := l ++ [u "</row></rows>"] in
  List.concat l.

(** The local [lsq_str] of [render_lsq]: the document before it is encoded. *)
Definition lsq_document (fields : odict) : str :=
  let fieldnames_str := render_lsq_fieldnames (keys fields) in
  let rows_str := render_lsq_rows fields in
  question_template fieldnames_str rows_str.

Definition render_lsq (fields : odict) : result str :=
  let lsq_str := lsq_document fields in
  match encode_utf8 lsq_str with
  | Ok b => decode_utf8 (encodestring b)
  | Err e => Err e
  end.

(** *** The question document as the specification words it

    One [<fieldname>] entry per field; a self-closing element for a field
    whose value is None, and for any other value the field's tag around a
    CDATA section; all in the order of the mapping; names and values are
    copied as they are. *)

Definition spec_fieldname_entry (fieldname : str) : str :=
  u "<fieldname>" ++ fieldname ++ u "</fieldname>".

Definition spec_row_element (item : str * pyvalue) : str :=
  match snd item with
  | PNone => u "<" ++ fst item ++ u "/>"
  | value =>
      u "<" ++ fst item ++ u "><![CDATA[" ++ format_s py value ++ u "]]></"
        ++ fst item ++ u ">"
  end.

Definition spec_fields_block (fields : odict) : str :=
  u "<fields>" ++ List.concat (map spec_fieldname_entry (keys fields))
    ++ u "</fields>".

Definition spec_rows_block (fields : odict) : str :=
  u "<rows><row>" ++ List.concat (map spec_row_element fields)
    ++ u "</row></rows>".

(** *** The transport and the classification of its replies *)

(** [self.api]: the two attributes the operations read. *)
Record Api : Type := { session_key : pyvalue; username : pyvalue }.

Context (api : Api).

(** [response_type is dict and "status" in response], with
    [response["status"]] when it holds. *)
Definition status_of (response : pyvalue) : option pyvalue :=
  match response with
  | PDict d => dict_get d (u "status")
  | _ => None
  end.

(** [for message in error_messages: if status == message: raise ...] *)
Fixpoint raise_if_listed (method : str) (status : pyvalue)
  (error_messages : list str) : prog unit :=
  match error_messages with
  | [] => Ret tt
  | message :: rest =>
      if eq_str status message then Raise (LimeSurveyError method status)
      else raise_if_listed method status rest
  end.

(** [assert response_type is t] *)
Definition assert_type (response : pyvalue) (t : pytype) : prog unit :=
  assert (pytype_is (type response) t).

Local Open Scope prog_scope.

Definition list_surveys_errors : list str :=
  [u "Invalid user"; u "Invalid session key"].

Definition list_surveys (username_ : pyvalue) : prog pyvalue :=
  let method := u "list_surveys" in
  let params :=
    [(u "sSessionKey", session_key api);
     (u "iSurveyID", py_or username_ (username api))] in
  response <- Query method params Ret ;;
  match status_of response with
  | Some status =>
      if eq_str status (u "No surveys found") then Ret (PList [])
      else raise_if_listed method status list_surveys_errors ;;; Ret response
  | None => assert_type response list_t ;;; Ret response
  end.

Definition list_questions_errors : list str :=
  [u "Error: Invalid survey ID"; u "Error: Invalid language";
   u "Error: IMissmatch in surveyid and groupid"; u "No permission";
   u "Invalid session key"].

Definition list_questions (survey_id group_id language : pyvalue)
  : prog pyvalue :=
  let method := u "list_questions" in
  let params :=
    [(u "sSessionKey", session_key api); (u "iSurveyID", survey_id);
     (u "iGroupID", group_id); (u "sLanguage", language)] in
  response <- Query method params Ret ;;
  match status_of response with
  | Some status =>
      if eq_str status (u "No questions found") then Ret (PList [])
      else raise_if_listed method status list_questions_errors ;;; Ret response
  | None => assert_type response list_t ;;; Ret response
  end.

(** The first two literals are adjacent in the source, with no comma between
    them: they are one list element. *)
Definition add_survey_errors : list str :=
  [u "Creation Failed result" ++ u "Faulty parameters"; u "No permission";
   u "Invalid session key"].

Definition add_survey (title survey_id language format_ : pyvalue)
  : prog pyvalue :=
  let method := u "add_survey" in
  iSurveyID <- (if truthy survey_id then lift (py_int py survey_id)
                else Ret 1%Z) ;;
  let params :=
    [(u "sSessionKey", session_key api); (u "iSurveyID", PInt iSurveyID);
     (u "sSurveyTitle", title);
     (u "sSurveyLanguage", py_or language (PStr (u "en")));
     (u "sForamt", py_or format_ (PStr (u "G")))] in
  response <- Query method params Ret ;;
  match status_of response with
  | Some status =>
      raise_if_listed method status add_survey_errors ;;; Ret response
  | None => assert_type response int_t ;;; Ret response
  end.

Definition delete_survey_errors : list str :=
  [u "No permission"; u "Invalid session key"].

Definition delete_survey (survey_id : pyvalue) : prog pyvalue :=
  let method := u "delete_survey" in
  let params :=
    [(u "sSessionKey", session_key api); (u "iSurveyID", survey_id)] in
  response <- Query method params Ret ;;
  match status_of response with
  | Some status =>
      raise_if_listed method status delete_survey_errors ;;; Ret response
  | None => assert_type response list_t ;;; Ret response
  end.

Definition export_responses_errors : list str :=
  [u "Language code not found for this survey.";
   u "No Data, could not get max id.";
   u "No Data, survey table does not exist"; u "No permission";
   u "Invalid session key"].

(** The first of the two definitions of [export_responses] in the class
    body (the one with the docstring).  The second definition below rebinds
    the name, so this one is never the method of an instance. *)
Definition export_responses_1
  (survey_id document_type language_code completion_status heading_type
   response_type from_response_id to_response_id fields : pyvalue)
  : prog pyvalue :=
  let method := u "export_responses" in
  let params :=
    [(u "sSessionKey", session_key api); (u "iSurveyID", survey_id);
     (u "sDocumentType", document_type); (u "sLanguageCode", language_code);
     (u "sCompletionStatus", completion_status);
     (u "sHeadingType", heading_type); (u "sResponseType", response_type);
     (u "iFromResponseID", from_response_id);
     (u "iToResponseID", to_response_id); (u "aFields", fields)] in
  response <- Query method params Ret ;;
  match status_of response with
  | Some status =>
      raise_if_listed method status export_responses_errors ;;; Ret response
  | None => assert_type response str_t ;;; Ret response
  end.

(** Lines 308 to 313 of [add_question]: the symbolic name, or the default,
    becomes the code of the member it names. *)
Definition resolve_question_type (question_type : pyvalue) : result str :=
  let question_type :=
    if negb (truthy question_type) then PStr (u "TEXT_SHORT_FREE_TEXT")
    else question_type in
  match question_type with
  | PStr name =>
      let question_type := upper py name in
      if negb (dict_in question_type __members__)
      then Err (ValueError (u "invalid question type"))
      else match getattr_QUESTION_TYPE question_type with
           | Ok m => Ok (value m)
           | Err e => Err e
           end
  | _ => Err AttributeError          (* no method upper *)
  end.

Definition add_question_errors : list str :=
  [u "Error: ..."; u "Invalid extension"; u "No permission";
   u "Invalid session key"].

(** The mapping [fields] of [add_question] once it has been updated. *)
Definition question_fields
  (sid gid : Z) (title : str) (question question_help : pyvalue)
  (question_type : str) (mandatory : pyvalue) : odict :=
  dict_update (dict_fromkeys question_fieldnames)
    [(u "parent_qid", PInt 0);
     (u "sid", PInt sid);
     (u "gid", PInt gid);
     (u "title", PStr title);
     (u "question", question);
     (u "help", question_help);
     (u "type", PStr question_type);
     (u "mandatory", mandatory);
     (u "language", PStr (u "en"))].

Definition add_question
  (survey_id group_id question question_help question_type mandatory : pyvalue)
  : prog pyvalue :=
  let method := u "import_question" in
  question_type <- lift (resolve_question_type question_type) ;;
  let mandatory := if truthy mandatory then mandatory else PStr (u "N") in
  sid <- lift (py_int py survey_id) ;;
  gid <- lift (py_int py group_id) ;;
  generated <- Utils.generate_id id_generator ;;
  let fields :=
    question_fields sid gid (u "q" ++ generated) question question_help
      question_type mandatory in
  lsq_str <- lift (render_lsq fields) ;;
  let params :=
    [(u "sSessionKey", session_key api); (u "iSurveyID", survey_id);
     (u "iGroupID", group_id); (u "sImportData", PStr lsq_str);
     (u "sImportDataType", PStr (u "lsq"))] in
  response <- Query method params Ret ;;
  match status_of response with
  | Some status =>
      raise_if_listed method status add_question_errors ;;; Ret response
  | None => assert_type response int_t ;;; Ret response
  end.

Definition delete_question_errors : list str :=
  [u "No permission"; u "Invalid session key"].

Definition delete_question (question_id : pyvalue) : prog pyvalue :=
  let method := u "delete_question" in
  let params :=
    [(u "sSessionKey", session_key api); (u "iQuestionID", question_id)] in
  response <- Query method params Ret ;;
  match status_of response with
  | Some status =>
      raise_if_listed method status delete_question_errors ;;; Ret response
  | None => assert_type response int_t ;;; Ret response
  end.

Definition import_survey_errors : list str :=
  [u "Error: ..."; u "Invalid extension"; u "No permission";
   u "Invalid session key"].

Definition import_survey
  (path_to_import_survey : str) (new_name dest_survey_id : pyvalue)
  : prog pyvalue :=
  let import_datatype := skipn 1 (snd (splitext py path_to_import_survey)) in
  (if negb (str_eqb import_datatype (u "lss")) && truthy new_name
   then Warn (u "New naming seems only to work with lss files") (Ret tt)
   else Ret tt) ;;;
  data <- ReadFile (PStr path_to_import_survey) Ret ;;
  import_data <- lift (decode_ascii (b64encode data)) ;;
  let method := u "import_survey" in
  let params :=
    [(u "sSessionKey", session_key api);
     (u "sImportData", PStr import_data);
     (u "sImportDataType", PStr import_datatype);
     (u "sNewSurveyName", new_name); (u "DestSurveyID", dest_survey_id)] in
  response <- Query method params Ret ;;
  match status_of response with
  | Some status =>
      raise_if_listed method status import_survey_errors ;;; Ret response
  | None => assert_type response int_t ;;; Ret response
  end.

Definition activate_survey_errors : list str :=
  [u "Error: Invalid survey ID"; u "Error: Activation Error"; u "Error: ...";
   u "No permission"; u "Invalid session key"].

Definition activate_survey (survey_id : pyvalue) : prog pyvalue :=
  let method := u "activate_survey" in
  let params :=
    [(u "sSessionKey", session_key api); (u "iSurveyID", survey_id)] in
  response <- Query method params Ret ;;
  match status_of response with
  | Some status =>
      raise_if_listed method status activate_survey_errors ;;; Ret response
  | None => assert_type response list_t ;;; Ret response
  end.

Definition activate_tokens_errors : list str :=
  [u "Error: Invalid survey ID";
   u "Survey participants table could not be created"; u "No permission";
   u "Invalid session key"].

Definition activate_tokens (survey_id attribute_fields : pyvalue)
  : prog pyvalue :=
  let method := u "activate_tokens" in
  let params :=
    [(u "sSessionKey", session_key api); (u "iSurveyId", survey_id);
     (u "aAttributeFields", attribute_fields)] in
  response <- Query method params Ret ;;
  match status_of response with
  | Some status =>
      raise_if_listed method status activate_tokens_errors ;;; Ret response
  | None => assert_type response list_t ;;; Ret response
  end.

(** The last two literals are adjacent in the source, with no comma between
    them: they are one list element. *)
Definition list_groups_errors : list str :=
  [u "Error: Invalid survey ID"; u "No permission" ++ u "Invalid S ession key"].

Definition list_groups (survey_id : pyvalue) : prog pyvalue :=
  let method := u "list_groups" in
  let params :=
    [(u "sSessionKey", session_key api); (u "iSurveyID", survey_id)] in
  response <- Query method params Ret ;;
  match status_of response with
  | Some status =>
      if eq_str status (u "No groups found") then Ret (PList [])
      else raise_if_listed method status list_groups_errors ;;; Ret response
  | None => assert_type response list_t ;;; Ret response
  end.

(** Adjacent literals again: the first two are one list element. *)
Definition add_group_errors : list str :=
  [u "Creation Failed result" ++ u "Faulty parameters"; u "No permission";
   u "Invalid session key"].

Definition add_group (survey_id group_title group_description : pyvalue)
  : prog pyvalue :=
  let method := u "add_group" in
  let params :=
    [(u "sSessionKey", session_key api); (u "iSurveyID", survey_id);
     (u "sGroupTitle", group_title);
     (u "sGroupDescription", py_or group_description (PStr (u "")))] in
  response <- Query method params Ret ;;
  match status_of response with
  | Some status =>
      raise_if_listed method status add_group_errors ;;; Ret response
  | None => assert_type response int_t ;;; Ret response
  end.

Definition get_survey_properties_errors : list str :=
  [u "No valid Data"; u "Invalid survey ID"; u "No permission";
   u "Invalid session key"].

Definition get_survey_properties (survey_id settings : pyvalue)
  : prog pyvalue :=
  let method := u "get_survey_properties" in
  let params :=
    [(u "sSessionKey", session_key api); (u "iSurveyID", survey_id);
     (u "aSurveySetting", settings)] in
  response <- Query method params Ret ;;
  match status_of response with
  | Some status =>
      raise_if_listed method status get_survey_properties_errors ;;;
      Ret response
  | None => assert_type response dict_t ;;; Ret response
  end.

(** Adjacent literals again: the first two are one list element. *)
Definition set_survey_properties_errors : list str :=
  [u "Invalid survey ID" ++ u "No valid Data"; u "No permission";
   u "Invalid session key"].

Definition set_survey_properties (survey_id settings : pyvalue)
  : prog pyvalue :=
  let method := u "set_survey_properties" in
  let params :=
    [(u "sSessionKey", session_key api); (u "iSurveyID", survey_id);
     (u "aSurveyData", settings)] in
  response <- Query method params Ret ;;
  Print (type response) (Ret tt) ;;;
  match status_of response with
  | Some status =>
      raise_if_listed method status set_survey_properties_errors ;;;
      Ret response
  | None => assert_type response dict_t ;;; Ret response
  end.

(** Adjacent literals again: the first two are one list element. *)
Definition add_response_errors : list str :=
  [u "Invalid survey ID" ++ u "No permission"; u "Invalid session key"].

Definition add_response (survey_id response_data : pyvalue) : prog pyvalue :=
  let method := u "add_response" in
  let params :=
    [(u "sSessionKey", session_key api); (u "iSurveyID", survey_id);
     (u "aResponseData", response_data)] in
  response <- Query method params Ret ;;
  Print (type response) (Ret tt) ;;;
  match status_of response with
  | Some status =>
      raise_if_listed method status add_response_errors ;;; Ret response
  | None => assert_type response int_t ;;; Ret response
  end.

(** The second definition of [export_responses], the one bound to the name
    when the class body has been executed. *)
Definition export_responses
  (survey_id document_type language_code completion_status heading_type
   response_type from_response_id to_response_id fields : pyvalue)
  : prog pyvalue :=
  let method := u "export_responses" in
  let params :=
    [(u "sSessionKey", session_key api); (u "iSurveyID", survey_id);
     (u "sDocumentType", document_type); (u "sLanguageCode", language_code);
     (u "sCompletionStatus", completion_status);
     (u "sHeadingType", heading_type); (u "sResponseType", response_type);
     (u "sFromResponseID", from_response_id);
     (u "sToResponseID", to_response_id); (u "aFields", fields)] in
  response <- Query method params Ret ;;
  match status_of response with
  | Some status => Raise (LimeSurveyError method status)
  | None => Ret tt
  end ;;;
  assert_type response str_t ;;;
  match response with
  | PStr s =>
      encoded <- lift (encode_utf8 s) ;;
      decoded <- lift (decodestring encoded) ;;
      lift (json_loads py decoded)
  | _ => Raise AttributeError       (* excluded by the assertion *)
  end.

(** The [params] of [add_survey] and of [add_question], and the text
    that [generate_id] returns to [add_question] in a world. *)
Definition add_survey_params (title : pyvalue) (iSurveyID : Z)
  (language format_ : pyvalue) : odict :=
  [(u "sSessionKey", session_key api); (u "iSurveyID", PInt iSurveyID);
   (u "sSurveyTitle", title);
   (u "sSurveyLanguage", py_or language (PStr (u "en")));
   (u "sForamt", py_or format_ (PStr (u "G")))].

Definition add_question_params (survey_id group_id : pyvalue) (lsq_str : str)
  : odict :=
  [(u "sSessionKey", session_key api); (u "iSurveyID", survey_id);
   (u "iGroupID", group_id); (u "sImportData", PStr lsq_str);
   (u "sImportDataType", PStr (u "lsq"))].

Definition generated (w : world) : str :=
  Utils._encode_int (randint w (36 ^ 18) (36 ^ 19 - 1)).

Definition doctype : str :=
  u "<LimeSurveyDocType>Question</LimeSurveyDocType>".

(** *** The methods of a [_Survey] instance, as one type

    [export_responses] is the second definition of that name. *)

Inductive invocation : Type :=
| Call_list_surveys (username_ : pyvalue)
| Call_list_questions (survey_id group_id language : pyvalue)
| Call_add_survey (title survey_id language format_ : pyvalue)
| Call_delete_survey (survey_id : pyvalue)
| Call_export_responses
    (survey_id document_type language_code completion_status heading_type
     response_type from_response_id to_response_id fields : pyvalue)
| Call_add_question
    (survey_id group_id question question_help question_type mandatory
     : pyvalue)
| Call_delete_question (question_id : pyvalue)
| Call_import_survey (path_to_import_survey : str)
    (new_name dest_survey_id : pyvalue)
| Call_activate_survey (survey_id : pyvalue)
| Call_activate_tokens (survey_id attribute_fields : pyvalue)
| Call_list_groups (survey_id : pyvalue)
| Call_add_group (survey_id group_title group_description : pyvalue)
| Call_get_survey_properties (survey_id settings : pyvalue)
| Call_set_survey_properties (survey_id settings : pyvalue)
| Call_add_response (survey_id response_data : pyvalue).

Definition invoke (c : invocation) : prog pyvalue :=
  match c with
  | Call_list_surveys a => list_surveys a
  | Call_list_questions a b c => list_questions a b c
  | Call_add_survey a b c d => add_survey a b c d
  | Call_delete_survey a => delete_survey a
  | Call_export_responses a b c d e f g h i =>
      export_responses a b c d e f g h i
  | Call_add_question a b c d e f => add_question a b c d e f
  | Call_delete_question a => delete_question a
  | Call_import_survey a b c => import_survey a b c
  | Call_activate_survey a => activate_survey a
  | Call_activate_tokens a b => activate_tokens a b
  | Call_list_groups a => list_groups a
  | Call_add_group a b c => add_group a b c
  | Call_get_survey_properties a b => get_survey_properties a b
  | Call_set_survey_properties a b => set_survey_properties a b
  | Call_add_response a b => add_response a b
  end.

(** The local [method] of each operation. *)
Definition method_of (c : invocation) : str :=
  match c with
  | Call_list_surveys _ => u "list_surveys"
  | Call_list_questions _ _ _ => u "list_questions"
  | Call_add_survey _ _ _ _ => u "add_survey"
  | Call_delete_survey _ => u "delete_survey"
  | Call_export_responses _ _ _ _ _ _ _ _ _ => u "export_responses"
  | Call_add_question _ _ _ _ _ _ => u "import_question"
  | Call_delete_question _ => u "delete_question"
  | Call_import_survey _ _ _ => u "import_survey"
  | Call_activate_survey _ => u "activate_survey"
  | Call_activate_tokens _ _ => u "activate_tokens"
  | Call_list_groups _ => u "list_groups"
  | Call_add_group _ _ _ => u "add_group"
  | Call_get_survey_properties _ _ => u "get_survey_properties"
  | Call_set_survey_properties _ _ => u "set_survey_properties"
  | Call_add_response _ _ => u "add_response"
  end.

(** The local [error_messages] of each operation; [export_responses] has
    none and raises on every status. *)
Definition error_messages (c : invocation) : option (list str) :=
  match c with
  | Call_list_surveys _ => Some list_surveys_errors
  | Call_list_questions _ _ _ => Some list_questions_errors
  | Call_add_survey _ _ _ _ => Some add_survey_errors
  | Call_delete_survey _ => Some delete_survey_errors
  | Call_export_responses _ _ _ _ _ _ _ _ _ => None
  | Call_add_question _ _ _ _ _ _ => Some add_question_errors
  | Call_delete_question _ => Some delete_question_errors
  | Call_import_survey _ _ _ => Some import_survey_errors
  | Call_activate_survey _ => Some activate_survey_errors
  | Call_activate_tokens _ _ => Some activate_tokens_errors
  | Call_list_groups _ => Some list_groups_errors
  | Call_add_group _ _ _ => Some add_group_errors
  | Call_get_survey_properties _ _ => Some get_survey_properties_errors
  | Call_set_survey_properties _ _ => Some set_survey_properties_errors
  | Call_add_response _ _ => Some add_response_errors
  end.

(** The status an operation answers with an empty list. *)
Definition empty_result (c : invocation) : option str :=
  match c with
  | Call_list_surveys _ => Some (u "No surveys found")
  | Call_list_questions _ _ _ => Some (u "No questions found")
  | Call_list_groups _ => Some (u "No groups found")
  | _ => None
  end.

(** Whether the loop over [error_messages] meets [status]. *)
Definition listed (status : pyvalue) (errors : list str) : bool :=
  existsb (eq_str status) errors.

(** What the code after the transport call makes of a reply that carries a
    status: the value for the empty result first, then the list of messages;
    [export_responses] keeps no list and raises on every status. *)
Definition classify (c : invocation) (response status : pyvalue)
  : result pyvalue :=
  let otherwise :=
    match error_messages c with
    | Some errors =>
        if listed status errors
        then Err (LimeSurveyError (method_of c) status)
        else Ok response
    | None => Err (LimeSurveyError (method_of c) status)
    end in
  match empty_result c with
  | Some sentinel => if eq_str status sentinel then Ok (PList []) else otherwise
  | None => otherwise
  end.

End Operations.

End Survey.

(** ** The builtins of the interpreter

    The functions that stand behind the fields of [Python], as CPython 3.11
    defines them, with the character data of Unicode 14.0.0 that this
    release carries.  The operations are proved for every value of type
    [Python]; this one is used to run them. *)

Module Runtime.

(** *** Character data *)

Definition in_ranges (c : Z) (ranges : list (Z * Z)) : bool :=
  existsb (fun r => (fst r <=? c) && (c <=? snd r)) ranges.

(** The code points for which [str.isprintable()] holds. *)
Definition printable_ranges : list (Z * Z) :=
  [(32, 126); (161, 172); (174, 887); (890, 895); (900, 906); (908, 908);
   (910, 929); (931, 1327); (1329, 1366); (1369, 1418); (1421, 1423);
   (1425, 1479); (1488, 1514); (1519, 1524); (1542, 1563); (1565, 1756);
   (1758, 1805); (1808, 1866); (1869, 1969); (1984, 2042); (2045, 2093);
   (2096, 2110); (2112, 2139); (2142, 2142); (2144, 2154); (2160, 2190);
   (2200, 2273); (2275, 2435); (2437, 2444); (2447, 2448); (2451, 2472);
   (2474, 2480); (2482, 2482); (2486, 2489); (2492, 2500); (2503, 2504);
   (2507, 2510); (2519, 2519); (2524, 2525); (2527, 2531); (2534, 2558);
   (2561, 2563); (2565, 2570); (2575, 2576); (2579, 2600); (2602, 2608);
   (2610, 2611); (2613, 2614); (2616, 2617); (2620, 2620); (2622, 2626);
   (2631, 2632); (2635, 2637); (2641, 2641); (2649, 2652); (2654, 2654);
   (2662, 2678); (2689, 2691); (2693, 2701); (2703, 2705); (2707, 2728);
   (2730, 2736); (2738, 2739); (2741, 2745); (2748, 2757); (2759, 2761);
   (2763, 2765); (2768, 2768); (2784, 2787); (2790, 2801); (2809, 2815);
   (2817, 2819); (2821, 2828); (2831, 2832); (2835, 2856); (2858, 2864);
   (2866, 2867); (2869, 2873); (2876, 2884); (2887, 2888); (2891, 2893);
   (2901, 2903); (2908, 2909); (2911, 2915); (2918, 2935); (2946, 2947);
   (2949, 2954); (2958, 2960); (2962, 2965); (2969, 2970); (2972, 2972);
   (2974, 2975); (2979, 2980); (2984, 2986); (2990, 3001); (3006, 3010);
   (3014, 3016); (3018, 3021); (3024, 3024); (3031, 3031); (3046, 3066);
   (3072, 3084); (3086, 3088); (3090, 3112); (3114, 3129); (3132, 3140);
   (3142, 3144); (3146, 3149); (3157, 3158); (3160, 3162); (3165, 3165);
   (3168, 3171); (3174, 3183); (3191, 3212); (3214, 3216); (3218, 3240);
   (3242, 3251); (3253, 3257); (3260, 3268); (3270, 3272); (3274, 3277);
   (3285, 3286); (3293, 3294); (3296, 3299); (3302, 3311); (3313, 3314);
   (3328, 3340); (3342, 3344); (3346, 3396); (3398, 3400); (3402, 3407);
   (3412, 3427); (3430, 3455); (3457, 3459); (3461, 3478); (3482, 3505);
   (3507, 3515); (3517, 3517); (3520, 3526); (3530, 3530); (3535, 3540);
   (3542, 3542); (3544, 3551); (3558, 3567); (3570, 3572); (3585, 3642);
   (3647, 3675); (3713, 3714); (3716, 3716); (3718, 3722); (3724, 3747);
   (3749, 3749); (3751, 3773); (3776, 3780); (3782, 3782); (3784, 3789);
   (3792, 3801); (3804, 3807); (3840, 3911); (3913, 3948); (3953, 3991);
   (3993, 4028); (4030, 4044); (4046, 4058); (4096, 4293); (4295, 4295);
   (4301, 4301); (4304, 4680); (4682, 4685); (4688, 4694); (4696, 4696);
   (4698, 4701); (4704, 4744); (4746, 4749); (4752, 4784); (4786, 4789);
   (4792, 4798); (4800, 4800); (4802, 4805); (4808, 4822); (4824, 4880);
   (4882, 4885); (4888, 4954); (4957, 4988); (4992, 5017); (5024, 5109);
   (5112, 5117); (5120, 5759); (5761, 5788); (5792, 5880); (5888, 5909);
   (5919, 5942); (5952, 5971); (5984, 5996); (5998, 6000); (6002, 6003);
   (6016, 6109); (6112, 6121); (6128, 6137); (6144, 6157); (6159, 6169);
   (6176, 6264); (6272, 6314); (6320, 6389); (6400, 6430); (6432, 6443);
   (6448, 6459); (6464, 6464); (6468, 6509); (6512, 6516); (6528, 6571);
   (6576, 6601); (6608, 6618); (6622, 6683); (6686, 6750); (6752, 6780);
   (6783, 6793); (6800, 6809); (6816, 6829); (6832, 6862); (6912, 6988);
   (6992, 7038); (7040, 7155); (7164, 7223); (7227, 7241); (7245, 7304);
   (7312, 7354); (7357, 7367); (7376, 7418); (7424, 7957); (7960, 7965);
   (7968, 8005); (8008, 8013); (8016, 8023); (8025, 8025); (8027, 8027);
   (8029, 8029); (8031, 8061); (8064, 8116); (8118, 8132); (8134, 8147);
   (8150, 8155); (8157, 8175); (8178, 8180); (8182, 8190); (8208, 8231);
   (8240, 8286); (8304, 8305); (8308, 8334); (8336, 8348); (8352, 8384);
   (8400, 8432); (8448, 8587); (8592, 9254); (9280, 9290); (9312, 11123);
   (11126, 11157); (11159, 11507); (11513, 11557); (11559, 11559);
   (11565, 11565); (11568, 11623); (11631, 11632); (11647, 11670);
   (11680, 11686); (11688, 11694); (11696, 11702); (11704, 11710);
   (11712, 11718); (11720, 11726); (11728, 11734); (11736, 11742);
   (11744, 11869); (11904, 11929); (11931, 12019); (12032, 12245);
   (12272, 12283); (12289, 12351); (12353, 12438); (12441, 12543);
   (12549, 12591); (12593, 12686); (12688, 12771); (12784, 12830);
   (12832, 42124); (42128, 42182); (42192, 42539); (42560, 42743);
   (42752, 42954); (42960, 42961); (42963, 42963); (42965, 42969);
   (42994, 43052); (43056, 43065); (43072, 43127); (43136, 43205);
   (43214, 43225); (43232, 43347); (43359, 43388); (43392, 43469);
   (43471, 43481); (43486, 43518); (43520, 43574); (43584, 43597);
   (43600, 43609); (43612, 43714); (43739, 43766); (43777, 43782);
   (43785, 43790); (43793, 43798); (43808, 43814); (43816, 43822);
   (43824, 43883); (43888, 44013); (44016, 44025); (44032, 55203);
   (55216, 55238); (55243, 55291); (63744, 64109); (64112, 64217);
   (64256, 64262); (64275, 64279); (64285, 64310); (64312, 64316);
   (64318, 64318); (64320, 64321); (64323, 64324); (64326, 64450);
   (64467, 64911); (64914, 64967); (64975, 64975); (65008, 65049);
   (65056, 65106); (65108, 65126); (65128, 65131); (65136, 65140);
   (65142, 65276); (65281, 65470); (65474, 65479); (65482, 65487);
   (65490, 65495); (65498, 65500); (65504, 65510); (65512, 65518);
   (65532, 65533); (65536, 65547); (65549, 65574); (65576, 65594);
   (65596, 65597); (65599, 65613); (65616, 65629); (65664, 65786);
   (65792, 65794); (65799, 65843); (65847, 65934); (65936, 65948);
   (65952, 65952); (66000, 66045); (66176, 66204); (66208, 66256);
   (66272, 66299); (66304, 66339); (66349, 66378); (66384, 66426);
   (66432, 66461); (66463, 66499); (66504, 66517); (66560, 66717);
   (66720, 66729); (66736, 66771); (66776, 66811); (66816, 66855);
   (66864, 66915); (66927, 66938); (66940, 66954); (66956, 66962);
   (66964, 66965); (66967, 66977); (66979, 66993); (66995, 67001);
   (67003, 67004); (67072, 67382); (67392, 67413); (67424, 67431);
   (67456, 67461); (67463, 67504); (67506, 67514); (67584, 67589);
   (67592, 67592); (67594, 67637); (67639, 67640); (67644, 67644);
   (67647, 67669); (67671, 67742); (67751, 67759); (67808, 67826);
   (67828, 67829); (67835, 67867); (67871, 67897); (67903, 67903);
   (67968, 68023); (68028, 68047); (68050, 68099); (68101, 68102);
   (68108, 68115); (68117, 68119); (68121, 68149); (68152, 68154);
   (68159, 68168); (68176, 68184); (68192, 68255); (68288, 68326);
   (68331, 68342); (68352, 68405); (68409, 68437); (68440, 68466);
   (68472, 68497); (68505, 68508); (68521, 68527); (68608, 68680);
   (68736, 68786); (68800, 68850); (68858, 68903); (68912, 68921);
   (69216, 69246); (69248, 69289); (69291, 69293); (69296, 69297);
   (69376, 69415); (69424, 69465); (69488, 69513); (69552, 69579);
   (69600, 69622); (69632, 69709); (69714, 69749); (69759, 69820);
   (69822, 69826); (69840, 69864); (69872, 69881); (69888, 69940);
   (69942, 69959); (69968, 70006); (70016, 70111); (70113, 70132);
   (70144, 70161); (70163, 70206); (70272, 70278); (70280, 70280);
   (70282, 70285); (70287, 70301); (70303, 70313); (70320, 70378);
   (70384, 70393); (70400, 70403); (70405, 70412); (70415, 70416);
   (70419, 70440); (70442, 70448); (70450, 70451); (70453, 70457);
   (70459, 70468); (70471, 70472); (70475, 70477); (70480, 70480);
   (70487, 70487); (70493, 70499); (70502, 70508); (70512, 70516);
   (70656, 70747); (70749, 70753); (70784, 70855); (70864, 70873);
   (71040, 71093); (71096, 71133); (71168, 71236); (71248, 71257);
   (71264, 71276); (71296, 71353); (71360, 71369); (71424, 71450);
   (71453, 71467); (71472, 71494); (71680, 71739); (71840, 71922);
   (71935, 71942); (71945, 71945); (71948, 71955); (71957, 71958);
   (71960, 71989); (71991, 71992); (71995, 72006); (72016, 72025);
   (72096, 72103); (72106, 72151); (72154, 72164); (72192, 72263);
   (72272, 72354); (72368, 72440); (72704, 72712); (72714, 72758);
   (72760, 72773); (72784, 72812); (72816, 72847); (72850, 72871);
   (72873, 72886); (72960, 72966); (72968, 72969); (72971, 73014);
   (73018, 73018); (73020, 73021); (73023, 73031); (73040, 73049);
   (73056, 73061); (73063, 73064); (73066, 73102); (73104, 73105);
   (73107, 73112); (73120, 73129); (73440, 73464); (73648, 73648);
   (73664, 73713); (73727, 74649); (74752, 74862); (74864, 74868);
   (74880, 75075); (77712, 77810); (77824, 78894); (82944, 83526);
   (92160, 92728); (92736, 92766); (92768, 92777); (92782, 92862);
   (92864, 92873); (92880, 92909); (92912, 92917); (92928, 92997);
   (93008, 93017); (93019, 93025); (93027, 93047); (93053, 93071);
   (93760, 93850); (93952, 94026); (94031, 94087); (94095, 94111);
   (94176, 94180); (94192, 94193); (94208, 100343); (100352, 101589);
   (101632, 101640); (110576, 110579); (110581, 110587); (110589, 110590);
   (110592, 110882); (110928, 110930); (110948, 110951); (110960, 111355);
   (113664, 113770); (113776, 113788); (113792, 113800); (113808, 113817);
   (113820, 113823); (118528, 118573); (118576, 118598); (118608, 118723);
   (118784, 119029); (119040, 119078); (119081, 119154); (119163, 119274);
   (119296, 119365); (119520, 119539); (119552, 119638); (119648, 119672);
   (119808, 119892); (119894, 119964); (119966, 119967); (119970, 119970);
   (119973, 119974); (119977, 119980); (119982, 119993); (119995, 119995);
   (119997, 120003); (120005, 120069); (120071, 120074); (120077, 120084);
   (120086, 120092); (120094, 120121); (120123, 120126); (120128, 120132);
   (120134, 120134); (120138, 120144); (120146, 120485); (120488, 120779);
   (120782, 121483); (121499, 121503); (121505, 121519); (122624, 122654);
   (122880, 122886); (122888, 122904); (122907, 122913); (122915, 122916);
   (122918, 122922); (123136, 123180); (123184, 123197); (123200, 123209);
   (123214, 123215); (123536, 123566); (123584, 123641); (123647, 123647);
   (124896, 124902); (124904, 124907); (124909, 124910); (124912, 124926);
   (124928, 125124); (125127, 125142); (125184, 125259); (125264, 125273);
   (125278, 125279); (126065, 126132); (126209, 126269); (126464, 126467);
   (126469, 126495); (126497, 126498); (126500, 126500); (126503, 126503);
   (126505, 126514); (126516, 126519); (126521, 126521); (126523, 126523);
   (126530, 126530); (126535, 126535); (126537, 126537); (126539, 126539);
   (126541, 126543); (126545, 126546); (126548, 126548); (126551, 126551);
   (126553, 126553); (126555, 126555); (126557, 126557); (126559, 126559);
   (126561, 126562); (126564, 126564); (126567, 126570); (126572, 126578);
   (126580, 126583); (126585, 126588); (126590, 126590); (126592, 126601);
   (126603, 126619); (126625, 126627); (126629, 126633); (126635, 126651);
   (126704, 126705); (126976, 127019); (127024, 127123); (127136, 127150);
   (127153, 127167); (127169, 127183); (127185, 127221); (127232, 127405);
   (127462, 127490); (127504, 127547); (127552, 127560); (127568, 127569);
   (127584, 127589); (127744, 128727); (128733, 128748); (128752, 128764);
   (128768, 128883); (128896, 128984); (128992, 129003); (129008, 129008);
   (129024, 129035); (129040, 129095); (129104, 129113); (129120, 129159);
   (129168, 129197); (129200, 129201); (129280, 129619); (129632, 129645);
   (129648, 129652); (129656, 129660); (129664, 129670); (129680, 129708);
   (129712, 129722); (129728, 129733); (129744, 129753); (129760, 129767);
   (129776, 129782); (129792, 129938); (129940, 129994); (130032, 130041);
   (131072, 173791); (173824, 177976); (177984, 178205); (178208, 183969);
   (183984, 191456); (194560, 195101); (196608, 201546); (917760, 917999)].

(** The code points for which [str.isspace()] holds. *)
Definition whitespace_ranges : list (Z * Z) :=
  [(9, 13); (28, 32); (133, 133); (160, 160); (5760, 5760); (8192, 8202);
   (8232, 8233); (8239, 8239); (8287, 8287); (12288, 12288)].

(** The runs of decimal digits. *)
Definition decimal_ranges : list (Z * Z) :=
  [(48, 57); (1632, 1641); (1776, 1785); (1984, 1993); (2406, 2415);
   (2534, 2543); (2662, 2671); (2790, 2799); (2918, 2927); (3046, 3055);
   (3174, 3183); (3302, 3311); (3430, 3439); (3558, 3567); (3664, 3673);
   (3792, 3801); (3872, 3881); (4160, 4169); (4240, 4249); (6112, 6121);
   (6160, 6169); (6470, 6479); (6608, 6617); (6784, 6793); (6800, 6809);
   (6992, 7001); (7088, 7097); (7232, 7241); (7248, 7257); (42528, 42537);
   (43216, 43225); (43264, 43273); (43472, 43481); (43504, 43513);
   (43600, 43609); (44016, 44025); (65296, 65305); (66720, 66729);
   (68912, 68921); (69734, 69743); (69872, 69881); (69942, 69951);
   (70096, 70105); (70384, 70393); (70736, 70745); (70864, 70873);
   (71248, 71257); (71360, 71369); (71472, 71481); (71904, 71913);
   (72016, 72025); (72784, 72793); (73040, 73049); (73120, 73129);
   (92768, 92777); (92864, 92873); (93008, 93017); (120782, 120831);
   (123200, 123209); (123632, 123641); (125264, 125273); (130032, 130041)].

(** The lower case letters whose upper case is one character: in a range
    [(lo, hi, step, delta)] every [step]-th code point from [lo] to [hi]
    moves by [delta]. *)
Definition upper_ranges : list (Z * Z * Z * Z) :=
  [(97, 122, 1, (-32)); (181, 181, 1, 743); (224, 246, 1, (-32));
   (248, 254, 1, (-32)); (255, 255, 1, 121); (257, 303, 2, (-1));
   (305, 305, 1, (-232)); (307, 311, 2, (-1)); (314, 328, 2, (-1));
   (331, 375, 2, (-1)); (378, 382, 2, (-1)); (383, 383, 1, (-300));
   (384, 384, 1, 195); (387, 389, 2, (-1)); (392, 392, 1, (-1));
   (396, 396, 1, (-1)); (402, 402, 1, (-1)); (405, 405, 1, 97);
   (409, 409, 1, (-1)); (410, 410, 1, 163); (414, 414, 1, 130);
   (417, 421, 2, (-1)); (424, 424, 1, (-1)); (429, 429, 1, (-1));
   (432, 432, 1, (-1)); (436, 438, 2, (-1)); (441, 441, 1, (-1));
   (445, 445, 1, (-1)); (447, 447, 1, 56); (453, 453, 1, (-1));
   (454, 454, 1, (-2)); (456, 456, 1, (-1)); (457, 457, 1, (-2));
   (459, 459, 1, (-1)); (460, 460, 1, (-2)); (462, 476, 2, (-1));
   (477, 477, 1, (-79)); (479, 495, 2, (-1)); (498, 498, 1, (-1));
   (499, 499, 1, (-2)); (501, 501, 1, (-1)); (505, 543, 2, (-1));
   (547, 563, 2, (-1)); (572, 572, 1, (-1)); (575, 576, 1, 10815);
   (578, 578, 1, (-1)); (583, 591, 2, (-1)); (592, 592, 1, 10783);
   (593, 593, 1, 10780); (594, 594, 1, 10782); (595, 595, 1, (-210));
   (596, 596, 1, (-206)); (598, 599, 1, (-205)); (601, 601, 1, (-202));
   (603, 603, 1, (-203)); (604, 604, 1, 42319); (608, 608, 1, (-205));
   (609, 609, 1, 42315); (611, 611, 1, (-207)); (613, 613, 1, 42280);
   (614, 614, 1, 42308); (616, 616, 1, (-209)); (617, 617, 1, (-211));
   (618, 618, 1, 42308); (619, 619, 1, 10743); (620, 620, 1, 42305);
   (623, 623, 1, (-211)); (625, 625, 1, 10749); (626, 626, 1, (-213));
   (629, 629, 1, (-214)); (637, 637, 1, 10727); (640, 640, 1, (-218));
   (642, 642, 1, 42307); (643, 643, 1, (-218)); (647, 647, 1, 42282);
   (648, 648, 1, (-218)); (649, 649, 1, (-69)); (650, 651, 1, (-217));
   (652, 652, 1, (-71)); (658, 658, 1, (-219)); (669, 669, 1, 42261);
   (670, 670, 1, 42258); (837, 837, 1, 84); (881, 883, 2, (-1));
   (887, 887, 1, (-1)); (891, 893, 1, 130); (940, 940, 1, (-38));
   (941, 943, 1, (-37)); (945, 961, 1, (-32)); (962, 962, 1, (-31));
   (963, 971, 1, (-32)); (972, 972, 1, (-64)); (973, 974, 1, (-63));
   (976, 976, 1, (-62)); (977, 977, 1, (-57)); (981, 981, 1, (-47));
   (982, 982, 1, (-54)); (983, 983, 1, (-8)); (985, 1007, 2, (-1));
   (1008, 1008, 1, (-86)); (1009, 1009, 1, (-80)); (1010, 1010, 1, 7);
   (1011, 1011, 1, (-116)); (1013, 1013, 1, (-96)); (1016, 1016, 1, (-1));
   (1019, 1019, 1, (-1)); (1072, 1103, 1, (-32)); (1104, 1119, 1, (-80));
   (1121, 1153, 2, (-1)); (1163, 1215, 2, (-1)); (1218, 1230, 2, (-1));
   (1231, 1231, 1, (-15)); (1233, 1327, 2, (-1)); (1377, 1414, 1, (-48));
   (4304, 4346, 1, 3008); (4349, 4351, 1, 3008); (5112, 5117, 1, (-8));
   (7296, 7296, 1, (-6254)); (7297, 7297, 1, (-6253));
   (7298, 7298, 1, (-6244)); (7299, 7300, 1, (-6242));
   (7301, 7301, 1, (-6243)); (7302, 7302, 1, (-6236));
   (7303, 7303, 1, (-6181)); (7304, 7304, 1, 35266); (7545, 7545, 1, 35332);
   (7549, 7549, 1, 3814); (7566, 7566, 1, 35384); (7681, 7829, 2, (-1));
   (7835, 7835, 1, (-59)); (7841, 7935, 2, (-1)); (7936, 7943, 1, 8);
   (7952, 7957, 1, 8); (7968, 7975, 1, 8); (7984, 7991, 1, 8);
   (8000, 8005, 1, 8); (8017, 8023, 2, 8); (8032, 8039, 1, 8);
   (8048, 8049, 1, 74); (8050, 8053, 1, 86); (8054, 8055, 1, 100);
   (8056, 8057, 1, 128); (8058, 8059, 1, 112); (8060, 8061, 1, 126);
   (8112, 8113, 1, 8); (8126, 8126, 1, (-7205)); (8144, 8145, 1, 8);
   (8160, 8161, 1, 8); (8165, 8165, 1, 7); (8526, 8526, 1, (-28));
   (8560, 8575, 1, (-16)); (8580, 8580, 1, (-1)); (9424, 9449, 1, (-26));
   (11312, 11359, 1, (-48)); (11361, 11361, 1, (-1));
   (11365, 11365, 1, (-10795)); (11366, 11366, 1, (-10792));
   (11368, 11372, 2, (-1)); (11379, 11379, 1, (-1)); (11382, 11382, 1, (-1));
   (11393, 11491, 2, (-1)); (11500, 11502, 2, (-1)); (11507, 11507, 1, (-1));
   (11520, 11557, 1, (-7264)); (11559, 11559, 1, (-7264));
   (11565, 11565, 1, (-7264)); (42561, 42605, 2, (-1));
   (42625, 42651, 2, (-1)); (42787, 42799, 2, (-1)); (42803, 42863, 2, (-1));
   (42874, 42876, 2, (-1)); (42879, 42887, 2, (-1)); (42892, 42892, 1, (-1));
   (42897, 42899, 2, (-1)); (42900, 42900, 1, 48); (42903, 42921, 2, (-1));
   (42933, 42947, 2, (-1)); (42952, 42954, 2, (-1)); (42961, 42961, 1, (-1));
   (42967, 42969, 2, (-1)); (42998, 42998, 1, (-1));
   (43859, 43859, 1, (-928)); (43888, 43967, 1, (-38864));
   (65345, 65370, 1, (-32)); (66600, 66639, 1, (-40));
   (66776, 66811, 1, (-40)); (66967, 67003, 2, (-39));
   (66968, 66976, 2, (-39)); (66980, 66992, 2, (-39));
   (66996, 67000, 2, (-39)); (67004, 67004, 1, (-39));
   (68800, 68850, 1, (-64)); (71872, 71903, 1, (-32));
   (93792, 93823, 1, (-32)); (125218, 125251, 1, (-34))].

(** The characters whose upper case is more than one character. *)
Definition upper_special : list (Z * list Z) :=
  [(223, [83; 83]); (329, [700; 78]); (496, [74; 780]);
   (912, [921; 776; 769]); (944, [933; 776; 769]); (1415, [1333; 1362]);
   (7830, [72; 817]); (7831, [84; 776]); (7832, [87; 778]); (7833, [89; 778]);
   (7834, [65; 702]); (8016, [933; 787]); (8018, [933; 787; 768]);
   (8020, [933; 787; 769]); (8022, [933; 787; 834]); (8064, [7944; 921]);
   (8065, [7945; 921]); (8066, [7946; 921]); (8067, [7947; 921]);
   (8068, [7948; 921]); (8069, [7949; 921]); (8070, [7950; 921]);
   (8071, [7951; 921]); (8072, [7944; 921]); (8073, [7945; 921]);
   (8074, [7946; 921]); (8075, [7947; 921]); (8076, [7948; 921]);
   (8077, [7949; 921]); (8078, [7950; 921]); (8079, [7951; 921]);
   (8080, [7976; 921]); (8081, [7977; 921]); (8082, [7978; 921]);
   (8083, [7979; 921]); (8084, [7980; 921]); (8085, [7981; 921]);
   (8086, [7982; 921]); (8087, [7983; 921]); (8088, [7976; 921]);
   (8089, [7977; 921]); (8090, [7978; 921]); (8091, [7979; 921]);
   (8092, [7980; 921]); (8093, [7981; 921]); (8094, [7982; 921]);
   (8095, [7983; 921]); (8096, [8040; 921]); (8097, [8041; 921]);
   (8098, [8042; 921]); (8099, [8043; 921]); (8100, [8044; 921]);
   (8101, [8045; 921]); (8102, [8046; 921]); (8103, [8047; 921]);
   (8104, [8040; 921]); (8105, [8041; 921]); (8106, [8042; 921]);
   (8107, [8043; 921]); (8108, [8044; 921]); (8109, [8045; 921]);
   (8110, [8046; 921]); (8111, [8047; 921]); (8114, [8122; 921]);
   (8115, [913; 921]); (8116, [902; 921]); (8118, [913; 834]);
   (8119, [913; 834; 921]); (8124, [913; 921]); (8130, [8138; 921]);
   (8131, [919; 921]); (8132, [905; 921]); (8134, [919; 834]);
   (8135, [919; 834; 921]); (8140, [919; 921]); (8146, [921; 776; 768]);
   (8147, [921; 776; 769]); (8150, [921; 834]); (8151, [921; 776; 834]);
   (8162, [933; 776; 768]); (8163, [933; 776; 769]); (8164, [929; 787]);
   (8166, [933; 834]); (8167, [933; 776; 834]); (8178, [8186; 921]);
   (8179, [937; 921]); (8180, [911; 921]); (8182, [937; 834]);
   (8183, [937; 834; 921]); (8188, [937; 921]); (64256, [70; 70]);
   (64257, [70; 73]); (64258, [70; 76]); (64259, [70; 70; 73]);
   (64260, [70; 70; 76]); (64261, [83; 84]); (64262, [83; 84]);
   (64275, [1348; 1350]); (64276, [1348; 1333]); (64277, [1348; 1339]);
   (64278, [1358; 1350]); (64279, [1348; 1341])].

(** [c.isprintable()], [c.isspace()] and [unicodedata.decimal(c)]; the
    decimal digits come in runs of ten that start at a zero. *)
Definition isprintable (c : Z) : bool := in_ranges c printable_ranges.

Definition isspace (c : Z) : bool := in_ranges c whitespace_ranges.

Definition todecimal (c : Z) : option Z :=
  match
    find (fun r => (fst r <=? c) && (c <=? snd r)) decimal_ranges
  with
  | Some (lo, _) => Some ((c - lo) mod 10)
  | None => None
  end.

(** The full upper case of one character: an entry of [upper_special], else
    the shift of the range [(lo, hi, step, delta)] that holds it, else the
    character itself. *)
Definition toupper_full (c : Z) : list Z :=
  match find (fun e => fst e =? c) upper_special with
  | Some (_, mapped) => mapped
  | None =>
      match
        find (fun r =>
                let '(lo, hi, step, _) := r in
                (lo <=? c) && (c <=? hi) && ((c - lo) mod step =? 0))
          upper_ranges
      with
      | Some (_, _, _, delta) => [c + delta]
      | None => [c]
      end
  end.

(** [s.upper()] *)
Definition unicode_upper (s : str) : str := flat_map toupper_full s.

(** *** repr of a text *)

Definition hexdigit (d : Z) : Z := if d <? 10 then 48 + d else 87 + d.

(** The [n] lowest hexadecimal digits of [c], most significant first. *)
Fixpoint hexdigits (n : nat) (c : Z) : str :=
  match n with
  | O => []
  | S k => hexdigits k (c / 16) ++ [hexdigit (c mod 16)]
  end.

Definition repr_char (quote c : Z) : str :=
  if (c =? quote) || (c =? 92) then [92; c]
  else if c =? 9 then u "\t"
  else if c =? 10 then u "\n"
  else if c =? 13 then u "\r"
  else if (c <? 32) || (c =? 127) then u "\x" ++ hexdigits 2 c
  else if c <? 127 then [c]
  else if isprintable c then [c]
  else if c <=? 255 then u "\x" ++ hexdigits 2 c
  else if c <=? 65535 then u "\u" ++ hexdigits 4 c
  else u "\U" ++ hexdigits 8 c.

(** [repr(s)]: single quotes, unless the text holds a single quote and no
    double quote. *)
Definition repr_str (s : str) : str :=
  let quote :=
    if existsb (Z.eqb 39) s && negb (existsb (Z.eqb 34) s) then 34 else 39 in
  [quote] ++ flat_map (repr_char quote) s ++ [quote].

(** *** int(s) on a text *)

(** What [int] reads in place of [s]: the characters below 127 as they
    are, a space for every other white space, the ASCII digit for every
    other decimal digit and a question mark for the rest. *)
Definition to_ascii_decimal (c : Z) : Z :=
  if c <? 127 then c
  else if isspace c then 32
  else match todecimal c with
       | Some d => 48 + d
       | None => 63
       end.

(** The white space of C: space, tab, line feed, vertical tab, form feed,
    carriage return. *)
Definition Py_ISSPACE (c : Z) : bool := (c =? 32) || ((9 <=? c) && (c <=? 13)).

Definition is_digit (c : Z) : bool := (48 <=? c) && (c <=? 57).

Fixpoint skip_space (s : str) : str :=
  match s with
  | c :: rest => if Py_ISSPACE c then skip_space rest else s
  | [] => []
  end.

(** The digits and underscores at the head of [s]: the value read, the
    number of digits, the character before the rest, and the rest; None
    when two underscores meet. *)
Fixpoint scan_digits (s : str) (value digits prev : Z)
  : option (Z * Z * Z * str) :=
  match s with
  | c :: rest =>
      if c =? 95 then
        if prev =? 95 then None else scan_digits rest value digits c
      else if is_digit c then
        scan_digits rest (value * 10 + (c - 48)) (digits + 1) c
      else Some (value, digits, prev, s)
  | [] => Some (value, digits, prev, [])
  end.

(** [sys.get_int_max_str_digits()] as the interpreter starts. *)
Definition MAX_STR_DIGITS : Z := 4300.

(** The error of [int] on more than 4300 digits. *)
Definition digits_limit_error (digits : Z) : exn :=
  ValueError
    (u "Exceeds the limit (4300 digits) for integer string conversion: "
       ++ u "value has " ++ str_of_int digits
       ++ u " digits; use sys.set_int_max_str_digits() to increase the limit").

(** [int(s)]: white space, a sign, then digits, between which single
    underscores may stand, then white space. *)
Definition int_of_text (s : str) : result Z :=
  let invalid :=
    Err (ValueError
           (u "invalid literal for int() with base 10: "
              ++ firstn 200 (repr_str s))) in
  let t := skip_space (map to_ascii_decimal s) in
  let '(negative, t) :=
    match t with
    | 43 :: rest => (false, rest)
    | 45 :: rest => (true, rest)
    | _ => (false, t)
    end in
  match t with
  | 95 :: _ => invalid
  | _ =>
      match scan_digits t 0 0 0 with
      | None => invalid
      | Some (value, digits, prev, rest) =>
          if (prev =? 95) || (digits =? 0) then invalid
          else if MAX_STR_DIGITS <? digits then Err (digits_limit_error digits)
          else
            match skip_space rest with
            | [] => Ok (if negative then - value else value)
            | _ => invalid
            end
      end
  end.

(** *** int(x) on a float *)

(** The integer part of the float with the binary64 pattern [bits]. *)
Definition int_of_binary64 (bits : Z) : result Z :=
  let bits := bits mod 2 ^ 64 in
  let negative := 2 ^ 63 <=? bits in
  let exponent := (bits / 2 ^ 52) mod 2048 in
  let fraction := bits mod 2 ^ 52 in
  if exponent =? 2047 then
    if fraction =? 0 then Err OverflowError
    else Err (ValueError (u "cannot convert float NaN to integer"))
  else
    let significand := if exponent =? 0 then fraction else 2 ^ 52 + fraction in
    let shift := (if exponent =? 0 then 1 else exponent) - 1075 in
    let magnitude :=
      if 0 <=? shift then significand * 2 ^ shift
      else significand / 2 ^ (- shift) in
    Ok (if negative then - magnitude else magnitude).

(** *** posixpath.splitext *)

(** [p.rfind(c)]: the last position of [c] in [p], or -1. *)
Fixpoint rfind_from (c : Z) (p : str) (i found : Z) : Z :=
  match p with
  | [] => found
  | x :: rest => rfind_from c rest (i + 1) (if x =? c then i else found)
  end.

Definition rfind (c : Z) (p : str) : Z := rfind_from c p 0 (-1).

(** [p[i:j]] for [0 <= i] *)
Definition slice (p : str) (i j : Z) : str :=
  firstn (Z.to_nat (j - i)) (skipn (Z.to_nat i) p).

(** [genericpath._splitext(p, sep, None, extsep)]: the extension starts at
    the last dot after the last separator, unless only dots stand between
    the separator and that dot. *)
Definition _splitext (p : str) (sep extsep : Z) : str * str :=
  let sepIndex := rfind sep p in
  let dotIndex := rfind extsep p in
  if (sepIndex <? dotIndex)
     && existsb (fun c => negb (c =? extsep)) (slice p (sepIndex + 1) dotIndex)
  then (slice p 0 dotIndex, skipn (Z.to_nat dotIndex) p)
  else (p, []).

Definition posixpath_splitext (p : str) : str * str := _splitext p 47 46.

(** *** str(v) and repr(v) *)

(** A finite float that is not zero is [X / Y], and the decimal numbers
    that round to it lie from [(X - Dm) / Y] to [(X + Dp) / Y], the ends
    included when the significand is even; [significand] and [shift] are
    those of [int_of_binary64]. *)
Definition rounding_interval (significand shift : Z) : Z * Z * Z * Z :=
  let narrow := (significand =? 2 ^ 52) && (-1074 <? shift) in
  if 0 <=? shift
  then (4 * significand * 2 ^ shift, 4,
        (if narrow then 1 else 2) * 2 ^ shift, 2 * 2 ^ shift)
  else (4 * significand, 4 * 2 ^ (- shift), (if narrow then 1 else 2), 2).

(** [X / Y < 10 ^ k] *)
Definition below_power (X Y k : Z) : bool :=
  X * 10 ^ Z.max 0 (- k) <? Y * 10 ^ Z.max 0 k.

Fixpoint decpt_up (fuel : nat) (X Y k : Z) : Z :=
  match fuel with
  | O => k
  | Datatypes.S fuel' =>
      if below_power X Y k then k else decpt_up fuel' X Y (k + 1)
  end.

Fixpoint decpt_down (fuel : nat) (X Y k : Z) : Z :=
  match fuel with
  | O => k
  | Datatypes.S fuel' =>
      if below_power X Y (k - 1) then decpt_down fuel' X Y (k - 1) else k
  end.

(** The [k] with [10 ^ (k - 1) <= X / Y < 10 ^ k]. *)
Definition decimal_point (X Y : Z) : Z :=
  let estimate := (Z.log2 X - Z.log2 Y) * 30103 / 100000 in
  decpt_down 8 X Y (decpt_up 8 X Y estimate).

(** The number [c * 10 ^ (k - n)] of [n] digits that rounds to the float
    and is nearest to it, if there is one. *)
Definition nearest_of_length (X Y Dm Dp : Z) (closed : bool) (k n : Z)
  : option Z :=
  let t := k - n in
  let A := 10 ^ Z.max 0 (- t) in
  let B := 10 ^ Z.max 0 t in
  let low := X * A / (Y * B) in
  let rounds c :=
    let v := c * B * Y in
    if closed then ((X - Dm) * A <=? v) && (v <=? (X + Dp) * A)
    else ((X - Dm) * A <? v) && (v <? (X + Dp) * A) in
  let away c := Z.abs (c * B * Y - X * A) in
  match rounds low, rounds (low + 1) with
  | true, true =>
      Some (if away low <? away (low + 1) then low
            else if away (low + 1) <? away low then low + 1
            else if Z.even low then low else low + 1)
  | true, false => Some low
  | false, true => Some (low + 1)
  | false, false => None
  end.

Fixpoint shortest_from (fuel : nat) (X Y Dm Dp : Z) (closed : bool) (k n : Z)
  : Z * Z :=
  match fuel with
  | O => (0, 0)
  | Datatypes.S fuel' =>
      match nearest_of_length X Y Dm Dp closed k n with
      | Some c => (c, k - n)
      | None => shortest_from fuel' X Y Dm Dp closed k (n + 1)
      end
  end.

Fixpoint strip_zeros (fuel : nat) (c t : Z) : Z * Z :=
  match fuel with
  | O => (c, t)
  | Datatypes.S fuel' =>
      if (c mod 10 =? 0) && negb (c =? 0)
      then strip_zeros fuel' (c / 10) (t + 1)
      else (c, t)
  end.

(** The digits and the position of the decimal point of the shortest
    decimal number that rounds to the float. *)
Definition shortest_digits (significand shift : Z) : str * Z :=
  let '(X, Y, Dm, Dp) := rounding_interval significand shift in
  let k := decimal_point X Y in
  let '(c, t) := shortest_from 17 X Y Dm Dp (Z.even significand) k 1 in
  let '(c, t) := strip_zeros 17 c t in
  let digits := str_of_int c in
  (digits, len digits + t).

(** [repr(x)] of a finite float from its digits: with an exponent when the
    decimal point lies more than 16 places to the right of the first digit
    or more than 3 to the left. *)
Definition format_repr (digits : str) (decpt : Z) : str :=
  if (decpt <=? -4) || (16 <? decpt) then
    let e := decpt - 1 in
    let exponent := str_of_int (Z.abs e) in
    match digits with
    | d :: (_ :: _) as more => d :: 46 :: more
    | _ => digits
    end
      ++ u "e" ++ (if e <? 0 then u "-" else u "+")
      ++ (if len exponent <? 2 then u "0" else []) ++ exponent
  else if decpt <=? 0 then
    u "0." ++ repeat 48 (Z.to_nat (- decpt)) ++ digits
  else if len digits <=? decpt then
    digits ++ repeat 48 (Z.to_nat (decpt - len digits)) ++ u ".0"
  else
    firstn (Z.to_nat decpt) digits ++ u "." ++ skipn (Z.to_nat decpt) digits.

Definition repr_float (bits : Z) : str :=
  let bits := bits mod 2 ^ 64 in
  let negative := 2 ^ 63 <=? bits in
  let exponent := (bits / 2 ^ 52) mod 2048 in
  let fraction := bits mod 2 ^ 52 in
  if exponent =? 2047 then
    if fraction =? 0 then (if negative then u "-inf" else u "inf")
    else u "nan"
  else
    (if negative then u "-" else [])
      ++ if (exponent =? 0) && (fraction =? 0) then u "0.0"
         else
           let significand :=
             if exponent =? 0 then fraction else 2 ^ 52 + fraction in
           let shift := (if exponent =? 0 then 1 else exponent) - 1075 in
           let '(digits, decpt) := shortest_digits significand shift in
           format_repr digits decpt.

(** [sep.join(items)] *)
Fixpoint join (sep : str) (items : list str) : str :=
  match items with
  | [] => []
  | [item] => item
  | item :: rest => item ++ sep ++ join sep rest
  end.

(** [repr(v)] *)
Fixpoint py_repr (v : pyvalue) : str :=
  match v with
  | PNone => u "None"
  | PBool true => u "True"
  | PBool false => u "False"
  | PInt n => str_of_int n
  | PFloat bits => repr_float bits
  | PStr s => repr_str s
  | PList items => u "[" ++ join (u ", ") (map py_repr items) ++ u "]"
  | PDict items =>
      u "{"
        ++ join (u ", ")
             (map (fun item =>
                     match item with
                     | (key, value) => repr_str key ++ u ": " ++ py_repr value
                     end) items)
        ++ u "}"
  end.

(** [str(v)] *)
Definition py_str (v : pyvalue) : str :=
  match v with
  | PStr s => s
  | _ => py_repr v
  end.

(** *** json.loads on bytes *)

(** [b.decode('utf-8', 'surrogatepass')]: as [decode_utf8], but the three
    octets that stand for a surrogate are read as that surrogate. *)
Fixpoint decode_utf8_surrogatepass (b : bytes) : result str :=
  match b with
  | [] => Ok []
  | b0 :: r0 =>
      if (0 <=? b0) && (b0 <? 128)
      then Codec.cons_ok b0 (decode_utf8_surrogatepass r0)
      else if (192 <=? b0) && (b0 <? 224) then
        match r0 with
        | b1 :: r1 =>
            let c := (b0 - 192) * 64 + (b1 - 128) in
            if Codec.continuation b1 && (128 <=? c)
            then Codec.cons_ok c (decode_utf8_surrogatepass r1)
            else Err UnicodeDecodeError
        | _ => Err UnicodeDecodeError
        end
      else if (224 <=? b0) && (b0 <? 240) then
        match r0 with
        | b1 :: b2 :: r2 =>
            let c := (b0 - 224) * 4096 + (b1 - 128) * 64 + (b2 - 128) in
            if Codec.continuation b1 && Codec.continuation b2 && (2048 <=? c)
            then Codec.cons_ok c (decode_utf8_surrogatepass r2)
            else Err UnicodeDecodeError
        | _ => Err UnicodeDecodeError
        end
      else if (240 <=? b0) && (b0 <? 248) then
        match r0 with
        | b1 :: b2 :: b3 :: r3 =>
            let c := (b0 - 240) * 262144 + (b1 - 128) * 4096
                     + (b2 - 128) * 64 + (b3 - 128) in
            if Codec.continuation b1 && Codec.continuation b2 && Codec.continuation b3
               && (65536 <=? c) && (c <? 1114112)
            then Codec.cons_ok c (decode_utf8_surrogatepass r3)
            else Err UnicodeDecodeError
        | _ => Err UnicodeDecodeError
        end
      else Err UnicodeDecodeError
  end.

(** The 16-bit units of [b], lowest octet first or last. *)
Fixpoint units16 (little : bool) (b : bytes) : result (list Z) :=
  match b with
  | [] => Ok []
  | x :: y :: rest =>
      Codec.cons_ok (if little then x + 256 * y else 256 * x + y)
        (units16 little rest)
  | _ => Err UnicodeDecodeError
  end.

(** A high surrogate and the low surrogate after it are one character;
    every other unit is a character of its own. *)
Fixpoint join_surrogates (units : list Z) : str :=
  match units with
  | [] => []
  | hi :: rest =>
      match rest with
      | lo :: rest' =>
          if (55296 <=? hi) && (hi <=? 56319)
             && (56320 <=? lo) && (lo <=? 57343)
          then 65536 + (hi - 55296) * 1024 + (lo - 56320)
                 :: join_surrogates rest'
          else hi :: join_surrogates rest
      | [] => [hi]
      end
  end.

(** [b.decode('utf-16-le', 'surrogatepass')] and its big-endian twin. *)
Definition decode_utf16 (little : bool) (b : bytes) : result str :=
  match units16 little b with
  | Ok units => Ok (join_surrogates units)
  | Err e => Err e
  end.

(** [b.decode('utf-32-le', 'surrogatepass')] and its big-endian twin. *)
Fixpoint decode_utf32 (little : bool) (b : bytes) : result str :=
  match b with
  | [] => Ok []
  | x0 :: x1 :: x2 :: x3 :: rest =>
      let c :=
        if little then x0 + 256 * (x1 + 256 * (x2 + 256 * x3))
        else x3 + 256 * (x2 + 256 * (x1 + 256 * x0)) in
      if c <? 1114112 then Codec.cons_ok c (decode_utf32 little rest)
      else Err UnicodeDecodeError
  | _ => Err UnicodeDecodeError
  end.

(** [b.decode(json.detect_encoding(b), 'surrogatepass')] *)
Definition decode_detected (b : bytes) : result str :=
  match b with
  | 0 :: 0 :: 254 :: 255 :: rest => decode_utf32 false rest
  | 255 :: 254 :: 0 :: 0 :: rest => decode_utf32 true rest
  | 254 :: 255 :: rest => decode_utf16 false rest
  | 255 :: 254 :: rest => decode_utf16 true rest
  | 239 :: 187 :: 191 :: rest => decode_utf8_surrogatepass rest
  | b0 :: b1 :: b2 :: b3 :: _ =>
      if b0 =? 0 then
        if b1 =? 0 then decode_utf32 false b else decode_utf16 false b
      else if b1 =? 0 then
        if (b2 =? 0) && (b3 =? 0) then decode_utf32 true b
        else decode_utf16 true b
      else decode_utf8_surrogatepass b
  | [b0; b1] =>
      if b0 =? 0 then decode_utf16 false b
      else if b1 =? 0 then decode_utf16 true b
      else decode_utf8_surrogatepass b
  | _ => decode_utf8_surrogatepass b
  end.

(** [n / d] rounded to the nearest integer, to the even one of two. *)
Definition round_half_even (n d : Z) : Z :=
  let q := n / d in
  let r := n mod d in
  if 2 * r <? d then q
  else if d <? 2 * r then q + 1
  else if Z.even q then q else q + 1.

(** The binary64 pattern of [float(text)] for the decimal number
    [D * 10 ^ E]: the nearest float, the even one of two, infinity beyond
    the largest. *)
Definition binary64_of_decimal (negative : bool) (D E : Z) : Z :=
  let sign := if negative then 2 ^ 63 else 0 in
  if D =? 0 then sign
  else
    let num := D * 10 ^ Z.max 0 E in
    let den := 10 ^ Z.max 0 (- E) in
    let scaled e := num * 2 ^ Z.max 0 (- e) / (den * 2 ^ Z.max 0 e) in
    let e0 := Z.log2 num - Z.log2 den - 52 in
    let e1 :=
      if scaled e0 <? 2 ^ 52 then e0 - 1
      else if 2 ^ 53 <=? scaled e0 then e0 + 1
      else e0 in
    let e := Z.max (-1074) e1 in
    let m :=
      round_half_even (num * 2 ^ Z.max 0 (- e)) (den * 2 ^ Z.max 0 e) in
    let e := if m =? 2 ^ 53 then e + 1 else e in
    let m := if m =? 2 ^ 53 then 2 ^ 52 else m in
    if m <? 2 ^ 52 then sign + m
    else if 971 <? e then sign + 2047 * 2 ^ 52
    else sign + (e + 1075) * 2 ^ 52 + (m - 2 ^ 52).

(** The white space of JSON: space, tab, line feed, carriage return. *)
Definition json_whitespace (c : Z) : bool :=
  (c =? 32) || (c =? 9) || (c =? 10) || (c =? 13).

Fixpoint skip_whitespace (s : str) : str :=
  match s with
  | c :: rest => if json_whitespace c then skip_whitespace rest else s
  | [] => []
  end.

Definition hex_value (c : Z) : option Z :=
  if is_digit c then Some (c - 48)
  else if (97 <=? c) && (c <=? 102) then Some (c - 87)
  else if (65 <=? c) && (c <=? 70) then Some (c - 55)
  else None.

Definition hex4 (s : str) : option (Z * str) :=
  match s with
  | a :: b :: c :: d :: rest =>
      match hex_value a, hex_value b, hex_value c, hex_value d with
      | Some a, Some b, Some c, Some d =>
          Some (((a * 16 + b) * 16 + c) * 16 + d, rest)
      | _, _, _, _ => None
      end
  | _ => None
  end.

Definition simple_escape (c : Z) : option Z :=
  if (c =? 34) || (c =? 92) || (c =? 47) then Some c
  else if c =? 98 then Some 8
  else if c =? 102 then Some 12
  else if c =? 110 then Some 10
  else if c =? 114 then Some 13
  else if c =? 116 then Some 9
  else None.

(** [scanstring] after the opening quote, strict: the text up to the
    closing quote, with its escapes resolved, and what follows the quote;
    [chunks] holds the text read so far, last character first. *)
Fixpoint scanstring (fuel : nat) (s chunks : str) : option (str * str) :=
  match fuel with
  | O => None
  | Datatypes.S fuel' =>
      match s with
      | [] => None
      | c :: rest =>
          if c =? 34 then Some (rev chunks, rest)
          else if c <=? 31 then None
          else if c =? 92 then
            match rest with
            | [] => None
            | e :: rest1 =>
                if e =? 117 then
                  match hex4 rest1 with
                  | None => None
                  | Some (hi, rest2) =>
                      if (55296 <=? hi) && (hi <=? 56319) then
                        match rest2 with
                        | 92 :: 117 :: rest3 =>
                            match hex4 rest3 with
                            | None => None
                            | Some (lo, rest4) =>
                                if (56320 <=? lo) && (lo <=? 57343)
                                then
                                  scanstring fuel' rest4
                                    (65536 + (hi - 55296) * 1024
                                       + (lo - 56320) :: chunks)
                                else scanstring fuel' rest2 (hi :: chunks)
                            end
                        | _ => scanstring fuel' rest2 (hi :: chunks)
                        end
                      else scanstring fuel' rest2 (hi :: chunks)
                  end
                else
                  match simple_escape e with
                  | Some x => scanstring fuel' rest1 (x :: chunks)
                  | None => None
                  end
            end
          else scanstring fuel' rest (c :: chunks)
      end
  end.

Fixpoint take_digits (s : str) : str * str :=
  match s with
  | c :: rest =>
      if is_digit c
      then let '(digits, rest') := take_digits rest in (c :: digits, rest')
      else ([], s)
  | [] => ([], [])
  end.

Definition digits_value (digits : str) : Z :=
  fold_left (fun value c => value * 10 + (c - 48)) digits 0.

(** A number at the head of [s]: an integer, or a float when a fraction or
    an exponent follows the integer digits. *)
Definition match_number (s : str) : result (pyvalue * str) :=
  let '(negative, s1) :=
    match s with
    | 45 :: rest => (true, rest)
    | _ => (false, s)
    end in
  let whole :=
    match s1 with
    | c :: rest =>
        if c =? 48 then Some ([c], rest)
        else if (49 <=? c) && (c <=? 57)
        then let '(digits, rest') := take_digits rest in
             Some (c :: digits, rest')
        else None
    | [] => None
    end in
  match whole with
  | None => Err JSONDecodeError
  | Some (whole, s2) =>
      let '(fraction, s3) :=
        match s2 with
        | 46 :: (d :: _) as digits =>
            if is_digit d then take_digits digits else ([], s2)
        | _ => ([], s2)
        end in
      let '(exponent, s4) :=
        match s3 with
        | e :: rest =>
            if (e =? 101) || (e =? 69) then
              let '(minus, rest1) :=
                match rest with
                | 43 :: rest1 => (false, rest1)
                | 45 :: rest1 => (true, rest1)
                | _ => (false, rest)
                end in
              let '(digits, rest2) := take_digits rest1 in
              match digits with
              | [] => (None, s3)
              | _ =>
                  (Some (if minus then - digits_value digits
                         else digits_value digits), rest2)
              end
            else (None, s3)
        | [] => (None, s3)
        end in
      match fraction, exponent with
      | [], None =>
          if MAX_STR_DIGITS <? len whole
          then Err (digits_limit_error (len whole))
          else Ok (PInt (if negative then - digits_value whole
                         else digits_value whole), s4)
      | _, _ =>
          Ok (PFloat
                (binary64_of_decimal negative
                   (digits_value (whole ++ fraction))
                   (match exponent with Some e => e | None => 0 end
                    - len fraction)), s4)
      end
  end.

(** The C scanner of the [json] module: a value at the head of [s] and
    what follows it; the elements of an array after the first bracket; the
    members of an object after the first brace. *)
Fixpoint scan_once (fuel : nat) (s : str) : result (pyvalue * str) :=
  match fuel with
  | O => Err JSONDecodeError
  | Datatypes.S fuel' =>
      match s with
      | [] => Err JSONDecodeError
      | c :: rest =>
          if c =? 34 then
            match scanstring (Datatypes.S (List.length rest)) rest [] with
            | Some (text, rest') => Ok (PStr text, rest')
            | None => Err JSONDecodeError
            end
          else if c =? 123 then
            match skip_whitespace rest with
            | 125 :: rest' => Ok (PDict [], rest')
            | members => parse_object fuel' members []
            end
          else if c =? 91 then
            match skip_whitespace rest with
            | 93 :: rest' => Ok (PList [], rest')
            | elements => parse_array fuel' elements []
            end
          else if startswith (u "null") s then Ok (PNone, skipn 4 s)
          else if startswith (u "true") s then Ok (PBool true, skipn 4 s)
          else if startswith (u "false") s then Ok (PBool false, skipn 5 s)
          else if startswith (u "NaN") s
          then Ok (PFloat (2047 * 2 ^ 52 + 2 ^ 51), skipn 3 s)
          else if startswith (u "Infinity") s
          then Ok (PFloat (2047 * 2 ^ 52), skipn 8 s)
          else if startswith (u "-Infinity") s
          then Ok (PFloat (2 ^ 63 + 2047 * 2 ^ 52), skipn 9 s)
          else match_number s
      end
  end
with parse_array (fuel : nat) (s : str) (values : list pyvalue)
  : result (pyvalue * str) :=
  match fuel with
  | O => Err JSONDecodeError
  | Datatypes.S fuel' =>
      match scan_once fuel' s with
      | Err e => Err e
      | Ok (value, rest) =>
          match skip_whitespace rest with
          | 93 :: rest' => Ok (PList (rev (value :: values)), rest')
          | 44 :: rest' =>
              parse_array fuel' (skip_whitespace rest') (value :: values)
          | _ => Err JSONDecodeError
          end
      end
  end
with parse_object (fuel : nat) (s : str) (members : odict)
  : result (pyvalue * str) :=
  match fuel with
  | O => Err JSONDecodeError
  | Datatypes.S fuel' =>
      match s with
      | 34 :: rest =>
          match scanstring (Datatypes.S (List.length rest)) rest [] with
          | None => Err JSONDecodeError
          | Some (key, rest1) =>
              match skip_whitespace rest1 with
              | 58 :: rest2 =>
                  match scan_once fuel' (skip_whitespace rest2) with
                  | Err e => Err e
                  | Ok (value, rest3) =>
                      let members := dict_set members key value in
                      match skip_whitespace rest3 with
                      | 125 :: rest4 => Ok (PDict members, rest4)
                      | 44 :: rest4 =>
                          parse_object fuel' (skip_whitespace rest4) members
                      | _ => Err JSONDecodeError
                      end
                  end
              | _ => Err JSONDecodeError
              end
          end
      | _ => Err JSONDecodeError
      end
  end.

(** [json.loads(b)] on bytes: the text in the encoding that the first
    octets show, one value between white space, nothing after it.  The
    nesting is as deep as the text allows: the recursion limit of the
    interpreter is not part of this definition. *)
Definition json_loads_bytes (b : bytes) : result pyvalue :=
  match decode_detected b with
  | Err e => Err e
  | Ok s =>
      match
        scan_once (2 * List.length s + 2)%nat (skip_whitespace s)
      with
      | Err e => Err e
      | Ok (value, rest) =>
          match skip_whitespace rest with
          | [] => Ok value
          | _ => Err JSONDecodeError
          end
      end
  end.

(** The builtins together: the fields of [Python] as the interpreter has
    them. *)
Definition python : Python := {|
  str_upper := unicode_upper;
  int_of_str := int_of_text;
  int_of_float := int_of_binary64;
  repr := py_str;
  json_loads := json_loads_bytes;
  splitext := posixpath_splitext
|}.

Definition api : Survey.Api :=
  {| Survey.session_key := PStr (u "s3ss10n");
     Survey.username := PStr (u "admin") |}.

(** A remote end that answers every call with [response]; the random draw
    is the lower bound, no file can be read. *)
Definition answering (response : pyvalue) : world := {|
  transport := fun _ _ => response;
  randint := fun lo _ => lo;
  read_file := fun _ => Err OSError
|}.

(** The reply [{"status": status}]. *)
Definition status_reply (status : string) : pyvalue :=
  PDict [(u "status", PStr (u status))].

End Runtime.

(** ** Notions for the properties of the whole module *)

Module Extra.

Import Survey.

(** The type each operation asserts for a reply without status. *)
Definition expected_type (c : invocation) : pytype :=
  match c with
  | Call_list_surveys _ => list_t
  | Call_list_questions _ _ _ => list_t
  | Call_add_survey _ _ _ _ => int_t
  | Call_delete_survey _ => list_t
  | Call_export_responses _ _ _ _ _ _ _ _ _ => str_t
  | Call_add_question _ _ _ _ _ _ => int_t
  | Call_delete_question _ => int_t
  | Call_import_survey _ _ _ => int_t
  | Call_activate_survey _ => list_t
  | Call_activate_tokens _ _ => list_t
  | Call_list_groups _ => list_t
  | Call_add_group _ _ _ => int_t
  | Call_get_survey_properties _ _ => dict_t
  | Call_set_survey_properties _ _ => dict_t
  | Call_add_response _ _ => int_t
  end.

(** [json.loads(decodestring(response.encode('utf-8')))] *)
Definition decode_export (py : Python) (response : pyvalue)
  : result pyvalue :=
  match response with
  | PStr s =>
      match Codec.encode_utf8 s with
      | Ok encoded =>
          match Codec.decodestring encoded with
          | Ok decoded => json_loads py decoded
          | Err e => Err e
          end
      | Err e => Err e
      end
  | _ => Err AttributeError
  end.

(** What the code after the transport call makes of a reply without
    status: the assertion on its type, then the reply itself, which only
    [export_responses] decodes. *)
Definition no_status (py : Python) (c : invocation) (response : pyvalue)
  : result pyvalue :=
  if pytype_is (type response) (expected_type c) then
    match error_messages c with
    | Some _ => Ok response
    | None => decode_export py response
    end
  else Err AssertionError.

(** What the code after the transport call makes of any reply. *)
Definition after_reply (py : Python) (c : invocation) (response : pyvalue)
  : result pyvalue :=
  match status_of response with
  | Some status => classify c response status
  | None => no_status py c response
  end.

(** One digit more, read from left to right in base 36 over [ALPHABET]. *)
Definition read_digit (acc : option Z) (c : codepoint) : option Z :=
  match acc, Codec.index_of c Utils.ALPHABET with
  | Some n, Some d => Some (n * 36 + d)
  | _, _ => None
  end.

(** The integer a text over [ALPHABET] writes in base 36, most significant
    digit first: the reading that undoes [_encode_int]. *)
Definition decode_int (s : str) : option Z :=
  fold_left read_digit s (Some 0).

(** The check that the character at position [k] of [ALPHABET] is found
    at position [k]. *)
Definition index_ok (k : nat) : bool :=
  match Codec.index_of (Utils.ALPHABET_at (Z.of_nat k)) Utils.ALPHABET with
  | Some i => i =? Z.of_nat k
  | None => false
  end.

(** The element [render_lsq_rows] writes for a field with a value. *)
Definition cdata_element (name value : str) : str :=
  u "<" ++ name ++ u "><![CDATA[" ++ value ++ u "]]></" ++ name ++ u ">".

(** A remote end that answers 3 and a file system with one file. *)
Definition one_file (data : bytes) : world := {|
  transport := fun _ _ => PInt 3;
  randint := fun lo _ => lo;
  read_file := fun _ => Ok data
|}.

End Extra.
(** * Properties *)

(** ** Text *)

Lemma str_eqb_refl (s : str) : str_eqb s s = true.
Proof. induction s as [|c s IH]; simpl; [reflexivity|]. now rewrite Z.eqb_refl. Qed.

Lemma str_eqb_eq (a b : str) : str_eqb a b = true <-> a = b.
Proof.
  split; [|intros ->; apply str_eqb_refl].
  revert b. induction a as [|x a IH]; intros [|y b]; simpl; try discriminate.
  - reflexivity.
  - intros H. apply andb_true_iff in H as [Hx Hr].
    apply Z.eqb_eq in Hx. apply IH in Hr. now subst.
Qed.

(** ** Running programs *)

Section Running.

Context (w : world).

Lemma run_bind_lift {A B} (r : result A) (f : A -> prog B) :
  run w (bind (lift r) f) =
  match r with
  | Ok a => run w (f a)
  | Err e => (Err e, [])
  end.
Proof. destruct r; reflexivity. Qed.

Lemma run_bind_generate_id {B} (self : Utils.IDGenerator) (f : str -> prog B) :
  run w (bind (Utils.generate_id self) f) =
  if Utils._alphabet_length ^ Utils._id_length self - 1
     <? Utils._alphabet_length ^ (Utils._id_length self - 1)
  then (Err (ValueError (u "empty range for randrange()")), [])
  else run w (f (Utils._encode_int
                   (randint w
                      (Utils._alphabet_length ^ (Utils._id_length self - 1))
                      (Utils._alphabet_length ^ Utils._id_length self - 1)))).
Proof. reflexivity. Qed.

(** A program that starts with the transport call received what the remote
    end answers to that call. *)
Lemma reply_query {A} m ps (k : pyvalue -> prog A) response :
  reply w (Query m ps k) = Some response -> transport w m ps = response.
Proof.
  unfold reply, calls. cbn [run].
  destruct (run w (k (transport w m ps))) as [x l]. cbn [snd].
  destruct l; [|discriminate]. now intros [= ->].
Qed.

Lemma outcome_query {A} m ps (k : pyvalue -> prog A) :
  outcome w (Query m ps k) = outcome w (k (transport w m ps)).
Proof.
  unfold outcome. cbn [run].
  now destruct (run w (k (transport w m ps))).
Qed.

End Running.

(** ** The classification of replies *)

Module SurveyFacts.

Import Survey.

Section Classification.

Context (py : Python) (api : Api) (w : world).

Lemma listed_In (s : str) (errors : list str) :
  listed (PStr s) errors = true <-> In s errors.
Proof.
  unfold listed. rewrite existsb_exists. split.
  - intros [m [Hin Heq]]. simpl in Heq. apply str_eqb_eq in Heq. now subst.
  - intros Hin. exists s. split; [exact Hin|apply str_eqb_refl].
Qed.

Lemma run_raise_if_listed method status errors :
  run w (raise_if_listed method status errors) =
  ((if listed status errors then Err (LimeSurveyError method status)
    else Ok tt) : result unit, []).
Proof.
  induction errors as [|message rest IH]; simpl; [reflexivity|].
  destruct (eq_str status message); simpl; [reflexivity|exact IH].
Qed.

(** What the code after the transport call does with a reply that carries a
    status, in the operations that keep a list of messages. *)
Lemma run_listed_branch method status errors response :
  run w (bind (raise_if_listed method status errors) (fun _ => Ret response)) =
  ((if listed status errors then Err (LimeSurveyError method status)
    else Ok response) : result pyvalue, []).
Proof.
  induction errors as [|message rest IH]; simpl; [reflexivity|].
  destruct (eq_str status message); simpl; [reflexivity|exact IH].
Qed.

Lemma run_assert_branch response t :
  run w (bind (assert_type response t) (fun _ => Ret response)) =
  ((if pytype_is (type response) t then Ok response
    else Err AssertionError) : result pyvalue, []).
Proof.
  unfold assert_type, assert.
  destruct (pytype_is (type response) t); reflexivity.
Qed.

Lemma id_generator_range :
  (Utils._alphabet_length ^ Utils._id_length id_generator - 1
   <? Utils._alphabet_length ^ (Utils._id_length id_generator - 1)) = false.
Proof. vm_compute. reflexivity. Qed.

Ltac run_tail :=
  repeat first
    [ rewrite run_listed_branch
    | rewrite run_assert_branch
    | progress cbn [fst snd bind run lift] ].

(** A step that fails before the transport call leaves no reply. *)
Ltac step_lift :=
  rewrite run_bind_lift;
  match goal with
  | |- context [match ?r with Ok _ => _ | Err _ => _ end] =>
      destruct r; [|cbn [fst snd]; discriminate]
  end.

Ltac after_query :=
  cbn [bind run];
  match goal with
  | |- context [transport w ?m ?ps] =>
      let Hr := fresh "Hr" in
      let Hst := fresh "Hst" in
      let H1 := fresh "H1" in
      let H2 := fresh "H2" in
      remember (transport w m ps) as r eqn:Hr;
      destruct (status_of r) as [st|] eqn:Hst;
      [ try match goal with
            | |- context [eq_str st ?sentinel] =>
                destruct (eq_str st sentinel) eqn:?
            end;
        run_tail; intros H1 H2; injection H1 as H1;
        match type of H1 with
        | _ = ?x => assert (r = x) by (rewrite Hr; exact H1)
        end; clear H1 Hr;
        subst; rewrite Hst in H2; injection H2 as H2; subst
      | intros H1 H2;
        match type of H1 with
        | context [run w ?t] =>
            let l := fresh "l" in
            destruct (run w t) as [? l]; cbn [snd] in H1;
            destruct l; [|discriminate];
            injection H1 as H1;
            match type of H1 with
            | _ = ?x => assert (r = x) by (rewrite Hr; exact H1)
            end; clear H1 Hr;
            subst; rewrite Hst in H2; discriminate
        end ]
  end.

Ltac finish_classify :=
  repeat match goal with
    | H : eq_str _ _ = _ |- _ => rewrite H
    end;
  reflexivity.

Ltac classify_start :=
  unfold reply, outcome, calls, classify;
  cbn [invoke empty_result error_messages method_of].

Lemma classify_add_survey title survey_id language format_ response status :
  let c := Call_add_survey title survey_id language format_ in
  reply w (invoke py api c) = Some response ->
  status_of response = Some status ->
  outcome w (invoke py api c) = classify c response status.
Proof.
  classify_start. unfold add_survey.
  destruct (truthy survey_id); [step_lift|cbn [bind]]; after_query;
    finish_classify.
Qed.

Lemma classify_add_question survey_id group_id question question_help
  question_type mandatory response status :
  let c := Call_add_question survey_id group_id question question_help
             question_type mandatory in
  reply w (invoke py api c) = Some response ->
  status_of response = Some status ->
  outcome w (invoke py api c) = classify c response status.
Proof.
  classify_start. unfold add_question.
  do 3 step_lift. rewrite run_bind_generate_id, id_generator_range.
  step_lift. after_query; finish_classify.
Qed.

Lemma classify_import_survey path new_name dest_survey_id response status :
  let c := Call_import_survey path new_name dest_survey_id in
  reply w (invoke py api c) = Some response ->
  status_of response = Some status ->
  outcome w (invoke py api c) = classify c response status.
Proof.
  classify_start. unfold import_survey.
  match goal with
  | |- context [if ?b then Warn _ _ else _] => destruct b
  end; cbn [bind run];
    (destruct (read_file w _); [|cbn [fst snd]; discriminate]);
    step_lift; after_query; finish_classify.
Qed.

(** Every operation, on every reply that carries a status. *)
Lemma classify_status (c : invocation) (response status : pyvalue) :
  reply w (invoke py api c) = Some response ->
  status_of response = Some status ->
  outcome w (invoke py api c) = classify c response status.
Proof.
  destruct c;
    try apply classify_add_survey;
    try apply classify_add_question;
    try apply classify_import_survey;
    classify_start.
  - unfold list_surveys. after_query; finish_classify.
  - unfold list_questions. after_query; finish_classify.
  - unfold delete_survey. after_query; finish_classify.
  - unfold export_responses. after_query; finish_classify.
  - unfold delete_question. after_query; finish_classify.
  - unfold activate_survey. after_query; finish_classify.
  - unfold activate_tokens. after_query; finish_classify.
  - unfold list_groups. after_query; finish_classify.
  - unfold add_group. after_query; finish_classify.
  - unfold get_survey_properties. after_query; finish_classify.
  - unfold set_survey_properties. after_query; finish_classify.
  - unfold add_response. after_query; finish_classify.
Qed.

End Classification.

End SurveyFacts.

Module Claims_status.

Import Survey SurveyFacts Runtime.

(** The part of C1 that holds: a status that the loop over the list of
    messages meets is raised as [LimeSurveyError] with the method name of
    the operation and that status. *)
Lemma listed_status_raises py api w c response s errors :
  reply w (invoke py api c) = Some response ->
  status_of response = Some (PStr s) ->
  error_messages c = Some errors ->
  In s errors ->
  outcome w (invoke py api c) = Err (LimeSurveyError (method_of c) (PStr s)).
Proof.
  intros Hreply Hstatus Herrors Hin.
  rewrite (classify_status py api w c response (PStr s) Hreply Hstatus).
  unfold classify. rewrite Herrors.
  apply listed_In in Hin as Hlisted. rewrite Hlisted.
  destruct (empty_result c) as [sentinel|] eqn:Hempty; [|reflexivity].
  destruct (eq_str (PStr s) sentinel) eqn:Heq; [|reflexivity].
  exfalso. simpl in Heq. apply str_eqb_eq in Heq. subst sentinel.
  destruct c; try discriminate; injection Hempty as <-;
    injection Herrors as <-; vm_compute in Hlisted; discriminate.
Qed.

(** C1, at the reply [{"status": "No permission"}] to [list_groups]: the
    source lists "No permission" among the error messages of [list_groups],
    but no comma follows the literal, so the list element is
    "No permissionInvalid S ession key"; the loop meets no message and the
    reply itself comes back as the list of groups. *)
Theorem list_groups_no_permission_returned api survey_id :
  let response := status_reply "No permission" in
  outcome (answering response) (list_groups api survey_id) = Ok response
  /\ list_groups_errors
     = [u "Error: Invalid survey ID"; u "No permissionInvalid S ession key"].
Proof. split; reflexivity. Qed.

(** C2 fails at the reply [{"status": "Session expired"}] to
    [list_surveys]: the status is neither "No surveys found" nor in the
    list of messages, and the operation returns the mapping; no assertion is
    evaluated. *)
Lemma list_surveys_unknown_status_returned :
  let response := status_reply "Session expired" in
  let p := list_surveys api PNone in
  reply (answering response) p = Some response
  /\ status_of response = Some (PStr (u "Session expired"))
  /\ eq_str (PStr (u "Session expired")) (u "No surveys found") = false
  /\ listed (PStr (u "Session expired")) list_surveys_errors = false
  /\ outcome (answering response) p = Ok response
  /\ outcome (answering response) p <> Err AssertionError.
Proof. repeat split; try reflexivity. discriminate. Qed.

(** C2 as the code has it: a reply that carries a status which is neither
    the status of the empty result nor in the list of messages is returned
    unchanged by every operation that keeps such a list;
    [export_responses], which keeps none, raises [LimeSurveyError] with
    that status. *)
Theorem unlisted_status_outcome py api w c response status :
  reply w (invoke py api c) = Some response ->
  status_of response = Some status ->
  (forall sentinel,
      empty_result c = Some sentinel -> eq_str status sentinel = false) ->
  (forall errors,
      error_messages c = Some errors -> listed status errors = false) ->
  outcome w (invoke py api c) =
  match error_messages c with
  | Some _ => Ok response
  | None => Err (LimeSurveyError (method_of c) status)
  end.
Proof.
  intros Hreply Hstatus Hempty Herrors.
  rewrite (classify_status py api w c response status Hreply Hstatus).
  unfold classify.
  destruct (error_messages c) as [errors|] eqn:He.
  - rewrite (Herrors errors eq_refl).
    destruct (empty_result c) as [sentinel|]; [|reflexivity].
    now rewrite (Hempty sentinel eq_refl).
  - destruct (empty_result c) as [sentinel|]; [|reflexivity].
    now rewrite (Hempty sentinel eq_refl).
Qed.

Lemma unlisted_status_outcome_witness :
  let response := status_reply "Session expired" in
  let c := Call_get_survey_properties (PInt 7) PNone in
  reply (answering response) (invoke python api c) = Some response
  /\ outcome (answering response) (invoke python api c) = Ok response.
Proof.
  split; [reflexivity|].
  apply (unlisted_status_outcome python api
           (answering (status_reply "Session expired"))
           (Call_get_survey_properties (PInt 7) PNone)
           (status_reply "Session expired") (PStr (u "Session expired")));
    try reflexivity.
  - intros sentinel H. discriminate H.
  - intros errors H. injection H as <-. reflexivity.
Defined.

(** C3: [list_surveys], [list_questions] and [list_groups] always make
    their transport call, and when the reply to that call carries the
    status of the empty result of the operation ("No surveys found",
    "No questions found", "No groups found") the operation returns the
    empty list and raises nothing. *)
Theorem empty_result_returns_empty_list py api w c sentinel :
  empty_result c = Some sentinel ->
  exists ps,
    calls w (invoke py api c) = [(method_of c, ps)]
    /\ (status_of (transport w (method_of c) ps) = Some (PStr sentinel) ->
        outcome w (invoke py api c) = Ok (PList [])).
Proof.
  intros Hempty. unfold calls, outcome.
  destruct c; try discriminate Hempty; injection Hempty as <-;
    cbn [invoke method_of];
    unfold list_surveys, list_questions, list_groups; cbn [bind run];
    eexists;
    (split;
     [ destruct (status_of (transport w _ _)) as [st|];
       [ destruct (eq_str st _) |];
       try rewrite (run_listed_branch w); try rewrite (run_assert_branch w);
       reflexivity
     | intros Hstatus; rewrite Hstatus; cbn [eq_str];
       rewrite str_eqb_refl; reflexivity ]).
Qed.

Lemma empty_result_returns_empty_list_witness :
  let w := answering (status_reply "No questions found") in
  let c := Call_list_questions (PInt 7) PNone PNone in
  empty_result c = Some (u "No questions found")
  /\ exists ps,
      calls w (invoke python api c) = [(u "list_questions", ps)]
      /\ status_of (transport w (u "list_questions") ps)
         = Some (PStr (u "No questions found"))
      /\ outcome w (invoke python api c) = Ok (PList []).
Proof.
  cbv zeta. split; [reflexivity|].
  destruct (empty_result_returns_empty_list python api
              (answering (status_reply "No questions found"))
              (Call_list_questions (PInt 7) PNone PNone)
              (u "No questions found") eq_refl) as [ps [Hcalls Hout]].
  exists ps. split; [exact Hcalls|]. split; [reflexivity|].
  apply Hout. reflexivity.
Defined.

(** The three operations with an empty result, each with its status. *)
Lemma empty_result_operations c sentinel :
  empty_result c = Some sentinel <->
  (exists a, c = Call_list_surveys a /\ sentinel = u "No surveys found")
  \/ (exists a b d,
         c = Call_list_questions a b d /\ sentinel = u "No questions found")
  \/ (exists a, c = Call_list_groups a /\ sentinel = u "No groups found").
Proof.
  split.
  - destruct c; try discriminate; intros [= <-];
      [left|right; left|right; right]; repeat eexists.
  - intros [[a [-> ->]]|[[a [b [d [-> ->]]]]|[a [-> ->]]]]; reflexivity.
Qed.

End Claims_status.

(** ** The identifier generator *)

Module UtilsFacts.

Import Utils.

Lemma encode_loop_pos n encoded :
  0 < n ->
  encode_loop n encoded =
  encode_loop (n / _alphabet_length)
              (ALPHABET_at (n mod _alphabet_length) :: encoded).
Proof.
  intros Hn. rewrite encode_loop_equation_1.
  destruct (Z_lt_dec 0 n); [reflexivity|lia].
Qed.

Lemma encode_loop_nonpos n encoded : n <= 0 -> encode_loop n encoded = encoded.
Proof.
  intros Hn. rewrite encode_loop_equation_1.
  destruct (Z_lt_dec 0 n); [lia|reflexivity].
Qed.

Lemma digits_ok : forallb digit_ok (seq 0 36) = true.
Proof. vm_compute. reflexivity. Qed.

Lemma ALPHABET_at_spec r :
  0 <= r < 36 ->
  In (ALPHABET_at r) ALPHABET /\ (1 <= r -> ALPHABET_at r <> ALPHABET_at 0).
Proof.
  intros Hr.
  pose proof (proj1 (forallb_forall digit_ok (seq 0 36)) digits_ok
                (Z.to_nat r)) as H.
  assert (Hin : In (Z.to_nat r) (seq 0 36)) by (apply in_seq; lia).
  specialize (H Hin). unfold digit_ok in H. rewrite Z2Nat.id in H by lia.
  apply andb_true_iff in H as [Hmem Hfirst]. split.
  - apply existsb_exists in Hmem as [x [Hx Heq]].
    apply Z.eqb_eq in Heq. now subst.
  - intros H1. apply orb_true_iff in Hfirst as [H0|Hne].
    + apply Nat.eqb_eq in H0. lia.
    + apply negb_true_iff, Z.eqb_neq in Hne. exact Hne.
Qed.

(** An integer with k + 1 digits in base 36 is written with k + 1
    characters, put in front of what has been written before. *)
Lemma encode_loop_digits (k : nat) :
  forall n encoded,
    36 ^ Z.of_nat k <= n < 36 ^ (Z.of_nat k + 1) ->
    exists c rest,
      encode_loop n encoded = c :: rest ++ encoded
      /\ List.length rest = k
      /\ c <> ALPHABET_at 0
      /\ Forall (fun x => In x ALPHABET) (c :: rest).
Proof.
  induction k as [|k IH]; intros n encoded Hn.
  - change (36 ^ Z.of_nat 0) with 1 in Hn.
    change (36 ^ (Z.of_nat 0 + 1)) with 36 in Hn.
    rewrite encode_loop_pos by lia. change _alphabet_length with 36.
    rewrite Z.div_small, Z.mod_small by lia.
    rewrite encode_loop_nonpos by lia.
    destruct (ALPHABET_at_spec n ltac:(lia)) as [Hin Hne].
    exists (ALPHABET_at n), []. repeat split; auto.
    apply Hne; lia.
  - rewrite Nat2Z.inj_succ in Hn.
    replace (Z.succ (Z.of_nat k) + 1) with (Z.succ (Z.of_nat k + 1)) in Hn
      by lia.
    rewrite !Z.pow_succ_r in Hn by lia.
    assert (Hpos : 0 < 36 ^ Z.of_nat k) by (apply Z.pow_pos_nonneg; lia).
    rewrite encode_loop_pos by lia. change _alphabet_length with 36.
    assert (Hq : 36 ^ Z.of_nat k <= n / 36 < 36 ^ (Z.of_nat k + 1)).
    { split.
      - apply Z.div_le_lower_bound; lia.
      - apply Z.div_lt_upper_bound; lia. }
    destruct (IH (n / 36) (ALPHABET_at (n mod 36) :: encoded) Hq)
      as [c [rest [Heq [Hlen [Hne Hall]]]]].
    destruct (ALPHABET_at_spec (n mod 36)) as [Hin _].
    { apply Z.mod_pos_bound; lia. }
    exists c, (rest ++ [ALPHABET_at (n mod 36)]). repeat split.
    + rewrite Heq, <- app_assoc. reflexivity.
    + rewrite length_app, Hlen. simpl. lia.
    + exact Hne.
    + inversion Hall as [|? ? Hc Hrest]; subst. constructor; [exact Hc|].
      apply Forall_app. split; [exact Hrest|]. now constructor.
Qed.

(** What [_encode_int] writes for an integer of the range of the draw. *)
Lemma encode_int_wellformed (L n : Z) :
  1 <= L ->
  36 ^ (L - 1) <= n <= 36 ^ L - 1 ->
  len (_encode_int n) = L
  /\ Forall (fun c => In c ALPHABET) (_encode_int n)
  /\ startswith (u "a") (_encode_int n) = false.
Proof.
  intros HL Hn.
  destruct (encode_loop_digits (Z.to_nat (L - 1)) n []) as
    [c [rest [Heq [Hlen [Hne Hall]]]]].
  { rewrite Z2Nat.id by lia. replace (L - 1 + 1) with L by lia. lia. }
  unfold _encode_int. rewrite Heq, app_nil_r. split; [|split].
  - unfold len. simpl. lia.
  - exact Hall.
  - change (startswith (u "a") (c :: rest)) with ((97 =? c) && true).
    rewrite andb_true_r. apply Z.eqb_neq. intros <-. apply Hne. reflexivity.
Qed.

Lemma draw_range_nonempty (L : Z) : 1 <= L -> 36 ^ (L - 1) <= 36 ^ L - 1.
Proof.
  intros HL. replace L with (Z.succ (L - 1)) at 2 by lia.
  rewrite Z.pow_succ_r by lia.
  assert (0 < 36 ^ (L - 1)) by (apply Z.pow_pos_nonneg; lia). lia.
Qed.

(** C5: for a length L >= 1 and a draw within [36^(L-1), 36^L - 1],
    [generate_id] returns a text of exactly L characters, each of them in
    the alphabet of the 26 lowercase letters and the 10 digits, and the
    first one is not the letter [a]; no transport call is made. *)
Theorem generate_id_wellformed (w : world) (self : IDGenerator) :
  1 <= _id_length self ->
  randint_spec w ->
  exists s,
    run w (generate_id self) = (Ok s, [])
    /\ len s = _id_length self
    /\ Forall (fun c => In c ALPHABET) s
    /\ startswith (u "a") s = false
    /\ ALPHABET = u "abcdefghijklmnopqrstuvwxyz0123456789".
Proof.
  intros HL Hrand. set (L := _id_length self) in *.
  pose proof (draw_range_nonempty L HL) as Hpow.
  pose proof (Hrand (36 ^ (L - 1)) (36 ^ L - 1) Hpow) as Hn.
  set (n := randint w (36 ^ (L - 1)) (36 ^ L - 1)) in *.
  destruct (encode_int_wellformed L n HL Hn) as [Hlen [Hall Hfirst]].
  exists (_encode_int n). split; [|split; [|split; [|split]]]; auto.
  unfold generate_id. fold L. change _alphabet_length with 36.
  cbn [bind run]. fold n.
  destruct (36 ^ L - 1 <? 36 ^ (L - 1)) eqn:E; [|reflexivity].
  apply Z.ltb_lt in E. lia.
Qed.

Lemma generate_id_wellformed_witness :
  exists s,
    run (Runtime.answering PNone) (generate_id {| _id_length := 3 |})
    = (Ok s, [])
    /\ len s = 3
    /\ Forall (fun c => In c ALPHABET) s
    /\ startswith (u "a") s = false
    /\ ALPHABET = u "abcdefghijklmnopqrstuvwxyz0123456789".
Proof.
  apply (generate_id_wellformed (Runtime.answering PNone)
           {| _id_length := 3 |}).
  - simpl. lia.
  - intros lo hi H. simpl. lia.
Defined.

Example generate_id_lowest_draw :
  outcome (Runtime.answering PNone) (generate_id {| _id_length := 3 |})
  = Ok (u "baa").
Proof. reflexivity. Qed.

Example encode_int_range :
  _encode_int (36 ^ 18) = u "baaaaaaaaaaaaaaaaaa" /\
  _encode_int (36 ^ 19 - 1) = u "9999999999999999999".
Proof. split; vm_compute; reflexivity. Qed.

End UtilsFacts.

(** ** Building the requests: [add_question], [add_survey],
       [export_responses] *)

Module RequestFacts.

Import Survey SurveyFacts Runtime.

Section Requests.

Context (py : Python) (api : Api) (w : world).

(** *** add_survey *)

Lemma add_survey_calls title survey_id language format_ :
  calls w (add_survey py api title survey_id language format_) =
  match (if truthy survey_id then py_int py survey_id else Ok 1) with
  | Ok n => [(u "add_survey", add_survey_params api title n language format_)]
  | Err _ => []
  end.
Proof.
  unfold calls, add_survey.
  destruct (truthy survey_id).
  - rewrite run_bind_lift. destruct (py_int py survey_id) as [n|e];
      [|reflexivity].
    cbn [bind run]. destruct (status_of _);
      [rewrite run_listed_branch|rewrite run_assert_branch]; reflexivity.
  - cbn [bind run]. destruct (status_of _);
      [rewrite run_listed_branch|rewrite run_assert_branch]; reflexivity.
Qed.

(** *** add_question *)

Lemma resolve_question_type_name (name : str) :
  name <> [] ->
  resolve_question_type py (PStr name) =
  match dict_get __members__ (upper py name) with
  | Some member => Ok (value member)
  | None => Err (ValueError (u "invalid question type"))
  end.
Proof.
  intros Hname. unfold resolve_question_type, getattr_QUESTION_TYPE, dict_in.
  assert (Htruthy : truthy (PStr name) = true).
  { destruct name; [contradiction|]. unfold truthy, len.
    apply negb_true_iff, Z.eqb_neq. simpl List.length. lia. }
  rewrite Htruthy. cbn [negb].
  destruct (dict_get __members__ (upper py name)); reflexivity.
Qed.


(** The transport calls of [add_question]: one, with the rendered document,
    once the type is resolved, both identifiers are integers and the
    document can be encoded; none otherwise. *)
Lemma add_question_calls
  survey_id group_id question question_help question_type mandatory :
  calls w (add_question py api survey_id group_id question question_help
             question_type mandatory) =
  match resolve_question_type py question_type with
  | Err _ => []
  | Ok code =>
      match py_int py survey_id with
      | Err _ => []
      | Ok sid =>
          match py_int py group_id with
          | Err _ => []
          | Ok gid =>
              match
                render_lsq py
                  (question_fields sid gid (u "q" ++ generated w) question
                     question_help code
                     (if truthy mandatory then mandatory else PStr (u "N")))
              with
              | Err _ => []
              | Ok lsq_str =>
                  [(u "import_question",
                    add_question_params api survey_id group_id lsq_str)]
              end
          end
      end
  end.
Proof.
  unfold calls, add_question.
  rewrite run_bind_lift.
  destruct (resolve_question_type py question_type) as [code|e];
    [|reflexivity].
  rewrite run_bind_lift. destruct (py_int py survey_id) as [sid|e];
    [|reflexivity].
  rewrite run_bind_lift. destruct (py_int py group_id) as [gid|e];
    [|reflexivity].
  rewrite run_bind_generate_id, id_generator_range.
  change (Utils._encode_int _) with (generated w).
  rewrite run_bind_lift.
  destruct (render_lsq py _) as [lsq_str|e]; [|reflexivity].
  cbn [bind run]. destruct (status_of _);
    [rewrite run_listed_branch|rewrite run_assert_branch]; reflexivity.
Qed.

Lemma add_question_unresolved
  survey_id group_id question question_help question_type mandatory e :
  resolve_question_type py question_type = Err e ->
  run w (add_question py api survey_id group_id question question_help
           question_type mandatory) = (Err e, []).
Proof.
  intros H. unfold add_question. rewrite run_bind_lift, H. reflexivity.
Qed.

(** The document of [add_question], field by field. *)
Lemma question_fields_eq sid gid title question question_help code mandatory :
  question_fields sid gid title question question_help code mandatory =
  [(u "qid", PNone); (u "parent_qid", PInt 0); (u "sid", PInt sid);
   (u "gid", PInt gid); (u "type", PStr code); (u "title", PStr title);
   (u "question", question); (u "preg", PNone); (u "help", question_help);
   (u "other", PNone); (u "mandatory", mandatory);
   (u "question_order", PNone); (u "language", PStr (u "en"));
   (u "scale_id", PNone); (u "same_default", PNone); (u "relevance", PNone);
   (u "modulename", PNone)].
Proof. reflexivity. Qed.

End Requests.

(** C6 fails at the empty name: its uppercased form, the empty text, names
    no member, yet [add_question] raises nothing; it takes the default type
    and issues the transport call. *)
Lemma add_question_empty_name_accepted :
  let p := add_question python api (PInt 5) (PInt 2) (PStr (u "Age?")) PNone
             (PStr (u "")) PNone in
  dict_get __members__ (upper python (u "")) = None
  /\ outcome (answering (PInt 11)) p = Ok (PInt 11)
  /\ List.length (calls (answering (PInt 11)) p) = 1%nat
  /\ resolve_question_type python (PStr (u "")) = Ok (u "S").
Proof. repeat split; vm_compute; reflexivity. Qed.

(** C6 as the code has it, for every name that is not empty.  When the
    uppercased name is the name of a member, the document of the transport
    call, if one is issued, carries the code of that member as its type;
    when it is not, [ValueError] is raised and no transport call is issued. *)
Theorem question_type_resolution py api w
  survey_id group_id question question_help name mandatory :
  name <> [] ->
  let p := add_question py api survey_id group_id question question_help
             (PStr name) mandatory in
  match dict_get __members__ (upper py name) with
  | Some member =>
      resolve_question_type py (PStr name) = Ok (value member)
      /\ forall m ps,
          calls w p = [(m, ps)] ->
          exists fields lsq_str,
            dict_get ps (u "sImportData") = Some (PStr lsq_str)
            /\ render_lsq py fields = Ok lsq_str
            /\ dict_get fields (u "type") = Some (PStr (value member))
  | None => run w p = (Err (ValueError (u "invalid question type")), [])
  end.
Proof.
  intros Hname p. subst p.
  pose proof (resolve_question_type_name py name Hname) as Hres.
  destruct (dict_get __members__ (upper py name)) as [member|].
  - split; [exact Hres|]. intros m ps.
    rewrite add_question_calls, Hres.
    destruct (py_int py survey_id) as [sid|]; [|discriminate].
    destruct (py_int py group_id) as [gid|]; [|discriminate].
    destruct (render_lsq py _) as [lsq_str|] eqn:Hlsq; [|discriminate].
    intros [= <- <-]. eexists; exists lsq_str.
    split; [reflexivity|]. split; [exact Hlsq|].
    rewrite question_fields_eq. reflexivity.
  - now apply add_question_unresolved.
Qed.

Lemma question_type_resolution_witness :
  u "List_Radio" <> []
  /\ dict_get __members__ (upper python (u "List_Radio")) = Some LIST_RADIO
  /\ resolve_question_type python (PStr (u "List_Radio")) = Ok (u "L").
Proof.
  split; [discriminate|]. split; [reflexivity|].
  pose proof (question_type_resolution python api (answering (PInt 11))
                (PInt 5) (PInt 2) (PStr (u "Age?")) PNone (u "List_Radio")
                PNone ltac:(discriminate)) as H.
  cbv zeta in H.
  change (dict_get __members__ (upper python (u "List_Radio")))
    with (Some LIST_RADIO) in H.
  exact (proj1 H).
Defined.

Example question_type_any_case :
  resolve_question_type python (PStr (u "list_radio")) = Ok (u "L")
  /\ resolve_question_type python (PStr (u "LIST_RADIO")) = Ok (u "L")
  /\ resolve_question_type python (PStr (u "LiSt_rAdIo")) = Ok (u "L")
  /\ resolve_question_type python (PStr (u "radio"))
     = Err (ValueError (u "invalid question type")).
Proof. repeat split; reflexivity. Qed.

(** C10: the [iSurveyID] that [add_survey] sends is 1 when [survey_id] is
    None, 0 or any other false value, and [int(survey_id)] when it is true;
    when [int] fails the error is raised and nothing is sent. *)
Theorem add_survey_iSurveyID py api w title survey_id language format_ :
  let p := add_survey py api title survey_id language format_ in
  let sends n :=
    exists ps,
      calls w p = [(u "add_survey", ps)]
      /\ dict_get ps (u "iSurveyID") = Some (PInt n) in
  if truthy survey_id then
    match py_int py survey_id with
    | Ok n => sends n
    | Err e => run w p = (Err e, [])
    end
  else sends 1.
Proof.
  cbv zeta. rewrite add_survey_calls.
  destruct (truthy survey_id) eqn:Ht.
  - destruct (py_int py survey_id) as [n|e] eqn:Hint.
    + eexists. split; reflexivity.
    + unfold add_survey. rewrite Ht, run_bind_lift, Hint. reflexivity.
  - eexists. split; reflexivity.
Qed.

Example add_survey_iSurveyID_examples :
  let sent survey_id :=
    match calls (answering (PInt 3))
            (add_survey python api (PStr (u "t")) survey_id PNone PNone) with
    | [(_, ps)] => dict_get ps (u "iSurveyID")
    | _ => None
    end in
  sent PNone = Some (PInt 1)
  /\ sent (PInt 0) = Some (PInt 1)
  /\ sent (PStr (u "")) = Some (PInt 1)
  /\ sent (PInt 7) = Some (PInt 7)
  /\ sent (PStr (u "12")) = Some (PInt 12)
  /\ sent (PBool true) = Some (PInt 1)
  /\ sent (PStr (u "x")) = None.
Proof. repeat split; reflexivity. Qed.

(** The definition of [export_responses] that the class body overwrites
    returns the text of the reply as it is. *)
Example export_responses_1_returns_reply :
  outcome (answering (PStr (u "W10=")))
    (export_responses_1 api (PInt 7) (PStr (u "json")) PNone
       (PStr (u "all")) (PStr (u "code")) (PStr (u "short")) PNone PNone
       PNone)
  = Ok (PStr (u "W10=")).
Proof. reflexivity. Qed.

End RequestFacts.

(** ** The question document *)

Module DocumentFacts.

Import Survey Runtime.

Section Rendering.

Context (py : Python).

Lemma concat_fold_left_append {A} (f : A -> str) (xs : list A)
  (l : list str) :
  List.concat (fold_left (fun l x => l ++ [f x]) xs l) =
  List.concat l ++ List.concat (map f xs).
Proof.
  revert l. induction xs as [|x xs IH]; intros l; simpl.
  - now rewrite app_nil_r.
  - rewrite IH, concat_app. cbn [List.concat map].
    now rewrite app_nil_r, <- app_assoc.
Qed.

Lemma render_lsq_fieldnames_eq (fieldnames : list str) :
  render_lsq_fieldnames fieldnames =
  u "<fields>" ++ List.concat (map spec_fieldname_entry fieldnames)
    ++ u "</fields>".
Proof.
  unfold render_lsq_fieldnames. rewrite concat_app.
  rewrite (concat_fold_left_append spec_fieldname_entry).
  cbn [List.concat]. now rewrite !app_nil_r, <- app_assoc.
Qed.

Lemma render_lsq_rows_eq (fieldvalues : odict) :
  render_lsq_rows py fieldvalues =
  u "<rows><row>" ++ List.concat (map (spec_row_element py) fieldvalues)
    ++ u "</row></rows>".
Proof.
  unfold render_lsq_rows.
  match goal with
  | |- context [fold_left ?f fieldvalues ?init] =>
      assert (Hfold : forall l0,
                 fold_left f fieldvalues l0 =
                 fold_left (fun acc x => acc ++ [spec_row_element py x])
                   fieldvalues l0)
  end.
  { induction fieldvalues as [|[fieldname value] rest IH]; intros l0;
      [reflexivity|].
    cbn [fold_left]. rewrite <- IH. f_equal.
    unfold spec_row_element. destruct value; reflexivity. }
  rewrite Hfold, concat_app, (concat_fold_left_append (spec_row_element py)).
  cbn [List.concat]. now rewrite !app_nil_r, <- app_assoc.
Qed.

(** C8: [render_lsq_fieldnames] writes one [<fieldname>] entry per field
    and [render_lsq_rows] one element per field, [<name/>] for the value
    None and [<name><![CDATA[value]]></name>] for any other value, in the
    order of the mapping; a text value and the names are copied with no
    escaping. *)
Theorem render_lsq_blocks (fields : odict) :
  render_lsq_fieldnames (keys fields) = spec_fields_block fields
  /\ render_lsq_rows py fields = spec_rows_block py fields
  /\ lsq_document py fields =
     question_template (spec_fields_block fields) (spec_rows_block py fields)
  /\ (forall name,
        spec_row_element py (name, PNone) = u "<" ++ name ++ u "/>")
  /\ (forall name text,
        spec_row_element py (name, PStr text) =
        u "<" ++ name ++ u "><![CDATA[" ++ text ++ u "]]></" ++ name ++ u ">").
Proof.
  pose proof (render_lsq_fieldnames_eq (keys fields)) as Hf.
  pose proof (render_lsq_rows_eq fields) as Hr.
  unfold lsq_document, spec_fields_block, spec_rows_block.
  rewrite Hf, Hr. repeat split; reflexivity.
Qed.

End Rendering.

(** The example of the specification, and a value that XML would escape. *)
Example render_lsq_rows_example :
  let fields := [(u "qid", PNone); (u "title", PStr (u "abc"))] in
  render_lsq_fieldnames (keys fields)
  = u "<fields><fieldname>qid</fieldname><fieldname>title</fieldname></fields>"
  /\ render_lsq_rows python fields
     = u "<rows><row><qid/><title><![CDATA[abc]]></title></row></rows>"
  /\ render_lsq_rows python [(u "a&b", PStr (u "x<y>&z]]>"))]
     = u "<rows><row><a&b><![CDATA[x<y>&z]]>]]></a&b></row></rows>".
Proof. repeat split; reflexivity. Qed.

End DocumentFacts.

(** ** Base64 and UTF-8 *)

Module CodecFacts.

Import Codec.

Ltac zdm := unfold codepoint in *; Z.div_mod_to_equations; lia.

Lemma list_ind3 {A} (P : list A -> Prop) :
  P [] ->
  (forall a, P [a]) ->
  (forall a b, P [a; b]) ->
  (forall a b c l, P l -> P (a :: b :: c :: l)) ->
  forall l, P l.
Proof.
  intros H0 H1 H2 H3. fix IH 1.
  intros [|a [|b [|c l]]]; [exact H0|apply H1|apply H2|apply H3, IH].
Qed.

(** *** The two tables *)

Lemma sextets_ok : forallb sextet_ok (seq 0 64) = true.
Proof. vm_compute. reflexivity. Qed.

Lemma a2b_b2a x :
  0 <= x < 64 -> a2b (b2a x) = Some x /\ (b2a x =? BASE64_PAD) = false.
Proof.
  intros Hx.
  pose proof (proj1 (forallb_forall sextet_ok (seq 0 64)) sextets_ok
                (Z.to_nat x)) as H.
  assert (Hin : In (Z.to_nat x) (seq 0 64)) by (apply in_seq; lia).
  specialize (H Hin). unfold sextet_ok in H. rewrite Z2Nat.id in H by lia.
  destruct (a2b (b2a x)) as [v|]; [|discriminate].
  apply andb_true_iff in H as [Hv Hp].
  apply Z.eqb_eq in Hv. apply negb_true_iff in Hp. now subst.
Qed.

Lemma table_ascii :
  forallb (fun c => (0 <=? c) && (c <? 128)) table_b2a_base64 = true.
Proof. vm_compute. reflexivity. Qed.

Lemma b2a_ascii x : ascii_octet (b2a x).
Proof.
  unfold b2a, ascii_octet.
  destruct (nth_in_or_default (Z.to_nat x) table_b2a_base64 0) as [Hin| ->];
    [|lia].
  pose proof (proj1 (forallb_forall _ _) table_ascii _ Hin) as H.
  apply andb_true_iff in H as [H1 H2].
  apply Z.leb_le in H1. apply Z.ltb_lt in H2. lia.
Qed.

(** *** One step of the decoder *)

Section Steps.

Context (x : Z) (Hx : 0 <= x < 64) (rest out : bytes) (leftchar pads : Z).

Lemma a2b_loop_sextet_0 :
  a2b_loop (b2a x :: rest) 0 leftchar pads out = a2b_loop rest 1 x 0 out.
Proof.
  cbn [a2b_loop]. destruct (a2b_b2a x Hx) as [-> ->]. reflexivity.
Qed.

Lemma a2b_loop_sextet_1 :
  a2b_loop (b2a x :: rest) 1 leftchar pads out =
  a2b_loop rest 2 (x mod 16) 0 ((leftchar * 4 + x / 16) :: out).
Proof.
  cbn [a2b_loop]. destruct (a2b_b2a x Hx) as [-> ->]. reflexivity.
Qed.

Lemma a2b_loop_sextet_2 :
  a2b_loop (b2a x :: rest) 2 leftchar pads out =
  a2b_loop rest 3 (x mod 4) 0 ((leftchar * 16 + x / 4) :: out).
Proof.
  cbn [a2b_loop]. destruct (a2b_b2a x Hx) as [-> ->]. reflexivity.
Qed.

Lemma a2b_loop_sextet_3 :
  a2b_loop (b2a x :: rest) 3 leftchar pads out =
  a2b_loop rest 0 0 0 ((leftchar * 64 + x) :: out).
Proof.
  cbn [a2b_loop]. destruct (a2b_b2a x Hx) as [-> ->]. reflexivity.
Qed.

End Steps.

Lemma a2b_loop_pad_pad rest leftchar out :
  a2b_loop (BASE64_PAD :: BASE64_PAD :: rest) 2 leftchar 0 out = Ok (rev out).
Proof. reflexivity. Qed.

Lemma a2b_loop_pad rest leftchar out :
  a2b_loop (BASE64_PAD :: rest) 3 leftchar 0 out = Ok (rev out).
Proof. reflexivity. Qed.

Lemma a2b_loop_newline rest quad_pos leftchar pads out :
  a2b_loop (10 :: rest) quad_pos leftchar pads out =
  a2b_loop rest quad_pos leftchar pads out.
Proof. reflexivity. Qed.

(** *** Groups of three octets *)

Lemma a2b_loop_group a b c rest out :
  octet a -> octet b -> octet c ->
  a2b_loop (b2a (a / 4) :: b2a (a mod 4 * 16 + b / 16)
              :: b2a (b mod 16 * 4 + c / 64) :: b2a (c mod 64) :: rest)
    0 0 0 out =
  a2b_loop rest 0 0 0 (c :: b :: a :: out).
Proof.
  unfold octet. intros Ha Hb Hc.
  rewrite a2b_loop_sextet_0 by zdm.
  rewrite a2b_loop_sextet_1 by zdm.
  rewrite a2b_loop_sextet_2 by zdm.
  rewrite a2b_loop_sextet_3 by zdm.
  replace (a / 4 * 4 + (a mod 4 * 16 + b / 16) / 16) with a by zdm.
  replace ((a mod 4 * 16 + b / 16) mod 16 * 16 + (b mod 16 * 4 + c / 64) / 4)
    with b by zdm.
  replace ((b mod 16 * 4 + c / 64) mod 4 * 64 + c mod 64) with c by zdm.
  reflexivity.
Qed.

Lemma a2b_loop_group_1 a rest out :
  octet a ->
  a2b_loop (b2a (a / 4) :: b2a (a mod 4 * 16) :: BASE64_PAD :: BASE64_PAD
              :: rest) 0 0 0 out =
  Ok (rev (a :: out)).
Proof.
  unfold octet. intros Ha.
  rewrite a2b_loop_sextet_0 by zdm.
  rewrite a2b_loop_sextet_1 by zdm.
  rewrite a2b_loop_pad_pad.
  replace (a / 4 * 4 + a mod 4 * 16 / 16) with a by zdm.
  reflexivity.
Qed.

Lemma a2b_loop_group_2 a b rest out :
  octet a -> octet b ->
  a2b_loop (b2a (a / 4) :: b2a (a mod 4 * 16 + b / 16) :: b2a (b mod 16 * 4)
              :: BASE64_PAD :: rest) 0 0 0 out =
  Ok (rev (b :: a :: out)).
Proof.
  unfold octet. intros Ha Hb.
  rewrite a2b_loop_sextet_0 by zdm.
  rewrite a2b_loop_sextet_1 by zdm.
  rewrite a2b_loop_sextet_2 by zdm.
  rewrite a2b_loop_pad.
  replace (a / 4 * 4 + (a mod 4 * 16 + b / 16) / 16) with a by zdm.
  replace ((a mod 4 * 16 + b / 16) mod 16 * 16 + b mod 16 * 4 / 4)
    with b by zdm.
  reflexivity.
Qed.

(** The decoder on what [b2a_groups] wrote: it gives the octets back, and
    after a padded group it looks at nothing more. *)
Lemma a2b_loop_groups data :
  Forall octet data ->
  forall tail out,
    a2b_loop (b2a_groups data ++ tail) 0 0 0 out =
    if whole_groups data then a2b_loop tail 0 0 0 (rev data ++ out)
    else Ok (rev out ++ data).
Proof.
  induction data as [|a|a b|a b c data IH] using list_ind3;
    intros Hall tail out.
  - reflexivity.
  - inversion_clear Hall as [|? ? Ha _].
    cbn [b2a_groups app whole_groups].
    rewrite a2b_loop_group_1 by assumption. reflexivity.
  - inversion_clear Hall as [|? ? Ha Hall']. inversion_clear Hall' as [|? ? Hb _].
    cbn [b2a_groups app whole_groups].
    rewrite a2b_loop_group_2 by assumption.
    cbn [rev]. now rewrite <- !app_assoc.
  - inversion_clear Hall as [|? ? Ha Hall']. inversion_clear Hall' as [|? ? Hb Hall].
    inversion_clear Hall as [|? ? Hc Hall'].
    cbn [b2a_groups app whole_groups].
    rewrite a2b_loop_group by assumption.
    rewrite IH by assumption.
    destruct (whole_groups data); cbn [rev]; now rewrite <- !app_assoc.
Qed.

Lemma whole_groups_length (data : bytes) (k : nat) :
  List.length data = (3 * k)%nat -> whole_groups data = true.
Proof.
  revert k. induction data as [|a|a b|a b c data IH] using list_ind3;
    intros k H; cbn [List.length] in H.
  - reflexivity.
  - lia.
  - lia.
  - cbn [whole_groups]. apply (IH (k - 1)%nat). lia.
Qed.

Lemma whole_groups_MAXBINSIZE (data : bytes) :
  List.length data = MAXBINSIZE -> whole_groups data = true.
Proof. intros H. apply (whole_groups_length data 19). exact H. Qed.

(** *** Round trip through [encodestring] and [decodestring] *)

(** The first line of [encodestring] and the lines after it. *)
Lemma encodestring_lines (s : bytes) :
  s <> [] ->
  encodestring s =
  b2a_groups (firstn MAXBINSIZE s)
    ++ 10 :: encodestring (skipn MAXBINSIZE s).
Proof.
  destruct s as [|x xs]; [contradiction|]. intros _.
  rewrite encodestring_equation_2. unfold b2a_base64.
  symmetry. apply (app_assoc _ [10] _).
Qed.

Lemma skipn_MAXBINSIZE_shorter (s : bytes) :
  s <> [] -> (List.length (skipn MAXBINSIZE s) < List.length s)%nat.
Proof. destruct s; [contradiction|]. intros _. apply skipn_MAXBINSIZE_lt. Qed.

Lemma a2b_loop_encodestring (s : bytes) :
  Forall octet s ->
  forall out, a2b_loop (encodestring s) 0 0 0 out = Ok (rev out ++ s).
Proof.
  remember (List.length s) as n eqn:Hn. revert s Hn.
  induction n as [n IH] using lt_wf_ind. intros s Hn Hall out.
  destruct (list_eq_dec Z.eq_dec s []) as [->|Hne].
  - rewrite encodestring_equation_1. cbn [a2b_loop]. now rewrite app_nil_r.
  - rewrite (encodestring_lines s Hne).
    pose proof (skipn_MAXBINSIZE_shorter s Hne) as Hshorter.
    assert (Hparts : Forall octet (firstn MAXBINSIZE s)
                     /\ Forall octet (skipn MAXBINSIZE s))
      by (apply Forall_app; now rewrite firstn_skipn).
    destruct Hparts as [Hfirst Hskip].
    assert (IHtail : forall out',
               a2b_loop (encodestring (skipn MAXBINSIZE s)) 0 0 0 out' =
               Ok (rev out' ++ skipn MAXBINSIZE s)).
    { apply (IH (List.length (skipn MAXBINSIZE s))); auto.
      subst n. exact Hshorter. }
    clear IH. revert IHtail.
    generalize (encodestring (skipn MAXBINSIZE s)). intros tail IHtail.
    rewrite a2b_loop_groups by assumption.
    destruct (whole_groups (firstn MAXBINSIZE s)) eqn:Hwhole.
    + rewrite a2b_loop_newline, IHtail.
      rewrite rev_app_distr, rev_involutive, <- app_assoc.
      now rewrite firstn_skipn.
    + destruct (Nat.le_gt_cases MAXBINSIZE (List.length s)) as [Hlong|Hshort].
      * rewrite whole_groups_MAXBINSIZE in Hwhole; [discriminate|].
        rewrite length_firstn. lia.
      * rewrite firstn_all2 by lia. reflexivity.
Qed.

(** [decodestring(encodestring(s)) == s] *)
Lemma decodestring_encodestring (s : bytes) :
  Forall octet s -> decodestring (encodestring s) = Ok s.
Proof. intros H. unfold decodestring. now rewrite a2b_loop_encodestring. Qed.

Lemma b2a_groups_ascii (data : bytes) : Forall ascii_octet (b2a_groups data).
Proof.
  induction data as [|a|a b|a b c data IH] using list_ind3;
    cbn [b2a_groups]; repeat constructor;
    try apply b2a_ascii; try (unfold ascii_octet, BASE64_PAD; lia).
  exact IH.
Qed.

Lemma encodestring_ascii (s : bytes) : Forall ascii_octet (encodestring s).
Proof.
  remember (List.length s) as n eqn:Hn. revert s Hn.
  induction n as [n IH] using lt_wf_ind. intros s Hn.
  destruct (list_eq_dec Z.eq_dec s []) as [->|Hne].
  - rewrite encodestring_equation_1. constructor.
  - rewrite (encodestring_lines s Hne).
    pose proof (skipn_MAXBINSIZE_shorter s Hne) as Hshorter.
    apply Forall_app. split; [apply b2a_groups_ascii|].
    apply Forall_cons; [unfold ascii_octet; lia|].
    apply (IH (List.length (skipn MAXBINSIZE s))); [|reflexivity].
    subst n. exact Hshorter.
Qed.

End CodecFacts.

(** *** UTF-8 *)

Module Utf8Facts.

Import Codec CodecFacts.

Ltac decide_tests :=
  repeat (match goal with
          | |- context [Z.ltb ?a ?b] =>
              first [ rewrite (proj2 (Z.ltb_lt a b)) by zdm
                    | rewrite (proj2 (Z.ltb_ge a b)) by zdm ]
          | |- context [Z.leb ?a ?b] =>
              first [ rewrite (proj2 (Z.leb_le a b)) by zdm
                    | rewrite (proj2 (Z.leb_gt a b)) by zdm ]
          end; cbn [andb negb orb]).

(** The cases of [utf8_of_codepoint], each with the bounds it was chosen
    under. *)
Lemma utf8_of_codepoint_cases c b :
  utf8_of_codepoint c = Some b ->
  (0 <= c < 128 /\ b = [c])
  \/ (128 <= c < 2048 /\ b = [192 + c / 64; 128 + c mod 64])
  \/ (2048 <= c < 65536 /\ ~ 55296 <= c <= 57343
      /\ b = [224 + c / 4096; 128 + c / 64 mod 64; 128 + c mod 64])
  \/ (65536 <= c < 1114112
      /\ b = [240 + c / 262144; 128 + c / 4096 mod 64; 128 + c / 64 mod 64;
              128 + c mod 64]).
Proof.
  unfold utf8_of_codepoint.
  destruct (Z.ltb_spec c 0); [discriminate|].
  destruct (Z.ltb_spec c 128); [intros [= <-]; left; split; [lia|reflexivity]|].
  destruct (Z.ltb_spec c 2048);
    [intros [= <-]; right; left; split; [lia|reflexivity]|].
  destruct (Z.ltb_spec c 65536).
  - destruct (Z.leb_spec 55296 c); destruct (Z.leb_spec c 57343);
      cbn [andb]; try discriminate;
      intros [= <-]; right; right; left; repeat split; lia.
  - destruct (Z.ltb_spec c 1114112); [|discriminate].
    intros [= <-]. right; right; right. split; [lia|reflexivity].
Qed.

Lemma div_4096 c : c / 4096 = c / 64 / 64.
Proof. rewrite Z.div_div by lia. reflexivity. Qed.

Lemma div_262144 c : c / 262144 = c / 64 / 64 / 64.
Proof. rewrite !Z.div_div by lia. reflexivity. Qed.

Lemma utf8_of_codepoint_octets c b :
  utf8_of_codepoint c = Some b -> Forall octet b.
Proof.
  intros H.
  destruct (utf8_of_codepoint_cases c b H)
    as [[Hc ->]|[[Hc ->]|[[Hc [Hs ->]]|[Hc ->]]]];
    rewrite ?div_262144, ?div_4096;
    repeat constructor; unfold octet; zdm.
Qed.

Lemma decode_utf8_codepoint c b rest :
  utf8_of_codepoint c = Some b ->
  decode_utf8 (b ++ rest) = cons_ok c (decode_utf8 rest).
Proof.
  intros H.
  destruct (utf8_of_codepoint_cases c b H)
    as [[Hc ->]|[[Hc ->]|[[Hc [Hs ->]]|[Hc ->]]]];
    rewrite ?div_262144, ?div_4096;
    cbn [app decode_utf8]; unfold continuation; decide_tests.
  - reflexivity.
  - f_equal. zdm.
  - match goal with
    | |- (if _ then cons_ok ?e _ else _) = _ => replace e with c by zdm
    end.
    destruct (Z.leb_spec 55296 c); destruct (Z.leb_spec c 57343);
      cbn [andb negb]; try reflexivity; exfalso; lia.
  - f_equal. zdm.
Qed.

(** [s.encode('utf-8').decode('utf-8') == s] *)
Lemma decode_encode_utf8 (s : str) (b : bytes) :
  encode_utf8 s = Ok b -> decode_utf8 b = Ok s.
Proof.
  revert b. induction s as [|c s IH]; intros b; cbn [encode_utf8].
  - now intros [= <-].
  - destruct (utf8_of_codepoint c) as [bc|] eqn:Hc; [|discriminate].
    destruct (encode_utf8 s) as [bs|e]; [|discriminate].
    intros [= <-]. rewrite (decode_utf8_codepoint c bc bs Hc).
    now rewrite (IH bs eq_refl).
Qed.

Lemma encode_utf8_octets (s : str) (b : bytes) :
  encode_utf8 s = Ok b -> Forall octet b.
Proof.
  revert b. induction s as [|c s IH]; intros b; cbn [encode_utf8].
  - intros [= <-]. constructor.
  - destruct (utf8_of_codepoint c) as [bc|] eqn:Hc; [|discriminate].
    destruct (encode_utf8 s) as [bs|e]; [|discriminate].
    intros [= <-]. apply Forall_app. split.
    + exact (utf8_of_codepoint_octets c bc Hc).
    + now apply IH.
Qed.

(** ASCII text is its own UTF-8 form. *)
Lemma encode_utf8_ascii (s : str) :
  Forall ascii_octet s -> encode_utf8 s = Ok s.
Proof.
  induction 1 as [|c s Hc _ IH]; [reflexivity|].
  cbn [encode_utf8]. rewrite IH. unfold ascii_octet in Hc.
  unfold utf8_of_codepoint. decide_tests. reflexivity.
Qed.

Lemma decode_utf8_ascii (b : bytes) :
  Forall ascii_octet b -> decode_utf8 b = Ok b.
Proof.
  induction 1 as [|c s Hc _ IH]; [reflexivity|].
  cbn [decode_utf8]. rewrite IH. unfold ascii_octet in Hc.
  decide_tests. reflexivity.
Qed.

Lemma encode_utf8_total (s : str) :
  forallb scalar_value s = true -> exists b, encode_utf8 s = Ok b.
Proof.
  induction s as [|c s IH]; cbn [forallb encode_utf8].
  - now exists [].
  - intros H. apply andb_true_iff in H as [Hc Hs].
    destruct (IH Hs) as [bs ->].
    assert (Hsome : exists bc, utf8_of_codepoint c = Some bc).
    { unfold scalar_value in Hc.
      apply andb_true_iff in Hc as [Hc Hsur].
      apply andb_true_iff in Hc as [H0 H1].
      apply Z.leb_le in H0. apply Z.ltb_lt in H1.
      apply negb_true_iff in Hsur.
      unfold utf8_of_codepoint. rewrite Hsur.
      repeat match goal with
             | |- context [Z.ltb ?a ?b] => destruct (Z.ltb_spec a b)
             end; try lia; eauto. }
    destruct Hsome as [bc ->]. eauto.
Qed.

End Utf8Facts.

(** ** The encoded question document *)

Module RoundTrip.

Import Codec CodecFacts Utf8Facts Survey Runtime.

Lemma startswith_app (needle rest : str) :
  startswith needle (needle ++ rest) = true.
Proof.
  induction needle as [|c needle IH]; [reflexivity|].
  cbn [app startswith]. now rewrite Z.eqb_refl, IH.
Qed.

Lemma contains_app (before needle after : str) :
  contains needle (before ++ needle ++ after) = true.
Proof.
  induction before as [|c before IH]; cbn [app].
  - destruct (needle ++ after) eqn:E; cbn [contains]; rewrite <- E;
      now rewrite startswith_app.
  - cbn [contains]. rewrite IH. apply orb_true_r.
Qed.

Lemma question_template_head_doctype :
  question_template_head =
  firstn 51 question_template_head ++ doctype
    ++ skipn 98 question_template_head.
Proof. vm_compute. reflexivity. Qed.

Lemma lsq_document_doctype py fields :
  contains doctype (lsq_document py fields) = true.
Proof.
  unfold lsq_document, question_template.
  rewrite question_template_head_doctype, <- !app_assoc.
  apply contains_app.
Qed.

(** What [render_lsq] returns is the base64 text of the UTF-8 form of the
    document. *)
Lemma render_lsq_Ok py fields lsq_str :
  render_lsq py fields = Ok lsq_str ->
  exists b,
    encode_utf8 (lsq_document py fields) = Ok b
    /\ lsq_str = encodestring b.
Proof.
  unfold render_lsq.
  destruct (encode_utf8 (lsq_document py fields)) as [b|e];
    [|discriminate].
  rewrite (decode_utf8_ascii _ (encodestring_ascii b)).
  intros [= <-]. now exists b.
Qed.

(** [render_lsq] returns whenever the document holds no surrogate. *)
Lemma render_lsq_total py fields :
  forallb scalar_value (lsq_document py fields) = true ->
  exists lsq_str, render_lsq py fields = Ok lsq_str.
Proof.
  intros H. destruct (encode_utf8_total _ H) as [b Hb].
  unfold render_lsq. rewrite Hb.
  rewrite (decode_utf8_ascii _ (encodestring_ascii b)). eauto.
Qed.

(** C9: base64-decoding what [render_lsq] returns gives bytes that are
    valid UTF-8; the text they decode to is the document, and it contains
    [<LimeSurveyDocType>Question</LimeSurveyDocType>]. *)
Theorem render_lsq_decodes py fields lsq_str :
  render_lsq py fields = Ok lsq_str ->
  exists encoded decoded text,
    encode_utf8 lsq_str = Ok encoded
    /\ decodestring encoded = Ok decoded
    /\ decode_utf8 decoded = Ok text
    /\ text = lsq_document py fields
    /\ contains (u "<LimeSurveyDocType>Question</LimeSurveyDocType>") text
       = true.
Proof.
  intros H. destruct (render_lsq_Ok py fields lsq_str H) as [b [Hb ->]].
  exists (encodestring b), b, (lsq_document py fields).
  split; [|split; [|split; [|split]]].
  - apply encode_utf8_ascii, encodestring_ascii.
  - apply decodestring_encodestring. exact (encode_utf8_octets _ _ Hb).
  - exact (decode_encode_utf8 _ _ Hb).
  - reflexivity.
  - apply lsq_document_doctype.
Qed.

Lemma render_lsq_decodes_witness :
  let fields := [(u "qid", PNone); (u "title", PStr (u "abc"))] in
  exists lsq_str encoded decoded text,
    render_lsq python fields = Ok lsq_str
    /\ encode_utf8 lsq_str = Ok encoded
    /\ decodestring encoded = Ok decoded
    /\ decode_utf8 decoded = Ok text
    /\ contains (u "<LimeSurveyDocType>Question</LimeSurveyDocType>") text
       = true.
Proof.
  cbv zeta.
  destruct (render_lsq python [(u "qid", PNone); (u "title", PStr (u "abc"))])
    as [lsq_str|e] eqn:E; [|vm_compute in E; discriminate E].
  destruct (render_lsq_decodes python _ lsq_str E)
    as [encoded [decoded [text [H1 [H2 [H3 [_ H5]]]]]]].
  exists lsq_str, encoded, decoded, text. auto.
Defined.

(** A document with text beyond ASCII, and one that cannot be encoded. *)
Example render_lsq_examples :
  (exists lsq_str,
      render_lsq python [(u "title", PStr [233; 8364; 128512])] = Ok lsq_str)
  /\ render_lsq python [(u "title", PStr [55296])] = Err UnicodeEncodeError.
Proof. split; [eexists|]; vm_compute; reflexivity. Qed.

End RoundTrip.

(** * Further properties of the module *)

(** ** Every operation: its call and what it makes of the reply *)

Module OperationFacts.

Import Survey SurveyFacts Runtime Extra.

Section Shape.

Context (py : Python) (api : Api) (w : world).

Ltac tail_status :=
  repeat first
    [ rewrite run_listed_branch
    | rewrite run_assert_branch
    | progress cbn [fst snd bind run lift] ].

(** From the transport call on: the reply is classified, nothing more is
    sent. *)
Ltac from_query :=
  right;
  match goal with
  | |- context [Query ?m ?ps _] => exists ps
  end;
  split; [reflexivity|];
  cbn [bind run method_of];
  match goal with
  | |- context [transport w ?m ?ps] => generalize (transport w m ps)
  end;
  let r := fresh "r" in
  let st := fresh "st" in
  intros r; unfold after_reply, classify, no_status;
  cbn [empty_result error_messages method_of expected_type];
  destruct (status_of r) as [st|];
  [ try match goal with
        | |- context [eq_str st ?sentinel] => destruct (eq_str st sentinel)
        end
  | ];
  tail_status; reflexivity.

Ltac or_fail r :=
  rewrite run_bind_lift; destruct r; [|left; eexists; reflexivity].

(** An operation either raises before it calls the transport, or calls it
    once, under its method name and with the session key, and ends as
    [after_reply] says. *)
Lemma run_invoke (c : invocation) :
  (exists e, run w (invoke py api c) = (Err e, []))
  \/ (exists ps,
         dict_get ps (u "sSessionKey") = Some (session_key api)
         /\ run w (invoke py api c) =
            (after_reply py c (transport w (method_of c) ps),
             [(method_of c, ps)])).
Proof.
  destruct c; cbn [invoke].
  - unfold list_surveys. from_query.
  - unfold list_questions. from_query.
  - unfold add_survey. destruct (truthy survey_id).
    + or_fail (py_int py survey_id). from_query.
    + cbn [bind]. from_query.
  - unfold delete_survey. from_query.
  - unfold export_responses. right.
    match goal with
    | |- context [Query ?m ?ps _] => exists ps
    end.
    split; [reflexivity|]. cbn [bind run method_of].
    match goal with
    | |- context [transport w ?m ?ps] => generalize (transport w m ps)
    end.
    intros r. unfold after_reply, classify, no_status, decode_export.
    cbn [empty_result error_messages method_of expected_type].
    destruct (status_of r) as [st|]; [reflexivity|].
    cbn [bind]. unfold assert_type, assert.
    destruct r; cbn [type pytype_is bind run]; try reflexivity.
    rewrite run_bind_lift. destruct (Codec.encode_utf8 s); [|reflexivity].
    rewrite run_bind_lift. destruct (Codec.decodestring a); [|reflexivity].
    destruct (json_loads py a0); reflexivity.
  - unfold add_question.
    or_fail (resolve_question_type py question_type).
    or_fail (py_int py survey_id). or_fail (py_int py group_id).
    rewrite run_bind_generate_id, id_generator_range.
    match goal with
    | |- context [bind (lift ?r) _] => or_fail r
    end.
    from_query.
  - unfold delete_question. from_query.
  - unfold import_survey.
    match goal with
    | |- context [if ?b then Warn _ _ else _] => destruct b
    end; cbn [bind run];
      (destruct (read_file w _); [|left; eexists; reflexivity]);
      match goal with
      | |- context [bind (lift ?r) _] => or_fail r
      end; from_query.
  - unfold activate_survey. from_query.
  - unfold activate_tokens. from_query.
  - unfold list_groups. from_query.
  - unfold add_group. from_query.
  - unfold get_survey_properties. from_query.
  - unfold set_survey_properties. from_query.
  - unfold add_response. from_query.
Qed.

Lemma reply_run (c : invocation) (response : pyvalue) :
  reply w (invoke py api c) = Some response ->
  outcome w (invoke py api c) = after_reply py c response.
Proof.
  unfold reply, calls, outcome.
  destruct (run_invoke c) as [[e H]|[ps [_ H]]]; rewrite H; cbn [fst snd].
  - discriminate.
  - now intros [= <-].
Qed.

End Shape.

(** X1: a reply without status whose type is not the one the operation
    expects ends every operation, [export_responses] included, with
    [AssertionError]. *)
Theorem unexpected_type_asserts py api w c response :
  reply w (invoke py api c) = Some response ->
  status_of response = None ->
  pytype_is (type response) (expected_type c) = false ->
  outcome w (invoke py api c) = Err AssertionError.
Proof.
  intros Hreply Hstatus Htype.
  rewrite (reply_run py api w c response Hreply).
  unfold after_reply, no_status. now rewrite Hstatus, Htype.
Qed.

Lemma unexpected_type_asserts_witness :
  let c := Call_add_group (PInt 7) (PStr (u "g")) PNone in
  reply (answering (PStr (u "12"))) (invoke python api c)
  = Some (PStr (u "12"))
  /\ outcome (answering (PStr (u "12"))) (invoke python api c)
     = Err AssertionError.
Proof.
  split; [reflexivity|].
  apply (unexpected_type_asserts python api (answering (PStr (u "12")))
           (Call_add_group (PInt 7) (PStr (u "g")) PNone) (PStr (u "12")));
    reflexivity.
Defined.

(** X2: a reply without status whose type is the expected one is returned
    as it is by every operation but [export_responses]: lists, integers and
    mappings pass through unchanged. *)
Theorem expected_type_returned py api w c response :
  reply w (invoke py api c) = Some response ->
  status_of response = None ->
  pytype_is (type response) (expected_type c) = true ->
  error_messages c <> None ->
  outcome w (invoke py api c) = Ok response.
Proof.
  intros Hreply Hstatus Htype Hlist.
  rewrite (reply_run py api w c response Hreply).
  unfold after_reply, no_status. rewrite Hstatus, Htype.
  destruct (error_messages c); [reflexivity|contradiction].
Qed.

Lemma expected_type_returned_witness :
  let c := Call_get_survey_properties (PInt 7) PNone in
  let response := PDict [(u "active", PStr (u "Y"))] in
  reply (answering response) (invoke python api c) = Some response
  /\ outcome (answering response) (invoke python api c) = Ok response.
Proof.
  split; [reflexivity|].
  apply (expected_type_returned python api
           (answering (PDict [(u "active", PStr (u "Y"))]))
           (Call_get_survey_properties (PInt 7) PNone)
           (PDict [(u "active", PStr (u "Y"))]));
    try reflexivity.
  discriminate.
Defined.

(** X3: a status that is an element of the operation's list of messages,
    as Python evaluates that list, is raised as [LimeSurveyError] with the
    method name and the status. *)
Theorem listed_status_is_raised py api w c response s errors :
  reply w (invoke py api c) = Some response ->
  status_of response = Some (PStr s) ->
  error_messages c = Some errors ->
  In s errors ->
  outcome w (invoke py api c) = Err (LimeSurveyError (method_of c) (PStr s)).
Proof.
  intros Hreply Hstatus Herrors Hin.
  rewrite (reply_run py api w c response Hreply).
  unfold after_reply, classify. rewrite Hstatus, Herrors.
  apply listed_In in Hin as Hlisted. rewrite Hlisted.
  destruct (empty_result c) as [sentinel|] eqn:Hempty; [|reflexivity].
  destruct (eq_str (PStr s) sentinel) eqn:Heq; [|reflexivity].
  exfalso. simpl in Heq. apply str_eqb_eq in Heq. subst sentinel.
  destruct c; try discriminate; injection Hempty as <-;
    injection Herrors as <-; vm_compute in Hlisted; discriminate.
Qed.

Lemma listed_status_is_raised_witness :
  let c := Call_delete_survey (PInt 7) in
  let response := status_reply "No permission" in
  reply (answering response) (invoke python api c) = Some response
  /\ outcome (answering response) (invoke python api c)
     = Err (LimeSurveyError (u "delete_survey") (PStr (u "No permission"))).
Proof.
  split; [reflexivity|].
  apply (listed_status_is_raised python api
           (answering (status_reply "No permission"))
           (Call_delete_survey (PInt 7)) (status_reply "No permission")
           (u "No permission") delete_survey_errors); try reflexivity.
  left. reflexivity.
Defined.

(** X4: a status that is not text (a number, a list, None) equals no
    message and no empty-result status: every operation that keeps a list
    of messages returns the reply unchanged. *)
Theorem status_not_text_returned py api w c response status :
  reply w (invoke py api c) = Some response ->
  status_of response = Some status ->
  type status <> str_t ->
  error_messages c <> None ->
  outcome w (invoke py api c) = Ok response.
Proof.
  intros Hreply Hstatus Htype Hlist.
  rewrite (reply_run py api w c response Hreply).
  unfold after_reply, classify. rewrite Hstatus.
  assert (Heq : forall m, eq_str status m = false)
    by (intros m; destruct status; try reflexivity; now contradiction Htype).
  assert (Hlisted : forall errors, listed status errors = false).
  { intros errors. unfold listed.
    induction errors as [|m errors IH]; [reflexivity|].
    cbn [existsb]. now rewrite Heq, IH. }
  destruct (error_messages c) as [errors|]; [|contradiction].
  rewrite Hlisted. destruct (empty_result c); [now rewrite Heq|reflexivity].
Qed.

Lemma status_not_text_returned_witness :
  let c := Call_list_groups (PInt 7) in
  let response := PDict [(u "status", PInt 500)] in
  reply (answering response) (invoke python api c) = Some response
  /\ outcome (answering response) (invoke python api c) = Ok response.
Proof.
  split; [reflexivity|].
  apply (status_not_text_returned python api
           (answering (PDict [(u "status", PInt 500)]))
           (Call_list_groups (PInt 7)) (PDict [(u "status", PInt 500)])
           (PInt 500)); try reflexivity; discriminate.
Defined.

(** X5: no operation calls the transport more than once; the call it makes
    goes under the method name of the operation and carries the session key
    of the API object; an operation that makes no call ends with an
    exception. *)
Theorem at_most_one_call py api w c :
  (List.length (calls w (invoke py api c)) <= 1)%nat
  /\ (forall m ps,
        In (m, ps) (calls w (invoke py api c)) ->
        m = method_of c
        /\ dict_get ps (u "sSessionKey") = Some (session_key api))
  /\ (calls w (invoke py api c) = [] ->
      exists e, outcome w (invoke py api c) = Err e).
Proof.
  unfold calls, outcome.
  destruct (run_invoke py api w c) as [[e H]|[ps [Hkey H]]]; rewrite H;
    cbn [fst snd List.length].
  - split; [lia|]. split; [intros m ps []|]. intros _. now exists e.
  - split; [lia|]. split; [|discriminate].
    intros m ps' [[= <- <-]|[]]. now split.
Qed.

End OperationFacts.

(** ** The identifier generator: reading an identifier back *)

Module EncodeFacts.

Import Utils UtilsFacts Extra.

Lemma indexes_ok : forallb index_ok (seq 0 36) = true.
Proof. vm_compute. reflexivity. Qed.

(** The characters of the alphabet are distinct: each is found at its own
    position. *)
Lemma index_of_ALPHABET_at r :
  0 <= r < 36 -> Codec.index_of (ALPHABET_at r) ALPHABET = Some r.
Proof.
  intros Hr.
  pose proof (proj1 (forallb_forall index_ok (seq 0 36)) indexes_ok
                (Z.to_nat r)) as H.
  assert (Hin : In (Z.to_nat r) (seq 0 36)) by (apply in_seq; lia).
  specialize (H Hin). unfold index_ok in H. rewrite Z2Nat.id in H by lia.
  destruct (Codec.index_of (ALPHABET_at r) ALPHABET) as [i|]; [|discriminate].
  apply Z.eqb_eq in H. now subst.
Qed.

(** The loop of [_encode_int] puts in front of [encoded] the digits of [n]:
    reading the result from 0 is reading [encoded] from [n]. *)
Lemma read_encode_loop (n : Z) :
  0 <= n ->
  forall encoded,
    fold_left read_digit (encode_loop n encoded) (Some 0) =
    fold_left read_digit encoded (Some n).
Proof.
  revert n. apply (Zlt_0_ind
    (fun n => forall encoded,
         fold_left read_digit (encode_loop n encoded) (Some 0) =
         fold_left read_digit encoded (Some n))).
  intros n IH Hn encoded.
  destruct (Z.eq_dec n 0) as [->|Hne].
  - now rewrite encode_loop_nonpos by lia.
  - rewrite encode_loop_pos by lia. change _alphabet_length with 36.
    rewrite IH.
    + cbn [fold_left]. unfold read_digit at 2.
      rewrite index_of_ALPHABET_at by (apply Z.mod_pos_bound; lia).
      do 2 f_equal. pose proof (Z.div_mod n 36). lia.
    + split; [apply Z.div_pos; lia|apply Z.div_lt; lia].
Qed.

(** X6: reading the text of [_encode_int n] in base 36 over the alphabet,
    most significant digit first, gives [n] back, for every [n >= 0]. *)
Theorem encode_int_round_trip (n : Z) :
  0 <= n -> decode_int (_encode_int n) = Some n.
Proof.
  intros Hn. unfold decode_int, _encode_int.
  rewrite read_encode_loop by exact Hn. reflexivity.
Qed.

Lemma encode_int_round_trip_witness :
  0 <= 46655 /\ decode_int (_encode_int 46655) = Some 46655.
Proof. split; [lia|]. apply (encode_int_round_trip 46655). lia. Defined.

(** X7: two different integers that [random.randint] can draw never give
    the same identifier. *)
Theorem encode_int_injective (n m : Z) :
  0 <= n -> 0 <= m -> _encode_int n = _encode_int m -> n = m.
Proof.
  intros Hn Hm H.
  pose proof (read_encode_loop n Hn []) as En.
  pose proof (read_encode_loop m Hm []) as Em.
  fold (_encode_int n) in En. fold (_encode_int m) in Em.
  rewrite H, Em in En. cbn [fold_left] in En. now injection En.
Qed.

Lemma encode_int_injective_witness :
  0 <= 7 /\ _encode_int 7 = _encode_int 7 /\ 7 = 7.
Proof.
  split; [lia|]. split; [reflexivity|].
  apply (encode_int_injective 7 7); [lia|lia|reflexivity].
Defined.

(** X8: [_encode_int] returns the empty text exactly for the integers that
    are not positive: 0 has no digit, not the digit [a]. *)
Theorem encode_int_empty (n : Z) : _encode_int n = [] <-> n <= 0.
Proof.
  split.
  - intros H. destruct (Z_le_gt_dec n 0) as [Hle|Hgt]; [exact Hle|].
    pose proof (read_encode_loop n ltac:(lia) []) as E.
    fold (_encode_int n) in E. rewrite H in E. cbn [fold_left] in E.
    injection E as E. lia.
  - intros H. unfold _encode_int. now apply encode_loop_nonpos.
Qed.

(** The two ends of the range of the draw, written out. *)
Lemma encode_loop_lowest (k : nat) (encoded : str) :
  encode_loop (36 ^ Z.of_nat k) encoded = 98 :: repeat 97 k ++ encoded.
Proof.
  revert encoded. induction k as [|k IH]; intros encoded.
  - change (36 ^ Z.of_nat 0) with 1.
    rewrite encode_loop_pos by lia. now rewrite encode_loop_nonpos.
  - rewrite Nat2Z.inj_succ, Z.pow_succ_r by lia.
    assert (Hpos : 0 < 36 ^ Z.of_nat k) by (apply Z.pow_pos_nonneg; lia).
    rewrite encode_loop_pos by lia. change _alphabet_length with 36.
    replace (36 * 36 ^ Z.of_nat k / 36) with (36 ^ Z.of_nat k)
      by (rewrite Z.mul_comm, Z.div_mul; lia).
    replace ((36 * 36 ^ Z.of_nat k) mod 36) with 0
      by (rewrite Z.mul_comm, Z.mod_mul; lia).
    rewrite IH. change (ALPHABET_at 0) with 97.
    change (repeat 97 (S k)) with (97 :: repeat 97 k).
    rewrite (repeat_cons k 97), <- app_assoc. reflexivity.
Qed.

Lemma encode_loop_highest (k : nat) (encoded : str) :
  encode_loop (36 ^ Z.of_nat k - 1) encoded = repeat 57 k ++ encoded.
Proof.
  revert encoded. induction k as [|k IH]; intros encoded.
  - change (36 ^ Z.of_nat 0 - 1) with 0. now rewrite encode_loop_nonpos.
  - rewrite Nat2Z.inj_succ, Z.pow_succ_r by lia.
    assert (Hpos : 0 < 36 ^ Z.of_nat k) by (apply Z.pow_pos_nonneg; lia).
    rewrite encode_loop_pos by lia. change _alphabet_length with 36.
    replace ((36 * 36 ^ Z.of_nat k - 1) / 36) with (36 ^ Z.of_nat k - 1)
      by (apply (Z.div_unique _ 36 _ 35); lia).
    replace ((36 * 36 ^ Z.of_nat k - 1) mod 36) with 35
      by (apply (Z.mod_unique _ 36 (36 ^ Z.of_nat k - 1) 35); lia).
    rewrite IH. change (ALPHABET_at 35) with 57.
    change (repeat 57 (S k)) with (57 :: repeat 57 k).
    rewrite (repeat_cons k 57), <- app_assoc. reflexivity.
Qed.

(** X9: for a length L >= 1 the lowest draw is written as the letter [b]
    and L - 1 letters [a], the highest as L digits [9]: identifiers of
    length 8 range from [baaaaaaa] to [99999999]. *)
Theorem generate_id_range_ends (L : Z) :
  1 <= L ->
  _encode_int (36 ^ (L - 1)) = u "b" ++ repeat 97 (Z.to_nat (L - 1))
  /\ _encode_int (36 ^ L - 1) = repeat 57 (Z.to_nat L).
Proof.
  intros HL. unfold _encode_int. split.
  - rewrite <- (Z2Nat.id (L - 1)) at 1 by lia.
    rewrite encode_loop_lowest, app_nil_r. reflexivity.
  - rewrite <- (Z2Nat.id L) at 1 by lia.
    now rewrite encode_loop_highest, app_nil_r.
Qed.

Lemma generate_id_range_ends_witness :
  _encode_int (36 ^ (8 - 1)) = u "baaaaaaa"
  /\ _encode_int (36 ^ 8 - 1) = u "99999999".
Proof. apply (generate_id_range_ends 8). lia. Defined.

End EncodeFacts.

(** ** Question types and the paths of [add_question] that send nothing *)

Module QuestionFacts.

Import Survey SurveyFacts RequestFacts Runtime Extra.

(** X10: the codes of the question types are pairwise different: a code
    names one member of [QUESTION_TYPE]. *)
Theorem question_type_codes_distinct (m1 m2 : QUESTION_TYPE) :
  value m1 = value m2 -> m1 = m2.
Proof.
  destruct m1, m2; intros H; try reflexivity; vm_compute in H;
    discriminate H.
Qed.

Lemma question_type_codes_distinct_witness :
  value LIST_RADIO = u "L" /\ LIST_RADIO = LIST_RADIO.
Proof.
  split; [reflexivity|].
  apply (question_type_codes_distinct LIST_RADIO LIST_RADIO). reflexivity.
Defined.

(** X11: every member of [QUESTION_TYPE] is listed in [__members__] under
    a name that [add_question] resolves to the code of that member. *)
Theorem question_type_members_resolve py (m : QUESTION_TYPE) :
  exists name,
    In (name, m) __members__
    /\ resolve_question_type py (PStr name) = Ok (value m).
Proof.
  destruct m; eexists;
    (split;
     [ unfold __members__; repeat (first [left; reflexivity | right])
     | reflexivity ]).
Qed.

Section Paths.

Context (py : Python) (api : Api) (w : world).
Context (survey_id group_id question question_help mandatory : pyvalue).

(** X12: any false value given as question type (None, the empty text, 0,
    an empty list) makes [add_question] behave as for the name
    TEXT_SHORT_FREE_TEXT. *)
Theorem add_question_false_type (question_type : pyvalue) :
  truthy question_type = false ->
  run w (add_question py api survey_id group_id question question_help
           question_type mandatory) =
  run w (add_question py api survey_id group_id question question_help
           (PStr (u "TEXT_SHORT_FREE_TEXT")) mandatory).
Proof.
  intros H. unfold add_question.
  assert (E : resolve_question_type py question_type
              = resolve_question_type py (PStr (u "TEXT_SHORT_FREE_TEXT"))).
  { unfold resolve_question_type at 1. rewrite H. reflexivity. }
  now rewrite E.
Qed.

(** X13: a true question type that is a bool, an int, a float, a list or
    a dict has no method [upper]: [add_question] raises [AttributeError]
    and sends nothing. *)
Theorem add_question_type_not_text (question_type : pyvalue) :
  truthy question_type = true ->
  In (type question_type) [bool_t; int_t; float_t; list_t; dict_t] ->
  run w (add_question py api survey_id group_id question question_help
           question_type mandatory) = (Err AttributeError, []).
Proof.
  intros Htrue Htype. apply add_question_unresolved.
  unfold resolve_question_type. rewrite Htrue. cbn [negb].
  destruct question_type; try reflexivity; cbn [type In] in Htype;
    exfalso; intuition discriminate.
Qed.

(** X14: when [int(survey_id)] fails, or [int(group_id)] after it, the
    error is raised by [add_question] and nothing is sent. *)
Theorem add_question_bad_identifier (question_type : pyvalue) code e :
  resolve_question_type py question_type = Ok code ->
  py_int py survey_id = Err e
  \/ (exists sid, py_int py survey_id = Ok sid /\ py_int py group_id = Err e) ->
  run w (add_question py api survey_id group_id question question_help
           question_type mandatory) = (Err e, []).
Proof.
  intros Hcode H. unfold add_question.
  rewrite run_bind_lift, Hcode, run_bind_lift.
  destruct H as [H|[sid [Hs Hg]]].
  - now rewrite H.
  - now rewrite Hs, run_bind_lift, Hg.
Qed.

End Paths.

Lemma add_question_false_type_witness :
  truthy (PInt 0) = false
  /\ run (answering (PInt 11))
       (add_question python api (PInt 5) (PInt 2) (PStr (u "Age?")) PNone
          (PInt 0) PNone) =
     run (answering (PInt 11))
       (add_question python api (PInt 5) (PInt 2) (PStr (u "Age?")) PNone
          (PStr (u "TEXT_SHORT_FREE_TEXT")) PNone).
Proof.
  split; [reflexivity|].
  apply (add_question_false_type python api (answering (PInt 11))
           (PInt 5) (PInt 2) (PStr (u "Age?")) PNone PNone (PInt 0)).
  reflexivity.
Defined.

Lemma add_question_type_not_text_witness :
  run (answering (PInt 11))
    (add_question python api (PInt 5) (PInt 2) (PStr (u "Age?")) PNone
       (PInt 5) PNone) = (Err AttributeError, []).
Proof.
  apply (add_question_type_not_text python api (answering (PInt 11))
           (PInt 5) (PInt 2) (PStr (u "Age?")) PNone PNone (PInt 5));
    [reflexivity|right; left; reflexivity].
Defined.

Lemma add_question_bad_identifier_witness :
  run (answering (PInt 11))
    (add_question python api PNone (PInt 2) (PStr (u "Age?")) PNone PNone
       PNone) = (Err TypeError, []).
Proof.
  apply (add_question_bad_identifier python api (answering (PInt 11))
           PNone (PInt 2) (PStr (u "Age?")) PNone PNone PNone (u "S")
           TypeError); [reflexivity|left; reflexivity].
Defined.

End QuestionFacts.

(** ** What the remote end can read back from a request, and what the
       client reads from an export *)

Module PayloadFacts.

Import Codec CodecFacts Utf8Facts Survey SurveyFacts RequestFacts
  DocumentFacts RoundTrip Runtime Extra.

(** *** Base64 without lines *)

(** [decodestring(b64encode(s)) == s] *)
Lemma decodestring_b64encode (data : bytes) :
  Forall octet data -> decodestring (b64encode data) = Ok data.
Proof.
  intros H. unfold decodestring, b64encode.
  rewrite <- (app_nil_r (b2a_groups data)).
  rewrite a2b_loop_groups by exact H.
  destruct (whole_groups data); [|reflexivity].
  cbn [a2b_loop Z.eqb]. now rewrite app_nil_r, rev_involutive.
Qed.

Lemma decode_ascii_ascii (b : bytes) :
  Forall ascii_octet b -> decode_ascii b = Ok b.
Proof.
  induction 1 as [|c s Hc _ IH]; [reflexivity|].
  cbn [decode_ascii]. rewrite IH. unfold ascii_octet in Hc.
  rewrite (proj2 (Z.leb_le 0 c)), (proj2 (Z.ltb_lt c 128)) by lia.
  reflexivity.
Qed.

(** *** The document inside the request of [add_question] *)

Lemma concat_map_split {A} (f : A -> str) (l : list A) (x : A) :
  In x l ->
  exists before after,
    List.concat (map f l) = before ++ f x ++ after.
Proof.
  intros Hin. apply in_split in Hin as [l1 [l2 ->]].
  exists (List.concat (map f l1)), (List.concat (map f l2)).
  now rewrite map_app, concat_app.
Qed.

(** The element of every field is a part of the document. *)
Lemma lsq_document_element py (fields : odict) (item : str * pyvalue) :
  In item fields ->
  exists before after,
    lsq_document py fields = before ++ spec_row_element py item ++ after.
Proof.
  intros Hin.
  destruct (concat_map_split (spec_row_element py) fields item Hin)
    as [b [a E]].
  unfold lsq_document, question_template.
  rewrite render_lsq_rows_eq, E.
  exists (question_template_head ++ render_lsq_fieldnames (keys fields)
            ++ question_template_middle ++ u "<rows><row>" ++ b),
    (a ++ u "</row></rows>" ++ question_template_tail).
  now rewrite <- !app_assoc.
Qed.

Lemma lsq_document_contains py (fields : odict) (item : str * pyvalue)
  (needle rest : str) :
  In item fields ->
  spec_row_element py item = needle ++ rest ->
  contains needle (lsq_document py fields) = true.
Proof.
  intros Hin Hsplit.
  destruct (lsq_document_element py fields item Hin) as [b [a ->]].
  rewrite Hsplit, <- app_assoc. apply contains_app.
Qed.

Lemma spec_row_element_value py (name : str) (v : pyvalue) :
  v <> PNone ->
  spec_row_element py (name, v) = cdata_element name (format_s py v).
Proof. intros H. destruct v; try reflexivity. contradiction. Qed.

(** X15: the text that [add_question] sends as [sImportData] is ASCII and
    decodes, by
    base64 and then UTF-8, to a document that holds the resolved type code,
    the mandatory flag (N unless a true value was given), the language en,
    an empty [qid] element and a title that starts with the letter q. *)
Theorem add_question_payload_decodes py api w
  survey_id group_id question question_help question_type mandatory
  code m ps :
  resolve_question_type py question_type = Ok code ->
  calls w (add_question py api survey_id group_id question question_help
             question_type mandatory) = [(m, ps)] ->
  exists lsq_str encoded decoded text,
    dict_get ps (u "sImportData") = Some (PStr lsq_str)
    /\ Forall ascii_octet lsq_str
    /\ encode_utf8 lsq_str = Ok encoded
    /\ decodestring encoded = Ok decoded
    /\ decode_utf8 decoded = Ok text
    /\ contains (cdata_element (u "type") code) text = true
    /\ contains
         (cdata_element (u "mandatory")
            (format_s py (if truthy mandatory then mandatory
                          else PStr (u "N")))) text = true
    /\ contains (cdata_element (u "language") (u "en")) text = true
    /\ contains (u "<qid/>") text = true
    /\ contains (u "<title><![CDATA[q") text = true.
Proof.
  intros Hcode. rewrite add_question_calls, Hcode.
  destruct (py_int py survey_id) as [sid|]; [|discriminate].
  destruct (py_int py group_id) as [gid|]; [|discriminate].
  set (mandatory' := if truthy mandatory then mandatory else PStr (u "N")).
  set (fields := question_fields sid gid (u "q" ++ generated w) question
                   question_help code mandatory').
  destruct (render_lsq py fields) as [lsq_str|] eqn:Hlsq; [|discriminate].
  intros [= <- <-].
  destruct (render_lsq_Ok py fields lsq_str Hlsq) as [b [Hb ->]].
  exists (encodestring b), (encodestring b), b, (lsq_document py fields).
  assert (Hfields : fields = _) by apply question_fields_eq.
  assert (Hmand : mandatory' <> PNone).
  { subst mandatory'. destruct (truthy mandatory) eqn:Ht; [|discriminate].
    intros ->. discriminate Ht. }
  split; [reflexivity|].
  split; [apply encodestring_ascii|].
  split; [apply encode_utf8_ascii, encodestring_ascii|].
  split; [apply decodestring_encodestring, (encode_utf8_octets _ _ Hb)|].
  split; [exact (decode_encode_utf8 _ _ Hb)|].
  repeat split.
  - apply (lsq_document_contains py fields (u "type", PStr code) _ []).
    + rewrite Hfields. cbn [In]. tauto.
    + now rewrite app_nil_r.
  - apply (lsq_document_contains py fields (u "mandatory", mandatory') _ []).
    + rewrite Hfields. cbn [In]. tauto.
    + now rewrite app_nil_r, spec_row_element_value.
  - apply (lsq_document_contains py fields
             (u "language", PStr (u "en")) _ []).
    + rewrite Hfields. cbn [In]. tauto.
    + now rewrite app_nil_r.
  - apply (lsq_document_contains py fields (u "qid", PNone) _ []).
    + rewrite Hfields. cbn [In]. tauto.
    + reflexivity.
  - apply (lsq_document_contains py fields
             (u "title", PStr (u "q" ++ generated w)) _
             (generated w ++ u "]]></title>")).
    + rewrite Hfields. cbn [In]. tauto.
    + reflexivity.
Qed.

Lemma add_question_payload_decodes_witness :
  let w := answering (PInt 11) in
  let p := add_question python api (PInt 5) (PInt 2) (PStr (u "Age?")) PNone
             (PStr (u "list_radio")) PNone in
  exists ps,
    calls w p = [(u "import_question", ps)]
    /\ exists text,
        contains (cdata_element (u "type") (u "L")) text = true
        /\ contains (cdata_element (u "mandatory") (u "N")) text = true.
Proof.
  cbv zeta. eexists. split; [vm_compute; reflexivity|].
  destruct (add_question_payload_decodes python api (answering (PInt 11))
              (PInt 5) (PInt 2) (PStr (u "Age?")) PNone
              (PStr (u "list_radio")) PNone (u "L") (u "import_question") _
              ltac:(reflexivity) ltac:(vm_compute; reflexivity))
    as [lsq_str [encoded [decoded [text H]]]].
  exists text.
  destruct H as [_ [_ [_ [_ [_ [Htype [Hmand _]]]]]]].
  split; [exact Htype|exact Hmand].
Defined.

(** *** import_survey *)

Section Importing.

Context (py : Python) (api : Api) (w : world).
Context (path : str) (new_name dest_survey_id : pyvalue).

(** X16: when the file cannot be read, [import_survey] ends with the error
    of [open] and sends nothing. *)
Theorem import_survey_unreadable e :
  read_file w (PStr path) = Err e ->
  run w (import_survey py api path new_name dest_survey_id) = (Err e, []).
Proof.
  intros H. unfold import_survey.
  match goal with
  | |- context [if ?b then Warn _ _ else _] => destruct b
  end; cbn [bind run]; now rewrite H.
Qed.

(** X17: when the file holds the octets [data], [import_survey] sends one
    call whose [sImportData] is ASCII text that base64-decodes to [data],
    whose [sImportDataType] is the extension of the path without its dot,
    and which passes [new_name] and [dest_survey_id] on as they are,
    whether or not the warning about renaming was issued. *)
Theorem import_survey_payload data :
  read_file w (PStr path) = Ok data ->
  Forall octet data ->
  exists import_data,
    calls w (import_survey py api path new_name dest_survey_id) =
    [(u "import_survey",
      [(u "sSessionKey", session_key api);
       (u "sImportData", PStr import_data);
       (u "sImportDataType", PStr (skipn 1 (snd (splitext py path))));
       (u "sNewSurveyName", new_name);
       (u "DestSurveyID", dest_survey_id)])]
    /\ Forall ascii_octet import_data
    /\ decodestring import_data = Ok data.
Proof.
  intros Hread Hdata. exists (b64encode data).
  split; [|split].
  - unfold calls, import_survey.
    match goal with
    | |- context [if ?b then Warn _ _ else _] => destruct b
    end; cbn [bind run]; rewrite Hread, run_bind_lift,
      (decode_ascii_ascii (b64encode data) (b2a_groups_ascii data));
      cbn [bind run];
      (destruct (status_of _);
       [rewrite run_listed_branch|rewrite run_assert_branch]);
      reflexivity.
  - apply b2a_groups_ascii.
  - now apply decodestring_b64encode.
Qed.

End Importing.

Lemma import_survey_unreadable_witness :
  run (answering (PInt 3))
    (import_survey python api (u "survey.lss") PNone PNone)
  = (Err OSError, []).
Proof.
  apply (import_survey_unreadable python api (answering (PInt 3))
           (u "survey.lss") PNone PNone OSError).
  reflexivity.
Defined.

Lemma import_survey_payload_witness :
  exists import_data,
    calls (one_file [104; 105; 255])
      (import_survey python api (u "survey.lss") (PStr (u "copy")) PNone) =
    [(u "import_survey",
      [(u "sSessionKey", session_key api);
       (u "sImportData", PStr import_data);
       (u "sImportDataType", PStr (u "lss"));
       (u "sNewSurveyName", PStr (u "copy"));
       (u "DestSurveyID", PNone)])]
    /\ Forall ascii_octet import_data
    /\ decodestring import_data = Ok [104; 105; 255].
Proof.
  apply (import_survey_payload python api (one_file [104; 105; 255])
           (u "survey.lss") (PStr (u "copy")) PNone [104; 105; 255]).
  - reflexivity.
  - repeat constructor; unfold octet; lia.
Defined.

(** *** export_responses on a well-formed reply *)

(** X18: when the reply to [export_responses] is the base64 text of the
    octets [data], written with [b64encode] (one line) or with
    [encodestring] (lines of 76 characters), the operation returns what
    [json.loads] makes of [data]. *)
Theorem export_responses_of_base64 py api w
  survey_id document_type language_code completion_status heading_type
  response_type from_response_id to_response_id fields data text :
  let p := export_responses py api survey_id document_type language_code
             completion_status heading_type response_type from_response_id
             to_response_id fields in
  Forall octet data ->
  text = b64encode data \/ text = encodestring data ->
  reply w p = Some (PStr text) ->
  outcome w p = json_loads py data.
Proof.
  cbv zeta. intros Hdata Htext Hreply.
  pose proof (OperationFacts.reply_run py api w
                (Call_export_responses survey_id document_type language_code
                   completion_status heading_type response_type
                   from_response_id to_response_id fields)
                (PStr text) Hreply) as Hrun.
  cbn [invoke] in Hrun. rewrite Hrun.
  unfold after_reply, no_status, decode_export.
  cbn [status_of type expected_type pytype_is error_messages].
  destruct Htext as [-> | ->].
  - rewrite (encode_utf8_ascii (b64encode data) (b2a_groups_ascii data)).
    now rewrite decodestring_b64encode.
  - rewrite (encode_utf8_ascii _ (encodestring_ascii data)).
    now rewrite decodestring_encodestring.
Qed.

Lemma export_responses_of_base64_witness :
  let w := answering (PStr (u "bnVsbA==")) in
  let p := export_responses python api (PInt 7) (PStr (u "json")) PNone
             (PStr (u "all")) (PStr (u "code")) (PStr (u "short")) PNone
             PNone PNone in
  b64encode (u "null") = u "bnVsbA==" /\ outcome w p = Ok PNone.
Proof.
  cbv zeta. split; [reflexivity|].
  apply (export_responses_of_base64 python api
           (answering (PStr (u "bnVsbA==")))
           (PInt 7) (PStr (u "json")) PNone (PStr (u "all"))
           (PStr (u "code")) (PStr (u "short")) PNone PNone PNone
           (u "null") (u "bnVsbA==")).
  - repeat constructor; unfold octet; lia.
  - left. reflexivity.
  - reflexivity.
Defined.

(** *** render_lsq: when it returns, and what it returns *)

Lemma encode_utf8_fails (s : str) :
  forallb scalar_value s = false -> encode_utf8 s = Err UnicodeEncodeError.
Proof.
  induction s as [|c s IH]; cbn [forallb encode_utf8]; [discriminate|].
  intros H. apply andb_false_iff in H as [Hc|Hs].
  - assert (Hnone : utf8_of_codepoint c = None).
    { destruct (utf8_of_codepoint c) as [b|] eqn:E; [|reflexivity].
      exfalso. unfold scalar_value in Hc.
      destruct (utf8_of_codepoint_cases c b E)
        as [[H1 _]|[[H1 _]|[[H1 [H2 _]]|[H1 _]]]];
        rewrite (proj2 (Z.leb_le 0 c)), (proj2 (Z.ltb_lt c 1114112)) in Hc
          by lia; cbn [andb] in Hc; apply negb_false_iff in Hc;
        apply andb_true_iff in Hc as [Ha Hb];
        apply Z.leb_le in Ha; apply Z.leb_le in Hb; lia. }
    now rewrite Hnone.
  - rewrite (IH Hs). now destruct (utf8_of_codepoint c).
Qed.

(** X19: [render_lsq] returns exactly when no name and no value puts a
    surrogate, or anything that is no code point, into the document;
    otherwise it raises [UnicodeEncodeError].  What it returns is ASCII
    text. *)
Theorem render_lsq_returns py (fields : odict) :
  if forallb scalar_value (lsq_document py fields)
  then exists lsq_str,
         render_lsq py fields = Ok lsq_str /\ Forall ascii_octet lsq_str
  else render_lsq py fields = Err UnicodeEncodeError.
Proof.
  destruct (forallb scalar_value (lsq_document py fields)) eqn:H.
  - destruct (encode_utf8_total _ H) as [b Hb].
    exists (encodestring b). unfold render_lsq. rewrite Hb.
    rewrite (decode_utf8_ascii _ (encodestring_ascii b)).
    split; [reflexivity|apply encodestring_ascii].
  - unfold render_lsq. now rewrite (encode_utf8_fails _ H).
Qed.

End PayloadFacts.

(** ** The keys of two requests *)

Module RequestKeys.

Import Survey SurveyFacts RequestFacts Runtime Extra.

(** X20: the request of [add_survey] carries the title as given, the
    language and the format with their defaults [en] and [G] in place of
    any false value, and the format under the key [sForamt]: no key
    [sFormat] is ever sent. *)
Theorem add_survey_request py api w title survey_id language format_ m ps :
  calls w (add_survey py api title survey_id language format_) = [(m, ps)] ->
  m = u "add_survey"
  /\ keys ps = [u "sSessionKey"; u "iSurveyID"; u "sSurveyTitle";
                u "sSurveyLanguage"; u "sForamt"]
  /\ dict_get ps (u "sSurveyTitle") = Some title
  /\ dict_get ps (u "sSurveyLanguage") =
     Some (if truthy language then language else PStr (u "en"))
  /\ dict_get ps (u "sForamt") =
     Some (if truthy format_ then format_ else PStr (u "G"))
  /\ dict_get ps (u "sFormat") = None.
Proof.
  rewrite add_survey_calls.
  destruct (if truthy survey_id then py_int py survey_id else Ok 1)
    as [n|e]; [|discriminate].
  intros [= <- <-]. repeat split.
Qed.

Lemma add_survey_request_witness :
  exists ps,
    calls (answering (PInt 9))
      (add_survey python api (PStr (u "t")) PNone PNone (PStr (u "A")))
    = [(u "add_survey", ps)]
    /\ dict_get ps (u "sSurveyLanguage") = Some (PStr (u "en"))
    /\ dict_get ps (u "sForamt") = Some (PStr (u "A"))
    /\ dict_get ps (u "sFormat") = None.
Proof.
  eexists. split; [reflexivity|].
  destruct (add_survey_request python api (answering (PInt 9))
              (PStr (u "t")) PNone PNone (PStr (u "A")) (u "add_survey") _
              eq_refl) as [_ [_ [_ [Hl [Hf Hn]]]]].
  split; [exact Hl|]. split; [exact Hf|exact Hn].
Defined.

(** X21: the two definitions of [export_responses] send the same values in
    the same order under the same method name, but the one that the class
    keeps (the second) names the bounds [sFromResponseID] and
    [sToResponseID] where the first named them [iFromResponseID] and
    [iToResponseID]: the kept one never sends the keys of the first. *)
Theorem export_responses_rebound py api w
  survey_id document_type language_code completion_status heading_type
  response_type from_response_id to_response_id fields :
  exists ps1 ps2,
    calls w (export_responses_1 api survey_id document_type language_code
               completion_status heading_type response_type
               from_response_id to_response_id fields)
    = [(u "export_responses", ps1)]
    /\ calls w (export_responses py api survey_id document_type language_code
                  completion_status heading_type response_type
                  from_response_id to_response_id fields)
       = [(u "export_responses", ps2)]
    /\ map snd ps1 = map snd ps2
    /\ firstn 7 (keys ps1) = firstn 7 (keys ps2)
    /\ skipn 9 (keys ps1) = skipn 9 (keys ps2)
    /\ dict_get ps1 (u "iFromResponseID") = Some from_response_id
    /\ dict_get ps1 (u "iToResponseID") = Some to_response_id
    /\ dict_get ps2 (u "sFromResponseID") = Some from_response_id
    /\ dict_get ps2 (u "sToResponseID") = Some to_response_id
    /\ dict_get ps2 (u "iFromResponseID") = None
    /\ dict_get ps2 (u "iToResponseID") = None.
Proof.
  do 2 eexists. split; [|split].
  - unfold calls, export_responses_1. cbn [bind run].
    destruct (status_of _);
      [rewrite run_listed_branch|rewrite run_assert_branch]; reflexivity.
  - unfold calls, export_responses.
    change (bind (Query ?m ?ps Ret) ?f) with (Query m ps f).
    cbn [run].
    match goal with
    | |- snd (let (_, _) := run w ?k in _) = _ =>
        assert (Hk : snd (run w k) = []); [|destruct (run w k); cbn [snd] in *;
                                             now rewrite Hk]
    end.
    destruct (transport w _ _) as [| | | |s| |d];
      try (destruct (status_of _); reflexivity).
    cbn [status_of bind assert_type assert type pytype_is].
    rewrite run_bind_lift. destruct (Codec.encode_utf8 s); [|reflexivity].
    rewrite run_bind_lift. destruct (Codec.decodestring _); [|reflexivity].
    destruct (json_loads py _); reflexivity.
  - repeat split.
Qed.

End RequestKeys.

(** ** What [export_responses] hands back and what [add_question] sends by
       default *)

Module PayloadClaims.

Import Codec CodecFacts Utf8Facts Survey SurveyFacts RequestFacts
  DocumentFacts RoundTrip PayloadFacts Runtime Extra.

(** What follows the transport call of [export_responses] when the reply is
    a text: UTF-8 encoding, base64 decoding, [json.loads]; none of the three
    calls the transport. *)
Lemma run_export_responses_text py (w : world) (text : str) :
  run w
    (bind (lift (encode_utf8 text))
       (fun encoded =>
          bind (lift (decodestring encoded))
            (fun decoded => lift (json_loads py decoded)))) =
  (match encode_utf8 text with
   | Ok encoded =>
       match decodestring encoded with
       | Ok decoded => json_loads py decoded
       | Err e => Err e
       end
   | Err e => Err e
   end, []).
Proof.
  rewrite run_bind_lift. destruct (encode_utf8 text); [|reflexivity].
  rewrite run_bind_lift. destruct (decodestring _); [|reflexivity].
  destruct (json_loads py _); reflexivity.
Qed.

(** C4: [export_responses] always makes its transport call; when the reply
    to that call is a text, the operation encodes the text as UTF-8,
    decodes these bytes as base64 and returns what [json.loads] makes of the
    decoded bytes (a failure of one of the three steps is the failure of
    the operation).  In particular, a reply that is the base64 text of the
    bytes [data], in one line or in lines of 76 characters, makes the
    operation return [json.loads(data)]: the bytes behind the base64 text
    are parsed, not the text of the reply. *)
Theorem export_responses_decodes py api w
  survey_id document_type language_code completion_status heading_type
  response_type from_response_id to_response_id fields :
  let p := export_responses py api survey_id document_type language_code
             completion_status heading_type response_type from_response_id
             to_response_id fields in
  exists ps,
    calls w p = [(u "export_responses", ps)]
    /\ forall text,
        transport w (u "export_responses") ps = PStr text ->
        outcome w p =
        match encode_utf8 text with
        | Ok encoded =>
            match decodestring encoded with
            | Ok decoded => json_loads py decoded
            | Err e => Err e
            end
        | Err e => Err e
        end
        /\ forall data,
            Forall octet data ->
            text = b64encode data \/ text = encodestring data ->
            outcome w p = json_loads py data.
Proof.
  cbv zeta. unfold calls, outcome, export_responses.
  change (bind (Query ?m ?ps Ret) ?f) with (Query m ps f).
  match goal with
  | |- context [Query _ ?params _] => exists params
  end.
  cbn [run].
  destruct (transport w _ _) as [| | | |s| |d] eqn:Hreply;
    try (split; [destruct (status_of _); reflexivity|discriminate]).
  cbn [status_of bind assert_type assert type pytype_is].
  rewrite run_export_responses_text. cbn [fst snd].
  split; [reflexivity|].
  intros text [= <-]. split; [reflexivity|].
  intros data Hdata [-> | ->].
  - rewrite (encode_utf8_ascii (b64encode data) (b2a_groups_ascii data)).
    now rewrite decodestring_b64encode.
  - rewrite (encode_utf8_ascii _ (encodestring_ascii data)).
    now rewrite decodestring_encodestring.
Qed.

Lemma export_responses_decodes_witness :
  let reply := u "eyJyZXNwb25zZXMiOiBbeyJpZCI6IDd9XX0=" in
  let w := answering (PStr reply) in
  let p := export_responses python api (PInt 7) (PStr (u "json")) PNone
             (PStr (u "all")) (PStr (u "code")) (PStr (u "short")) PNone
             PNone PNone in
  exists ps data,
    calls w p = [(u "export_responses", ps)]
    /\ transport w (u "export_responses") ps = PStr reply
    /\ reply = b64encode data
    /\ outcome w p
       = Ok (PDict [(u "responses", PList [PDict [(u "id", PInt 7)]])]).
Proof.
  cbv zeta.
  destruct (export_responses_decodes python api
              (answering (PStr (u "eyJyZXNwb25zZXMiOiBbeyJpZCI6IDd9XX0=")))
              (PInt 7) (PStr (u "json")) PNone (PStr (u "all"))
              (PStr (u "code")) (PStr (u "short")) PNone PNone PNone)
    as [ps [Hcalls H]].
  exists ps,
    (u "{" ++ [34] ++ u "responses" ++ [34] ++ u ": [{" ++ [34] ++ u "id"
       ++ [34] ++ u ": 7}]}").
  split; [exact Hcalls|]. split; [reflexivity|].
  split; [reflexivity|].
  destruct (H (u "eyJyZXNwb25zZXMiOiBbeyJpZCI6IDd9XX0=") eq_refl) as [_ Hdata].
  rewrite (Hdata (u "{" ++ [34] ++ u "responses" ++ [34] ++ u ": [{" ++ [34]
                    ++ u "id" ++ [34] ++ u ": 7}]}"));
    [reflexivity| |left; reflexivity].
  apply Forall_forall. intros x Hx. unfold octet.
  vm_compute in Hx. intuition lia.
Defined.




End PayloadClaims.
